(** * FitBit export preparation: a shallow embedding of [main.py]

    The program is a sequence of extract-transform-load routines over a
    fitness-tracker export.  This development embeds the routines of
    [main.py] as Rocq functions and proves properties of the tables they
    write.

    Layout:
    - Python values as the program sees them: JSON documents, dictionaries
      (insertion-ordered association lists), strings;
    - the parts of pandas the program calls, as functions on an explicit
      table type; what pandas leaves to external parsers (date parsing,
      [int(str)], case folding, floating-point resampling) is an interface,
      [Library];
    - the routines of [main.py], under the names of the source, in a small
      monad that records what is printed and what is written and stops at
      the first exception;
    - the theorems.

    The pandas behaviour followed is that of the versions the program runs
    on (it calls [resample("H")]): [json_normalize] flattens top-level
    scalars first, and a column-wise [concat] of unaligned datetime indexes
    sorts their union.

    Not embedded: [suffix_check], which only prints, and
    [prep_heart_rate_details_xr], whose array file is outside the tables
    considered here. *)

From Stdlib Require Import List String Ascii ZArith Bool Lia Permutation Sorted.
Import ListNotations.
Set Warnings "-register-all".
Local Open Scope string_scope.
Local Open Scope list_scope.

(* ===================================================================== *)
(** * Python values                                                       *)
(* ===================================================================== *)

(** What [json.load] returns.  A finite float is kept by its exact value
    [m * 2^e]; [JNaN] is the float NaN ([json.load] accepts the literal). *)
Inductive json : Type :=
| JNull
| JBool (b : bool)
| JInt (n : Z)
| JFloat (m e : Z)
| JNaN
| JStr (s : string)
| JArr (l : list json)
| JObj (d : list (string * json)).

(** A Python [dict] with string keys: an association list in insertion
    order, keys unique. *)
Definition dict (V : Type) : Type := list (string * V).

Fixpoint dict_get {V} (k : string) (d : dict V) : option V :=
  match d with
  | [] => None
  | (k', v) :: d' => if k' =? k then Some v else dict_get k d'
  end.

Definition dict_mem {V} (k : string) (d : dict V) : bool :=
  match dict_get k d with Some _ => true | None => false end.

(** [d[k] = v]: an existing key keeps its position, a new key goes last. *)
Fixpoint dict_set {V} (k : string) (v : V) (d : dict V) : dict V :=
  match d with
  | [] => [(k, v)]
  | (k', v') :: d' => if k' =? k then (k, v) :: d' else (k', v') :: dict_set k v d'
  end.

(** [{**a, **b}], and a dictionary filled by successive assignments. *)
Definition dict_update {V} (a b : dict V) : dict V :=
  fold_left (fun acc kv => dict_set (fst kv) (snd kv) acc) b a.

Definition dict_of_items {V} (items : list (string * V)) : dict V :=
  dict_update [] items.

(** Outcome of a computation that may raise.  [Raised] is a Python
    exception; [Unmodelled] marks inputs on which pandas goes on in a way
    this embedding does not follow (duplicate column labels, list-valued
    records): nothing is stated about them. *)
Inductive result (A : Type) : Type :=
| Ok (a : A)
| Raised
| Unmodelled.
Arguments Ok {A} a.
Arguments Raised {A}.
Arguments Unmodelled {A}.

Definition rbind {A B} (r : result A) (k : A -> result B) : result B :=
  match r with
  | Ok a => k a
  | Raised => Raised
  | Unmodelled => Unmodelled
  end.

Declare Scope result_scope.
Delimit Scope result_scope with res.
Notation "x <- r ;; k" := (rbind r (fun x => k))
  (at level 61, r at next level, right associativity) : result_scope.

Fixpoint rmap {A B} (f : A -> result B) (l : list A) : result (list B) :=
  match l with
  | [] => Ok []
  | a :: l' =>
      (b <- f a ;; bs <- rmap f l' ;; Ok (b :: bs))%res
  end.

Definition of_option {A} (o : option A) : result A :=
  match o with Some a => Ok a | None => Raised end.

(* --------------------------------------------------------------------- *)
(** ** Strings                                                            *)
(* --------------------------------------------------------------------- *)

Module Str.

(** [s.endswith(ext)]. *)
Fixpoint ends_with (ext s : string) : bool :=
  (ext =? s) ||
  match s with
  | EmptyString => false
  | String _ s' => ends_with ext s'
  end.

(** [old in s] for strings. *)
Fixpoint contains (old s : string) : bool :=
  String.prefix old s ||
  match s with
  | EmptyString => false
  | String _ s' => contains old s'
  end.

(** [s.replace(old, new)] for a non-empty [old], as at every call of the
    program: occurrences are replaced from the left, without overlap.
    [skip] counts the characters of a matched occurrence still to drop. *)
Fixpoint replace_aux (old new : string) (skip : nat) (s : string) : string :=
  match s with
  | EmptyString => EmptyString
  | String c s' =>
      match skip with
      | S k => replace_aux old new k s'
      | O =>
          if String.prefix old s
          then new ++ replace_aux old new (String.length old - 1) s'
          else String c (replace_aux old new 0 s')
      end
  end.

Definition replace (old new s : string) : string := replace_aux old new 0 s.

(** [fnmatch] for the patterns of the program: literal characters and
    [*], which stands for any run of characters, the empty one too. *)
Fixpoint fnmatch (pat name : string) {struct pat} : bool :=
  match pat with
  | EmptyString => match name with EmptyString => true | _ => false end
  | String c pat' =>
      if Ascii.eqb c "*"%char
      then (fix star (n : string) : bool :=
              fnmatch pat' n ||
              match n with
              | EmptyString => false
              | String _ n' => star n'
              end) name
      else match name with
           | EmptyString => false
           | String d name' => Ascii.eqb c d && fnmatch pat' name'
           end
  end.

(** [sorted] on file names of one directory: insertion by [<=] on strings
    (code-point order). *)
Fixpoint insert_name (x : string) (l : list string) : list string :=
  match l with
  | [] => [x]
  | y :: l' => if String.leb x y then x :: l else y :: insert_name x l'
  end.

Definition sorted (l : list string) : list string := fold_right insert_name [] l.

End Str.

Example replace_ex1 : Str.replace "value." "" "value.date" = "date".
Proof. reflexivity. Qed.
Example replace_ex2 : Str.replace "aa" "b" "aaa" = "ba".
Proof. reflexivity. Qed.
Example fnmatch_ex1 : Str.fnmatch "steps-*.json" "steps-2023-01-01.json" = true.
Proof. reflexivity. Qed.
Example fnmatch_ex2 : Str.fnmatch "*.json" ".json" = true.
Proof. reflexivity. Qed.
Example fnmatch_ex3 : Str.fnmatch "*.json" "a.jsonx" = false.
Proof. reflexivity. Qed.

(* ===================================================================== *)
(** * The part of pandas the program uses                                 *)
(* ===================================================================== *)

Module Pd.

(** A parsed timestamp (nanoseconds since the epoch), or [None] for NaT. *)
Definition stamp : Type := option Z.

(** A table cell: a value as loaded from JSON, the NaN pandas puts where a
    record has no such key, a timestamp, or NaT. *)
Inductive cell : Type :=
| Missing
| Val (j : json)
| Time (t : Z)
| NaT.

Definition of_stamp (s : stamp) : cell :=
  match s with Some t => Time t | None => NaT end.

(** A row carries its index label and its cells by column label; a column
    the row has no entry for reads as NaN. *)
Record Row : Type := mkRow { label : cell; fields : dict cell }.

Record DataFrame : Type := mkDF {
  index_name : option string;
  columns : list string;
  rows : list Row
}.

Definition get (c : string) (r : Row) : cell :=
  match dict_get c (fields r) with Some v => v | None => Missing end.

Definition mem (c : string) (l : list string) : bool := existsb (String.eqb c) l.

Definition has_column (c : string) (df : DataFrame) : bool := mem c (columns df).

(** [df[c]] and [df.c]: raise when there is no such column. *)
Definition column (c : string) (df : DataFrame) : result (list cell) :=
  if has_column c df then Ok (map (get c) (rows df)) else Raised.

Definition index (df : DataFrame) : list cell := map label (rows df).

Definition empty : DataFrame := mkDF None [] [].

Fixpoint nodupb (l : list string) : bool :=
  match l with
  | [] => true
  | x :: l' => negb (mem x l') && nodupb l'
  end.

Definition remove_key {V} (k : string) (d : dict V) : dict V :=
  filter (fun kv => negb (fst kv =? k)) d.

Definition remove_name (k : string) (l : list string) : list string :=
  filter (fun c => negb (c =? k)) l.

(** ** [DataFrame(records)]: columns in order of first appearance, rows
    labelled 0, 1, 2, ... *)
Definition add_key (acc : list string) (k : string) : list string :=
  if mem k acc then acc else acc ++ [k].

Definition union_keys (recs : list (dict cell)) : list string :=
  fold_left (fun acc d => fold_left add_key (map fst d) acc) recs [].

Fixpoint range_rows (i : Z) (recs : list (dict cell)) : list Row :=
  match recs with
  | [] => []
  | d :: recs' => mkRow (Val (JInt i)) d :: range_rows (i + 1) recs'
  end.

Definition from_records (recs : list (dict cell)) : DataFrame :=
  mkDF None (union_keys recs) (range_rows 0 recs).

(** ** [json_normalize(data, sep=sep)] (no record path) *)

Definition is_obj (j : json) : bool :=
  match j with JObj _ => true | _ => false end.

Definition join_key (sep key k : string) : string :=
  if key =? "" then k else (key ++ sep ++ k)%string.

(** [_normalise_json]: the leaves of a nested object in depth-first order,
    each under its joined key. *)
Fixpoint normalise_json (sep key : string) (j : json) {struct j} : list (string * json) :=
  match j with
  | JObj d =>
      (fix items (d : list (string * json)) : list (string * json) :=
         match d with
         | [] => []
         | (k, v) :: d' => normalise_json sep (join_key sep key k) v ++ items d'
         end) d
  | _ => [(key, j)]
  end.

Definition as_cells (d : dict json) : dict cell :=
  map (fun kv => (fst kv, Val (snd kv))) d.

(** [_normalise_json_ordered]: top-level scalars first, then the flattened
    nested objects. *)
Definition normalise_json_ordered (sep : string) (d : dict json) : dict cell :=
  let top := filter (fun kv => negb (is_obj (snd kv))) d in
  let nested :=
    dict_of_items (normalise_json sep "" (JObj (filter (fun kv => is_obj (snd kv)) d))) in
  as_cells (dict_update top nested).

(** [_simple_json_normalize] on one element: an object is flattened, a
    scalar gives the empty record. *)
Definition simple_json_normalize (sep : string) (j : json) : result (dict cell) :=
  match j with
  | JObj d => Ok (normalise_json_ordered sep d)
  | JArr _ => Unmodelled
  | _ => Ok []
  end.

Definition json_normalize_list (sep : string) (data : list json) : result DataFrame :=
  match data with
  | [] => Ok empty
  | _ => (recs <- rmap (simple_json_normalize sep) data ;; Ok (from_records recs))%res
  end.

(** The argument is a list, or one object (taken as a one-element list);
    anything else raises. *)
Definition json_normalize (sep : string) (data : json) : result DataFrame :=
  match data with
  | JArr l => json_normalize_list sep l
  | JObj _ => json_normalize_list sep [data]
  | _ => Raised
  end.

(** ** [json_normalize(data, record_path=..., meta=..., errors="ignore")] *)

(** [nested_to_record] on one record: the dictionary is copied, then every
    nested object is popped and its flattened items written back. *)
Fixpoint nested_to_record (sep prefix : string) (top : bool) (j : json) {struct j} : dict json :=
  match j with
  | JObj d =>
      (fix items (its : list (string * json)) (new_d : dict json) : dict json :=
         match its with
         | [] => new_d
         | (k, v) :: rest =>
             let newkey := if top then k else (prefix ++ sep ++ k)%string in
             match v with
             | JObj _ =>
                 items rest
                   (dict_update (remove_key k new_d) (nested_to_record sep newkey false v))
             | _ =>
                 if top then items rest new_d
                 else items rest (dict_set newkey v (remove_key k new_d))
             end
         end) d d
  | _ => []
  end.

Definition flatten_record (sep : string) (j : json) : result (dict cell) :=
  match j with
  | JObj _ => Ok (as_cells (nested_to_record sep "" true j))
  | _ => Unmodelled
  end.

(** [_pull_records]: the list under key [k]; a null gives no records, a
    missing key or any other value raises. *)
Definition pull_records (obj : json) (k : string) : result (list json) :=
  match obj with
  | JObj d =>
      match dict_get k d with
      | Some (JArr l) => Ok l
      | Some JNull | Some JNaN => Ok []
      | _ => Raised
      end
  | _ => Raised
  end.

(** [obj[k]] followed by the iteration of [_recursive_extract] over it. *)
Definition descend (obj : json) (k : string) : result (list json) :=
  match obj with
  | JObj d =>
      match dict_get k d with
      | Some (JObj d') => Ok [JObj d']
      | Some (JArr l) => Ok l
      | Some (JStr "") => Ok []
      | _ => Raised
      end
  | _ => Raised
  end.

Fixpoint pull_path (path : list string) (obj : json) {struct path} : result (list json) :=
  match path with
  | [] => Raised
  | k :: rest =>
      match rest with
      | [] => pull_records obj k
      | _ :: _ =>
          (objs <- descend obj k ;;
           groups <- rmap (pull_path rest) objs ;;
           Ok (List.concat groups))%res
      end
  end.

(** [_pull_field] for a top-level meta key under [errors="ignore"]. *)
Definition pull_meta (obj : json) (k : string) : result (string * cell) :=
  match obj with
  | JObj d =>
      match dict_get k d with
      | Some v => Ok (k, Val v)
      | None => Ok (k, Missing)
      end
  | _ => Raised
  end.

(** The rows one element of [data] contributes: its records, flattened,
    each followed by the element's meta values. *)
Definition record_rows (sep : string) (path meta : list string) (obj : json)
  : result (list (dict cell * dict cell)) :=
  (recs <- pull_path path obj ;;
   metas <- rmap (pull_meta obj) meta ;;
   flat <- rmap (flatten_record sep) recs ;;
   Ok (map (fun r => (r, metas)) flat))%res.

Definition json_normalize_records (sep : string) (data : list json)
    (record_path meta : list string) : result DataFrame :=
  match data with
  | [] => Ok empty
  | _ =>
      (groups <- rmap (record_rows sep record_path meta) data ;;
       let rs := List.concat groups in
       let rec_cols := union_keys (map fst rs) in
       if existsb (fun k => mem k rec_cols) meta then Raised
       else Ok (mkDF None (rec_cols ++ meta)
                  (range_rows 0 (map (fun r => fst r ++ snd r) rs))))%res
  end.

(** ** Column and index operations *)

(** [df.rename(columns=f)].  Two columns renamed to one label make a table
    with a repeated label, which is not followed here. *)
Definition rename (f : string -> string) (df : DataFrame) : result DataFrame :=
  let cols := map f (columns df) in
  if nodupb cols
  then Ok (mkDF (index_name df) cols
             (map (fun r => mkRow (label r) (map (fun kv => (f (fst kv), snd kv)) (fields r)))
                  (rows df)))
  else Unmodelled.

(** [rename(columns=table)] with a fixed old-name -> new-name table. *)
Definition mapper (table : dict string) (c : string) : string :=
  match dict_get c table with Some n => n | None => c end.

Fixpoint assign (c : string) (rs : list Row) (vals : list cell) : list Row :=
  match rs, vals with
  | r :: rs', v :: vals' => mkRow (label r) (dict_set c v (fields r)) :: assign c rs' vals'
  | _, _ => []
  end.

(** [df[c] = vals]: the lengths must agree. *)
Definition set_column (c : string) (vals : list cell) (df : DataFrame) : result DataFrame :=
  if Nat.eqb (List.length vals) (List.length (rows df))
  then Ok (mkDF (index_name df) (add_key (columns df) c) (assign c (rows df) vals))
  else Raised.

(** [df.set_index(c, drop=True)]. *)
Definition set_index (c : string) (df : DataFrame) : result DataFrame :=
  if has_column c df
  then Ok (mkDF (Some c) (remove_name c (columns df))
             (map (fun r => mkRow (get c r) (remove_key c (fields r))) (rows df)))
  else Raised.

(** [df.drop(columns=cs)]: every label must be present. *)
Definition drop (cs : list string) (df : DataFrame) : result DataFrame :=
  if forallb (fun c => has_column c df) cs
  then Ok (mkDF (index_name df)
             (filter (fun c => negb (mem c cs)) (columns df))
             (map (fun r => mkRow (label r) (filter (fun kv => negb (mem (fst kv) cs)) (fields r)))
                  (rows df)))
  else Raised.

(** [df[mask]] for a row predicate. *)
Definition select (keep : Row -> bool) (df : DataFrame) : DataFrame :=
  mkDF (index_name df) (columns df) (filter keep (rows df)).

(** ** Ordering of an index *)

Definition is_stamp (c : cell) : bool :=
  match c with Time _ | NaT => true | _ => false end.

(** Order on index labels: timestamps by time with NaT last, integer
    labels (log IDs) by value. *)
Definition label_leb (a b : cell) : bool :=
  match b with
  | NaT => true
  | Time y => match a with Time x => (x <=? y)%Z | _ => false end
  | Val (JInt y) => match a with Val (JInt x) => (x <=? y)%Z | _ => false end
  | _ => false
  end.

(** Sorting by a label: insertion, each element before the first one that
    is not smaller. *)
Fixpoint insert_by {A} (key : A -> cell) (x : A) (l : list A) : list A :=
  match l with
  | [] => [x]
  | y :: l' => if label_leb (key x) (key y) then x :: l else y :: insert_by key x l'
  end.

Definition sort_by {A} (key : A -> cell) (l : list A) : list A :=
  fold_right (insert_by key) [] l.

Definition sort_rows (l : list Row) : list Row := sort_by label l.

(** [df.sort_index(ascending=True)] on a datetime index.  The order pandas
    gives to rows of equal label is not specified; this model keeps them in
    their order of arrival. *)
Definition sort_index (df : DataFrame) : result DataFrame :=
  if forallb is_stamp (index df)
  then Ok (mkDF (index_name df) (columns df) (sort_rows (rows df)))
  else Unmodelled.

(** ** [pd.concat] *)

Definition opt_eqb (a b : option string) : bool :=
  match a, b with
  | Some x, Some y => x =? y
  | None, None => true
  | _, _ => false
  end.

Definition common_name (dfs : list DataFrame) : option string :=
  match dfs with
  | [] => None
  | df :: rest =>
      if forallb (fun d => opt_eqb (index_name d) (index_name df)) rest
      then index_name df else None
  end.

(** [pd.concat(dfs, axis="index")]: the rows one after the other, the
    columns united in order of first appearance. *)
Definition concat_index (dfs : list DataFrame) : result DataFrame :=
  match dfs with
  | [] => Raised
  | _ => Ok (mkDF (common_name dfs)
               (fold_left (fun acc d => fold_left add_key (columns d) acc) dfs [])
               (List.concat (map rows dfs)))
  end.

Definition label_stamp (c : cell) : result stamp :=
  match c with
  | Time t => Ok (Some t)
  | NaT => Ok None
  | _ => Unmodelled
  end.

Definition stamp_eqb (a b : stamp) : bool :=
  match a, b with
  | Some x, Some y => (x =? y)%Z
  | None, None => true
  | _, _ => false
  end.

Fixpoint stamps_eqb (a b : list stamp) : bool :=
  match a, b with
  | [], [] => true
  | x :: a', y :: b' => stamp_eqb x y && stamps_eqb a' b'
  | _, _ => false
  end.

Definition stamp_mem (s : stamp) (l : list stamp) : bool := existsb (stamp_eqb s) l.

Fixpoint stamps_unique (l : list stamp) : bool :=
  match l with
  | [] => true
  | s :: l' => negb (stamp_mem s l') && stamps_unique l'
  end.

(** [Index.union(other, sort=False)] on indexes without repeated labels:
    the labels of [other] that are new are appended. *)
Definition union_append (acc other : list stamp) : list stamp :=
  acc ++ filter (fun s => negb (stamp_mem s acc)) other.

(** The row of [df] labelled [s], as [reindex] finds it. *)
Definition fields_at (df : DataFrame) (s : stamp) : dict cell :=
  match find (fun r => match label_stamp (label r) with
                       | Ok s' => stamp_eqb s' s
                       | _ => false
                       end) (rows df) with
  | Some r => fields r
  | None => []
  end.

Fixpoint add_fields (rs : list Row) (fs : list (dict cell)) : list Row :=
  match rs, fs with
  | r :: rs', f :: fs' => mkRow (label r) (fields r ++ f) :: add_fields rs' fs'
  | _, _ => []
  end.

(** [pd.concat(dfs, axis="columns")] on datetime-indexed tables (the only
    use in the program): an outer join on the index.
    - When every table has the same index, the rows are put side by side.
    - Otherwise the new index is the union of the indexes and every table
      is reindexed to it.  For datetime indexes that are not aligned the
      union is sorted, whatever [sort] says (so the documentation of
      [concat] for the pandas versions that accept the program's
      [resample("H")]).
    - Tables that differ in index and repeat a label are not followed. *)
Definition concat_columns (dfs : list DataFrame) : result DataFrame :=
  match dfs with
  | [] => Raised
  | df0 :: rest =>
      (idxs <- rmap (fun d => rmap label_stamp (index d)) dfs ;;
       let cols := List.concat (map columns dfs) in
       if negb (nodupb cols) then Unmodelled
       else
         match idxs with
         | [] => Raised
         | i0 :: irest =>
             if forallb (stamps_eqb i0) irest
             then Ok (mkDF (common_name dfs) cols
                        (fold_left (fun acc d => add_fields acc (map fields (rows d)))
                                   rest (rows df0)))
             else if forallb stamps_unique idxs
             then
               let new_index := sort_by of_stamp (fold_left union_append irest i0) in
               Ok (mkDF (common_name dfs) cols
                     (fold_left (fun acc d => add_fields acc (map (fields_at d) new_index))
                                dfs (map (fun s => mkRow (of_stamp s) []) new_index)))
             else Unmodelled
         end)%res
  end.

(** ** Element-wise tests *)

(** [Series.notna()]: [None], NaN and NaT are missing values. *)
Definition notna (c : cell) : bool :=
  match c with
  | Missing | NaT | Val JNull | Val JNaN => false
  | _ => true
  end.

(** [Series.eq(s)] against a string [s]: only a string cell can be equal
    to it. *)
Definition eq_str (s : string) (c : cell) : bool :=
  match c with
  | Val (JStr x) => x =? s
  | _ => false
  end.

(** The integer part of the float [m * 2^e], towards zero. *)
Definition trunc_float (m e : Z) : Z :=
  if (0 <=? e)%Z then (m * 2 ^ e)%Z else Z.quot m (2 ^ (- e)).

(** The values of a 64-bit signed integer, the target of [astype(int)]. *)
Definition int64_min : Z := (- 2 ^ 63)%Z.
Definition int64_max : Z := (2 ^ 63 - 1)%Z.

Definition in_int64 (n : Z) : bool := (int64_min <=? n)%Z && (n <=? int64_max)%Z.

(** Storing a Python integer in an [int64] array: [OverflowError] outside
    the range. *)
Definition to_int64 (n : Z) : result Z := if in_int64 n then Ok n else Raised.

(** One element of [Series.astype(int)], a cast to [int64].
    - Missing values raise.
    - A string goes through [int(str)], given as [int_of_str], and the
      integer must fit.
    - An integer outside [int64] makes the column an object column, whose
      cast raises; only the integers from [2^63] to [2^64 - 1] can also sit
      in an unsigned column, whose cast wraps: they are not followed.
    - A float is truncated towards zero; what the cast does with a float
      outside [int64] depends on the platform and is not followed. *)
Definition astype_int (int_of_str : string -> option Z) (c : cell) : result Z :=
  match c with
  | Val (JInt n) =>
      if in_int64 n then Ok n
      else if (0 <=? n)%Z && (n <? 2 ^ 64)%Z then Unmodelled
      else Raised
  | Val (JBool b) => Ok (if b then 1 else 0)%Z
  | Val (JFloat m e) =>
      let n := trunc_float m e in
      if in_int64 n then Ok n else Unmodelled
  | Val (JStr s) => (n <- of_option (int_of_str s) ;; to_int64 n)%res
  | Time _ => Unmodelled
  | _ => Raised
  end.

(** ** What pandas delegates *)

(** - [to_datetime]: [pd.to_datetime] on a column; parsing (and, in later
      versions, format inference over the whole column) is the library's;
      it gives one timestamp or NaT per element, or raises.
    - [int_of_str]: Python's [int] on a string.
    - [casefold]: [str.casefold].
    - [resample_mean]: [df.resample(rule).mean()], floating-point means
      over time bins. *)
Class Library : Type := {
  to_datetime : list cell -> result (list stamp);
  int_of_str : string -> option Z;
  casefold : string -> string;
  resample_mean : string -> DataFrame -> result DataFrame
}.

(** [df[c] = pd.to_datetime(df[c])]. *)
Definition convert_datetime `{Library} (c : string) (df : DataFrame) : result DataFrame :=
  (col <- column c df ;;
   ts <- to_datetime col ;;
   set_column c (map of_stamp ts) df)%res.

(** ** [pd.read_csv] on a rectangular file with distinct header labels;
    the cells are given as pandas has typed them. *)
Definition read_csv (header : list string) (body : list (list cell)) : result DataFrame :=
  if nodupb header && forallb (fun r => Nat.eqb (List.length r) (List.length header)) body
  then Ok (mkDF None header (range_rows 0 (map (combine header) body)))
  else Unmodelled.

End Pd.

(* ===================================================================== *)
(** * The program                                                         *)
(* ===================================================================== *)

Import Pd.

(** ** What the program reads and what it does *)

(** A file of the flat raw-data directory, by what its readers make of it:
    a JSON document for [json.load], a rectangular table for
    [pd.read_csv]; [Unreadable] is anything that makes the reader raise (a
    directory, malformed text). *)
Inductive content : Type :=
| JsonFile (j : json)
| CsvFile (header : list string) (body : list (list cell))
| Unreadable.

(** [raw_data_path]: its entries by name, in the order the system lists
    them. *)
Definition directory : Type := list (string * content).

(** The unpacked export under [source_data_path]. *)
Inductive node : Type :=
| File (name : string)
| Dir (name : string) (children : list node).

Definition node_name (n : node) : string :=
  match n with File name => name | Dir name _ => name end.

Definition is_dir (n : node) : bool :=
  match n with File _ => false | Dir _ _ => true end.

(** A path below [source_data_path], by its parts. *)
Definition path : Type := list string.

(** What a routine does to the outside: console lines, tables written
    under [data_path], files copied into [raw_data_path]. *)
Inductive event : Type :=
| Print (line : string)
| Log (message : string)
| ToCsv (file : string) (df : DataFrame)
| ToHdf (file : string) (df : DataFrame)
| Copy (src : path) (dst : string).

(** A run: its events in order, up to the exception if there is one. *)
Definition M (A : Type) : Type := (list event * result A)%type.

Definition ret {A} (a : A) : M A := ([], Ok a).

Definition bind {A B} (m : M A) (k : A -> M B) : M B :=
  match m with
  | (t, Ok a) => let (t', r) := k a in (t ++ t', r)
  | (t, Raised) => (t, Raised)
  | (t, Unmodelled) => (t, Unmodelled)
  end.

Definition lift {A} (r : result A) : M A := ([], r).

Definition emit (e : event) : M unit := ([e], Ok tt).

Declare Scope io_scope.
Delimit Scope io_scope with io.
Notation "x <- m ;; k" := (bind m (fun x => k))
  (at level 61, m at next level, right associativity) : io_scope.
Notation "m ;; k" := (bind m (fun _ => k))
  (at level 61, right associativity) : io_scope.

Definition trace {A} (m : M A) : list event := fst m.
Definition outcome {A} (m : M A) : result A := snd m.

(** [for x in l: body(x)]. *)
Fixpoint for_each {A} (l : list A) (body : A -> M unit) : M unit :=
  match l with
  | [] => ret tt
  | x :: l' => (body x ;; for_each l' body)%io
  end.

(** ** (D) Staging *)

(** The entries of one directory that match, with their paths. *)
Definition matches (pat : string) (here : path) (children : list node) : list (path * bool) :=
  map (fun n => (here ++ [node_name n], is_dir n))
      (filter (fun n => Str.fnmatch pat (node_name n)) children).

(** [dir.glob("**/" + pat)] below one entry: every directory, itself
    first, gives its matching entries. *)
Fixpoint glob_below (pat : string) (here : path) (n : node) {struct n} : list (path * bool) :=
  match n with
  | File _ => []
  | Dir name children =>
      matches pat (here ++ [name]) children
      ++ flat_map (glob_below pat (here ++ [name])) children
  end.

(** [source_data_path.glob("**/" + pat)]. *)
Definition rglob (pat : string) (source : list node) : list (path * bool) :=
  matches pat [] source ++ flat_map (glob_below pat []) source.

(** [copy2(file_path, raw_data_path / file_path.name)]; a directory
    raises. *)
Definition copy2 (entry : path * bool) : M unit :=
  if snd entry then lift Raised
  else emit (Copy (fst entry) (last (fst entry) "")).

Definition collect_data (source : list node) : M unit :=
  (for_each (rglob "*.json" source) copy2 ;;
   for_each (rglob "*.csv" source) copy2)%io.

(** ** (C) Helper functions *)

Definition log (message : string) : M unit := emit (Log message).

Definition print (line : string) : M unit := emit (Print line).

(** [raw_data_path.glob(pat)], as names. *)
Definition glob (fs : directory) (pat : string) : list string :=
  map fst (filter (fun e => Str.fnmatch pat (fst e)) fs).

Definition file_to_json (fs : directory) (infile_path : string) : result json :=
  match dict_get infile_path fs with
  | Some (JsonFile j) => Ok j
  | _ => Raised
  end.

(** [acc + x] for a list [acc]: [x] must be a list. *)
Definition list_add (acc : list json) (x : json) : result (list json) :=
  match x with
  | JArr l => Ok (acc ++ l)
  | _ => Raised
  end.

(** [sum(gen, start)]: the files are loaded and added from the left. *)
Fixpoint sum_files (fs : directory) (start : list json) (file_list : list string)
  : result (list json) :=
  match file_list with
  | [] => Ok start
  | infile_path :: rest =>
      (x <- file_to_json fs infile_path ;;
       acc <- list_add start x ;;
       sum_files fs acc rest)%res
  end.

Definition files_to_json (fs : directory) (file_list : list string) : result (list json) :=
  sum_files fs [] file_list.

Section Routines.

Context `{Library}.

(** [df.datetime = pd.to_datetime(df.datetime)] and
    [df.set_index("datetime", drop=True).sort_index(ascending=True)]. *)
Definition index_by_datetime (c : string) (df : DataFrame) : result DataFrame :=
  (df <- convert_datetime c df ;;
   df <- set_index c df ;;
   sort_index df)%res.

Definition files_to_df (fs : directory) (file_list : list string)
    (columns : string -> string) (datetime : bool) : result DataFrame :=
  (data <- files_to_json fs file_list ;;
   df <- json_normalize "." (JArr data) ;;
   df <- rename columns df ;;
   if datetime then index_by_datetime "datetime" df else Ok df)%res.

Definition files_to_dfslist (fs : directory) (file_list : list string)
    (columns : string -> string) (datetime : bool) : result (list DataFrame) :=
  rmap (fun infile_path =>
          (x <- file_to_json fs infile_path ;;
           df <- json_normalize "." x ;;
           df <- rename columns df ;;
           if datetime then index_by_datetime "datetime" df else Ok df)%res)
       file_list.

(** ** (D.1) Heart rate *)

Definition heart_rate_columns : dict string :=
  [("dateTime", "datetime"); ("value.bpm", "bpm"); ("value.confidence", "confidence")].

(** The value of [df] after the [pd.concat(...).sort_index(...)] of
    [prep_heart_rate_details]. *)
Definition heart_rate_table (fs : directory) : result DataFrame :=
  (let file_list := Str.sorted (glob fs "heart_rate-*.json") in
   dfs <- files_to_dfslist fs file_list (mapper heart_rate_columns) true ;;
   df <- concat_index dfs ;;
   sort_index df)%res.

Definition prep_heart_rate_details (fs : directory) (fmt : string) : M unit :=
  ((if negb (mem fmt ["hdf"; "csv"])
    then print "format should be 'hdf' (default) or 'csv'!"
    else ret tt) ;;
   log "Processing heart_rate-YYYY-MM-DD.json files ..." ;;
   df <- lift (heart_rate_table fs) ;;
   (if fmt =? "hdf"
    then (emit (ToHdf "heart_rate.h5" df) ;; log "File heart_rate.h5 ready")
    else (emit (ToCsv "heart_rate.csv" df) ;; log "File heart_rate.csv ready")) ;;
   hourly <- lift (resample_mean "H" df) ;;
   emit (ToCsv "heart_rate_hourly.csv" hourly) ;;
   log "File heart_rate_hourly.csv ready" ;;
   daily <- lift (resample_mean "D" df) ;;
   emit (ToCsv "heart_rate_daily.csv" daily) ;;
   log "File heart_rate_daily.csv ready")%io.

Definition zoning_columns_mapper (col_name : string) : string :=
  if col_name =? "dateTime" then "datetime"
  else casefold (Str.replace "value.valuesInZones." "" col_name).

Definition prep_heart_rate_zoning_data (fs : directory) : M unit :=
  (log "Processing time_in_heart_rate_zones_YYYY-MM-DD.json files ..." ;;
   let file_list := Str.sorted (glob fs "time_in_heart_rate_zones*.json") in
   df <- lift (files_to_df fs file_list zoning_columns_mapper true) ;;
   emit (ToCsv "heart_rate_zones.csv" df) ;;
   log "File heart_rate_zones.csv ready")%io.

Definition resting_columns_mapper (col_name : string) : string :=
  Str.replace "dateTime" "datetime" (Str.replace "value." "" col_name).

(** The value of [df] after [df = df[df.date.notna()]]. *)
Definition resting_with_date (fs : directory) : result DataFrame :=
  (let file_list := Str.sorted (glob fs "resting_heart_rate-*.json") in
   df <- files_to_df fs file_list resting_columns_mapper false ;;
   date <- column "date" df ;;
   Ok (select (fun r => notna (get "date" r)) df))%res.

(** The two conversions of the loop touch different columns; the loop is
    over a set, and is taken here in the order [datetime], [date]. *)
Definition prep_heart_rate_resting_data (fs : directory) : M unit :=
  (log "Processing resting_heart_rate-YYYY-04-17.json files ..." ;;
   df <- lift (df <- resting_with_date fs ;;
               df <- convert_datetime "datetime" df ;;
               df <- convert_datetime "date" df ;;
               df <- set_index "datetime" df ;;
               sort_index df)%res ;;
   emit (ToCsv "heart_rate_resting.csv" df) ;;
   log "File heart_rate_resting.csv ready")%io.

(** ** (D.2) Sleep *)

(** [data["levels"] = data["levels"]["summary"]] on one record. *)
Definition levels_to_summary (data : json) : result json :=
  match data with
  | JObj d =>
      match dict_get "levels" d with
      | Some (JObj levels) =>
          match dict_get "summary" levels with
          | Some summary => Ok (JObj (dict_set "levels" summary d))
          | None => Raised
          end
      | _ => Raised
      end
  | _ => Raised
  end.

Definition sleep_mapping : dict string :=
  [("logId", "sleep_log_entry_id");
   ("dateOfSleep", "date_of_sleep");
   ("startTime", "start_time");
   ("endTime", "end_time");
   ("minutesToFallAsleep", "minutes_to_fall_asleep");
   ("minutesAsleep", "minutes_asleep");
   ("minutesAwake", "minutes_awake");
   ("minutesAfterWakeup", "minutes_after_wakeup");
   ("timeInBed", "time_in_bed");
   ("mainSleep", "main_sleep")].

Definition sleep_columns_mapper (col_name : string) : string :=
  let col_name :=
    Str.replace "thirtyDayAvgMinutes" "30_day_avg_minutes"
      (Str.replace "levels_" "" col_name) in
  mapper sleep_mapping col_name.

(** The table written to [sleep_overviews.csv], from the loaded records. *)
Definition sleep_overview (json_data : list json) : result DataFrame :=
  (json_data <- rmap levels_to_summary json_data ;;
   df <- json_normalize "_" (JArr json_data) ;;
   df <- drop ["type"; "infoCode"] df ;;
   df <- rename sleep_columns_mapper df ;;
   df <- convert_datetime "date_of_sleep" df ;;
   df <- convert_datetime "start_time" df ;;
   df <- convert_datetime "end_time" df ;;
   df <- set_index "date_of_sleep" df ;;
   sort_index df)%res.

Definition prep_sleep_data (fs : directory) : M unit :=
  (log "Processing sleep_YYYY-MM-DD.json files ..." ;;
   let file_list := Str.sorted (glob fs "sleep-*.json") in
   json_data <- lift (files_to_json fs file_list) ;;
   df <- lift (df <- json_normalize_records "." json_data ["levels"; "data"] [] ;;
               df <- rename (mapper [("dateTime", "datetime")]) df ;;
               index_by_datetime "datetime" df)%res ;;
   emit (ToCsv "sleep_details.csv" df) ;;
   log "File sleep_details.csv ready" ;;
   df <- lift (sleep_overview json_data) ;;
   emit (ToCsv "sleep_overviews.csv" df) ;;
   log "File sleep_overviews.csv ready" ;;
   df <- lift (df <- match dict_get "sleep_score.csv" fs with
                     | Some (CsvFile header body) => read_csv header body
                     | _ => Raised
                     end ;;
               df <- rename (mapper [("timestamp", "datetime")]) df ;;
               index_by_datetime "datetime" df)%res ;;
   emit (ToCsv "sleep_scores.csv" df) ;;
   log "File sleep_scores.csv ready")%io.

(** ** (D.3) Activity *)

(** [df[~df.c.eq("0")]]: the column must exist. *)
Definition drop_zero_strings (c : string) (df : DataFrame) : result DataFrame :=
  (col <- column c df ;;
   Ok (select (fun r => negb (eq_str "0" (get c r))) df))%res.

(** The value of [df] after the call of [files_to_df] in
    [prep_steps_data], and in [prep_distance_data]. *)
Definition steps_table (fs : directory) : result DataFrame :=
  let file_list := Str.sorted (glob fs "steps-*.json") in
  let columns := [("dateTime", "datetime"); ("value", "number")] in
  files_to_df fs file_list (mapper columns) true.

Definition distance_table (fs : directory) : result DataFrame :=
  let file_list := Str.sorted (glob fs "distance-*.json") in
  let columns := [("dateTime", "datetime"); ("value", "distance")] in
  files_to_df fs file_list (mapper columns) true.

Definition prep_steps_data (fs : directory) : M unit :=
  (log "Processing steps-YYYY-MM-DD.json files ..." ;;
   df <- lift (steps_table fs) ;;
   out <- lift (drop_zero_strings "number" df) ;;
   emit (ToCsv "activity_steps.csv" out) ;;
   log "File activity_steps.csv ready")%io.

Definition prep_distance_data (fs : directory) : M unit :=
  (log "Processing distance-YYYY-MM-DD.json files ..." ;;
   df <- lift (distance_table fs) ;;
   out <- lift (drop_zero_strings "distance" df) ;;
   emit (ToCsv "activity_distance.csv" out) ;;
   log "File activity_distance.csv ready")%io.

Definition levels : list string :=
  ["sedentary"; "lightly_active"; "moderately_active"; "very_active"].

(** One turn of the loop over the levels. *)
Definition level_table (fs : directory) (level : string) : result DataFrame :=
  let columns := [("dateTime", "datetime"); ("value", Str.replace "_active" "" level)] in
  let file_list := Str.sorted (glob fs (level ++ "_minutes-*.json")%string) in
  files_to_df fs file_list (mapper columns) true.

(** The value of [df] after [df = pd.concat(dfs, axis="columns")]. *)
Definition activity_levels_joined (fs : directory) : result DataFrame :=
  (dfs <- rmap (level_table fs) levels ;;
   concat_columns dfs)%res.

(** [df[~df.sedentary.astype(int).eq(1440)]]: the cast is over the whole
    column and raises if one element does. *)
Definition drop_full_sedentary (df : DataFrame) : result DataFrame :=
  (col <- column "sedentary" df ;;
   ints <- rmap (astype_int int_of_str) col ;;
   Ok (select (fun r => match astype_int int_of_str (get "sedentary" r) with
                        | Ok n => negb (n =? 1440)%Z
                        | _ => false
                        end) df))%res.

Definition prep_activity_level_data (fs : directory) : M unit :=
  (log "Processing *activity-level*_minutes-YYYY-MM-DD.json files ..." ;;
   df <- lift (activity_levels_joined fs) ;;
   out <- lift (drop_full_sedentary df) ;;
   emit (ToCsv "activity_levels.csv" out) ;;
   log "File activity_levels.csv ready")%io.

(** ** Exercise logs *)

Definition activity_level : json :=
  JArr [JObj [("minutes", JNull); ("name", JStr "sedentary")];
        JObj [("minutes", JNull); ("name", JStr "lightly")];
        JObj [("minutes", JNull); ("name", JStr "fairly")];
        JObj [("minutes", JNull); ("name", JStr "very")]].

Definition heart_rate_zones : json :=
  JArr [JObj [("name", JStr "Außerhalb der Zone");
              ("min", JNull); ("max", JNull); ("minutes", JNull)];
        JObj [("name", JStr "Fettverbrennung");
              ("min", JNull); ("max", JNull); ("minutes", JNull)];
        JObj [("name", JStr "Kardio");
              ("min", JNull); ("max", JNull); ("minutes", JNull)];
        JObj [("name", JStr "Höchstleistung");
              ("min", JNull); ("max", JNull); ("minutes", JNull)]].

(** [k in item]: a key of a dictionary, an element of a list, a substring
    of a string; anything else raises. *)
Definition py_in (k : string) (item : json) : result bool :=
  match item with
  | JObj d => Ok (dict_mem k d)
  | JArr l => Ok (existsb (fun x => match x with JStr s => s =? k | _ => false end) l)
  | JStr s => Ok (Str.contains k s)
  | _ => Raised
  end.

(** [item[k] = v]: only a dictionary takes a string key. *)
Definition py_setitem (k : string) (v : json) (item : json) : result json :=
  match item with
  | JObj d => Ok (JObj (dict_set k v d))
  | _ => Raised
  end.

(** The body of the backfill loop on one entry. *)
Definition backfill (item : json) : result json :=
  (has_level <- py_in "activityLevel" item ;;
   item <- (if has_level then Ok item else py_setitem "activityLevel" activity_level item) ;;
   has_zones <- py_in "heartRateZones" item ;;
   if has_zones then Ok item else py_setitem "heartRateZones" heart_rate_zones item)%res.

Definition exercise_columns : dict string :=
  [("logId", "log_id");
   ("activityName", "activity_name");
   ("activityTypeId", "activity_type_id");
   ("averageHeartRate", "average_heart_rate");
   ("activeDuration", "active_duration");
   ("lastModified", "last_modified");
   ("startTime", "start_time")].

Definition exercise_meta : list string :=
  ["logId"; "activityName"; "activityTypeId"; "averageHeartRate"; "calories";
   "duration"; "activeDuration"; "steps"; "lastModified"; "startTime"].

(** One of the two exploded tables, from the backfilled entries. *)
Definition exercise_table (json_data : list json) (record_path : string) : result DataFrame :=
  (df <- json_normalize_records "." json_data [record_path] exercise_meta ;;
   df <- rename (mapper exercise_columns) df ;;
   set_index "log_id" df)%res.

Definition prep_exercise_data (fs : directory) : M unit :=
  (log "Processing exercise-NNN.json files ..." ;;
   let file_list := Str.sorted (glob fs "exercise-*.json") in
   json_data <- lift (json_data <- files_to_json fs file_list ;;
                      rmap backfill json_data)%res ;;
   df <- lift (exercise_table json_data "activityLevel") ;;
   emit (ToCsv "activity_exercise_1.csv" df) ;;
   log "File activity_exercise_1.csv ready" ;;
   df <- lift (exercise_table json_data "heartRateZones") ;;
   emit (ToCsv "activity_exercise_2.csv" df) ;;
   log "File activity_exercise_2.csv ready")%io.

End Routines.

(* ===================================================================== *)
(** * An instance of the library interface, for the examples              *)
(* ===================================================================== *)

Module Sample.

Definition digit_of (c : ascii) : option Z :=
  let n := Z.of_nat (nat_of_ascii c) in
  if ((48 <=? n) && (n <=? 57))%Z then Some (n - 48)%Z else None.

(** The digits of a string read as one decimal number: the ISO form
    "2023-01-02T00:00:00" gives 20230102000000, which orders such strings
    as the instants they denote. *)
Fixpoint digits (acc : Z) (seen : bool) (s : string) : option Z :=
  match s with
  | EmptyString => if seen then Some acc else None
  | String c s' =>
      match digit_of c with
      | Some d => digits (10 * acc + d) true s'
      | None => digits acc seen s'
      end
  end.

Definition parse_cell (c : cell) : result stamp :=
  match c with
  | Val (JStr s) => match digits 0 false s with Some t => Ok (Some t) | None => Raised end
  | Val (JInt n) => Ok (Some n)
  | Time t => Ok (Some t)
  | Missing | NaT | Val JNull | Val JNaN => Ok None
  | _ => Raised
  end.

(** A string of decimal digits. *)
Fixpoint all_digits (acc : Z) (s : string) : option Z :=
  match s with
  | EmptyString => Some acc
  | String c s' =>
      match digit_of c with
      | Some d => all_digits (10 * acc + d) s'
      | None => None
      end
  end.

Definition decimal (s : string) : option Z :=
  match s with
  | EmptyString => None
  | _ => all_digits 0 s
  end.

#[export] Instance library : Library := {|
  to_datetime := rmap parse_cell;
  int_of_str := decimal;
  casefold := fun s => s;
  resample_mean := fun _ df => Ok df
|}.

End Sample.

(* ===================================================================== *)
(** * Inputs for the examples                                             *)
(* ===================================================================== *)

Module Files.

Definition point (d v : string) : json :=
  JObj [("dateTime", JStr d); ("value", JStr v)].

Definition steps : directory :=
  [("steps-2023-01-02.json",
    JsonFile (JArr [point "2023-01-02T00:01:00" "0"; point "2023-01-02T00:00:00" "5"]));
   ("steps-2023-01-01.json",
    JsonFile (JArr [point "2023-01-01T00:01:00" "0.0";
                    JObj [("dateTime", JStr "2023-01-01T00:00:00"); ("value", JInt 0)]]))].

Definition sample (d : string) (bpm confidence : Z) : json :=
  JObj [("dateTime", JStr d);
        ("value", JObj [("bpm", JInt bpm); ("confidence", JInt confidence)])].

Definition heart_rate : directory :=
  [("heart_rate-2023-01-02.json", JsonFile (JArr [sample "2023-01-02T00:00:00" 70 3]));
   ("heart_rate-2023-01-01.json", JsonFile (JArr [sample "2023-01-01T00:00:00" 60 2]))].

Definition exercise : directory :=
  [("exercise-0.json",
    JsonFile (JArr [JObj [("logId", JInt 2); ("activityName", JStr "Walk")];
                    JObj [("logId", JInt 1); ("activityName", JStr "Run")]]))].

Definition tree : list node :=
  [Dir "Sleep" [File "sleep-2023-01-01.json"; File "notes.txt";
                Dir "scores" [File "sleep_score.csv"]];
   File "steps-2023-01-01.json";
   File "readme.md"].

Definition minutes (d v : string) : json :=
  JObj [("dateTime", JStr d); ("value", JStr v)].

(** Two days: the first with 1440 sedentary minutes, the second with
    1439. *)
Definition activity : directory :=
  [("sedentary_minutes-2023-01-01.json",
    JsonFile (JArr [minutes "2023-01-01" "1440"; minutes "2023-01-02" "1439"]));
   ("lightly_active_minutes-2023-01-01.json",
    JsonFile (JArr [minutes "2023-01-01" "0"; minutes "2023-01-02" "1"]));
   ("moderately_active_minutes-2023-01-01.json",
    JsonFile (JArr [minutes "2023-01-01" "0"; minutes "2023-01-02" "0"]));
   ("very_active_minutes-2023-01-01.json",
    JsonFile (JArr [minutes "2023-01-01" "0"; minutes "2023-01-02" "0"]))].

(** The same two days, the records of the lightly-active file without a
    [value] entry. *)
Definition activity_without_value : directory :=
  [("sedentary_minutes-2023-01-01.json",
    JsonFile (JArr [minutes "2023-01-01" "1440"; minutes "2023-01-02" "1439"]));
   ("lightly_active_minutes-2023-01-01.json",
    JsonFile (JArr [JObj [("dateTime", JStr "2023-01-01")];
                    JObj [("dateTime", JStr "2023-01-02")]]));
   ("moderately_active_minutes-2023-01-01.json",
    JsonFile (JArr [minutes "2023-01-01" "0"; minutes "2023-01-02" "0"]));
   ("very_active_minutes-2023-01-01.json",
    JsonFile (JArr [minutes "2023-01-01" "0"; minutes "2023-01-02" "0"]))].

(** Three days; the lightly-active file has no record for the second and
    the very-active file none for the third. *)
Definition activity_with_gaps : directory :=
  [("sedentary_minutes-2023-01-01.json",
    JsonFile (JArr [minutes "2023-01-01" "1440"; minutes "2023-01-02" "1439";
                    minutes "2023-01-03" "1000"]));
   ("lightly_active_minutes-2023-01-01.json",
    JsonFile (JArr [minutes "2023-01-01" "0"; minutes "2023-01-03" "300"]));
   ("moderately_active_minutes-2023-01-01.json",
    JsonFile (JArr [minutes "2023-01-01" "0"; minutes "2023-01-02" "1";
                    minutes "2023-01-03" "100"]));
   ("very_active_minutes-2023-01-01.json",
    JsonFile (JArr [minutes "2023-01-01" "0"; minutes "2023-01-02" "0"]))].

Definition resting_day (d : string) (date value : json) : json :=
  JObj [("dateTime", JStr d);
        ("value", JObj [("date", date); ("value", value); ("error", JInt 6)])].

(** A yearly file: one day without a computed value, two with one, the
    later first. *)
Definition resting : directory :=
  [("resting_heart_rate-2023-04-17.json",
    JsonFile (JArr [resting_day "2023-01-03T00:00:00" (JStr "01/03/23") (JInt 57);
                    resting_day "2023-01-02T00:00:00" JNull (JInt 0);
                    resting_day "2023-01-01T00:00:00" (JStr "01/01/23") (JInt 55)]))].

Definition stage (minutes avg : Z) : json :=
  JObj [("count", JInt 1); ("minutes", JInt minutes); ("thirtyDayAvgMinutes", JInt avg)].

Definition night (id : Z) (date start stop : string) : json :=
  JObj [("logId", JInt id);
        ("dateOfSleep", JStr date);
        ("startTime", JStr start);
        ("endTime", JStr stop);
        ("minutesAsleep", JInt 400);
        ("type", JStr "stages");
        ("infoCode", JInt 0);
        ("levels",
         JObj [("summary", JObj [("deep", stage 60 70); ("wake", stage 30 40)]);
               ("data", JArr [JObj [("dateTime", JStr start); ("level", JStr "wake");
                                    ("seconds", JInt 30)]])])].

Definition sleep : directory :=
  [("sleep-2023-01-01.json",
    JsonFile (JArr [night 2 "2023-01-02" "2023-01-01T23:00:00" "2023-01-02T07:00:00";
                    night 1 "2023-01-01" "2022-12-31T23:30:00" "2023-01-01T06:30:00"]));
   ("sleep_score.csv",
    CsvFile ["timestamp"; "overall_score"]
            [[Val (JStr "2023-01-02T07:00:00Z"); Val (JInt 80)];
             [Val (JStr "2023-01-01T06:30:00Z"); Val (JInt 75)]])].

End Files.

(* ===================================================================== *)
(** * Vocabulary of the statements                                        *)
(* ===================================================================== *)

(** An index is non-decreasing when every label is at most every later
    one. *)
Definition label_le (a b : cell) : Prop := label_leb a b = true.

Definition non_decreasing (idx : list cell) : Prop := StronglySorted label_le idx.

(** The entries of the export: [entry_at source p b] when [p] leads from
    the source root to an entry, a directory if [b]. *)
Inductive entry_at : list node -> path -> bool -> Prop :=
| entry_here (ns : list node) (n : node) :
    In n ns -> entry_at ns [node_name n] (is_dir n)
| entry_below (ns : list node) (name : string) (children : list node) (p : path) (b : bool) :
    In (Dir name children) ns -> entry_at children p b -> entry_at ns (name :: p) b.

(** The base name of a path. *)
Definition base_name (p : path) : string := last p "".

Definition staged_suffix (name : string) : Prop :=
  Str.ends_with ".json" name = true \/ Str.ends_with ".csv" name = true.

(** The zone names of the heart-rate-zone placeholder. *)
Definition zone_names : list string :=
  ["Außerhalb der Zone"; "Fettverbrennung"; "Kardio"; "Höchstleistung"].

(** The cell of [item] under [k], as a meta column shows it. *)
Definition meta_cell (k : string) (d : dict json) : cell :=
  match dict_get k d with Some v => Val v | None => Missing end.

(** The cells of a row outside the columns [cs]. *)
Definition other_cells (cs : list string) (r : Row) : dict cell :=
  filter (fun kv => negb (mem (fst kv) cs)) (fields r).

(** [out] is [df] without the rows whose cell under [c] is the string
    "0": such rows are gone, and rows holding the string "0.0", an integer
    or a float under [c] (any cell other than the string "0") are kept. *)
Definition zero_strings_dropped (c : string) (df out : DataFrame) : Prop :=
  columns out = columns df
  /\ index_name out = index_name df
  /\ (forall r, In r (rows out) -> In r (rows df))
  /\ (forall r, In r (rows df) ->
        (get c r = Val (JStr "0") -> ~ In r (rows out))
        /\ (get c r = Val (JStr "0.0") -> In r (rows out))
        /\ (forall n, get c r = Val (JInt n) -> In r (rows out))
        /\ (forall m e, get c r = Val (JFloat m e) -> In r (rows out))
        /\ (get c r <> Val (JStr "0") -> In r (rows out))).

(** A pattern part without [*]. *)
Fixpoint star_free (s : string) : bool :=
  match s with
  | EmptyString => true
  | String c s' => negb (Ascii.eqb c "*"%char) && star_free s'
  end.

(** Structural induction on the export tree. *)
Fixpoint node_induction (P : node -> Prop)
    (HF : forall name, P (File name))
    (HD : forall name children, Forall P children -> P (Dir name children))
    (n : node) {struct n} : P n :=
  match n with
  | File name => HF name
  | Dir name children =>
      HD name children
        ((fix all (l : list node) : Forall P l :=
            match l with
            | [] => Forall_nil P
            | x :: l' => Forall_cons x (node_induction P HF HD x) (all l')
            end) children)
  end.

(** The table is written by the run, as text or as HDF. *)
Definition writes (m : M unit) (file : string) (df : DataFrame) : Prop :=
  In (ToCsv file df) (trace m) \/ In (ToHdf file df) (trace m).

(** The cells of a placeholder zone, flattened. *)
Definition zone_fields (name : string) : dict cell :=
  [("name", Val (JStr name)); ("min", Val JNull); ("max", Val JNull); ("minutes", Val JNull)].

(** A row of the heart-rate-zone table that comes from the placeholder:
    labelled with the log ID of its entry, named after a zone, with null
    [min], [max] and [minutes]. *)
Definition placeholder_zone_row (d : dict json) (name : string) (r : Row) : Prop :=
  label r = meta_cell "logId" d
  /\ get "name" r = Val (JStr name)
  /\ get "min" r = Val JNull
  /\ get "max" r = Val JNull
  /\ get "minutes" r = Val JNull.

(** The row of an exercise table made from one flattened record and the
    meta values of its entry: renamed, then labelled with [log_id]. *)
Definition exercise_row (p : dict cell * dict cell) : Row :=
  let renamed := map (fun kv => (mapper exercise_columns (fst kv), snd kv)) (fst p ++ snd p) in
  mkRow (get "log_id" (mkRow Missing renamed)) (remove_key "log_id" renamed).

(** [s] is the record [item] with its [levels] object replaced by the
    [summary] inside it. *)
Definition levels_replaced (item s : json) : Prop :=
  exists d levels summary,
    item = JObj d
    /\ dict_get "levels" d = Some (JObj levels)
    /\ dict_get "summary" levels = Some summary
    /\ s = JObj (dict_set "levels" summary d).

(** The library of the examples, with a resampling that raises. *)
Definition no_resampling : Library := {|
  to_datetime := rmap Sample.parse_cell;
  int_of_str := Sample.decimal;
  casefold := fun s => s;
  resample_mean := fun _ _ => Raised
|}.

(** The table [prep_sleep_data] writes to [sleep_details.csv], from the
    loaded records. *)
Definition sleep_details `{Library} (json_data : list json) : result DataFrame :=
  (df <- json_normalize_records "." json_data ["levels"; "data"] [] ;;
   df <- rename (mapper [("dateTime", "datetime")]) df ;;
   index_by_datetime "datetime" df)%res.

(** The level names of the activity-level placeholder, its flattened
    cells, and a row of the activity-level table that comes from it. *)
Definition level_names : list string := ["sedentary"; "lightly"; "fairly"; "very"].

Definition level_fields (name : string) : dict cell :=
  [("minutes", Val JNull); ("name", Val (JStr name))].

Definition placeholder_level_row (d : dict json) (name : string) (r : Row) : Prop :=
  label r = meta_cell "logId" d
  /\ get "name" r = Val (JStr name)
  /\ get "minutes" r = Val JNull.

(** [r] has the label of [r0] and its cells, followed by more. *)
Definition row_extends (r0 r : Row) : Prop :=
  label r = label r0 /\ exists more, fields r = fields r0 ++ more.

(** The cells one flattened sleep record leaves in the overview table:
    the entries [type] and [infoCode] left out, the keys renamed. *)
Definition overview_cells (rec : dict cell) : dict cell :=
  map (fun kv => (sleep_columns_mapper (fst kv), snd kv))
      (filter (fun kv => negb (mem (fst kv) ["type"; "infoCode"])) rec).

(** The three columns of the overview table that hold timestamps. *)
Definition overview_times : list string := ["date_of_sleep"; "start_time"; "end_time"].

(** Every cell of a row sits under a column of the table. *)
Definition well_formed (df : DataFrame) : Prop :=
  forall r k v, In r (rows df) -> In (k, v) (fields r) -> In k (columns df).

(** The cells a table [d] gives to the row labelled [b] of a column-wise
    join: those of a row of [d] labelled [b], or none when [d] has no row
    with this label. *)
Definition piece_of (d : DataFrame) (b : cell) (p : dict cell) : Prop :=
  (exists r', In r' (rows d) /\ label r' = b /\ p = fields r')
  \/ ((forall r', In r' (rows d) -> label r' <> b) /\ p = []).

(** What the row [r] of a column-wise join holds under the column [c] of
    the joined table [d]: the cell of a row of [d] with the label of [r],
    or NaN when [d] has no row with this label. *)
Definition joined_cell (d : DataFrame) (c : string) (r : Row) : Prop :=
  (exists r', In r' (rows d) /\ label r' = label r /\ get c r = get c r')
  \/ ((forall r', In r' (rows d) -> label r' <> label r) /\ get c r = Missing).

(** The rename table of one turn of the loop over the levels. *)
Definition level_columns (level : string) : dict string :=
  [("dateTime", "datetime"); ("value", Str.replace "_active" "" level)].

(* ===================================================================== *)
(** * Basic facts: the two monads                                         *)
(* ===================================================================== *)

Lemma rbind_ok {A B} (r : result A) (k : A -> result B) (b : B) :
  rbind r k = Ok b -> exists a, r = Ok a /\ k a = Ok b.
Proof. destruct r; simpl; intros E; try discriminate; eauto. Qed.

Lemma rmap_ok_length {A B} (f : A -> result B) (l : list A) (out : list B) :
  rmap f l = Ok out -> List.length out = List.length l.
Proof.
  revert out; induction l as [|a l IH]; simpl; intros out E.
  - inversion E; reflexivity.
  - apply rbind_ok in E as (b & _ & E).
    apply rbind_ok in E as (bs & Ebs & E).
    inversion E; subst; simpl; f_equal; auto.
Qed.

Lemma rmap_ok_Forall2 {A B} (f : A -> result B) (l : list A) (out : list B) :
  rmap f l = Ok out -> Forall2 (fun a b => f a = Ok b) l out.
Proof.
  revert out; induction l as [|a l IH]; simpl; intros out E.
  - inversion E; constructor.
  - apply rbind_ok in E as (b & Eb & E).
    apply rbind_ok in E as (bs & Ebs & E).
    inversion E; subst. constructor; auto.
Qed.

Lemma Forall2_rmap_ok {A B} (f : A -> result B) (l : list A) (out : list B) :
  Forall2 (fun a b => f a = Ok b) l out -> rmap f l = Ok out.
Proof.
  induction 1 as [|a b l out E _ IH]; simpl; [reflexivity|].
  rewrite E; simpl. rewrite IH; reflexivity.
Qed.

Lemma trace_bind {A B} (m : M A) (k : A -> M B) (e : event) :
  In e (trace (bind m k)) <->
  In e (trace m) \/ exists a, outcome m = Ok a /\ In e (trace (k a)).
Proof.
  destruct m as [t [a| |]]; unfold trace, outcome; simpl.
  - destruct (k a) as [t' r] eqn:E; simpl. rewrite in_app_iff. split.
    + intros [I|I]; [left; exact I | right; exists a; rewrite E; auto].
    + intros [I|(a' & Ea & I)]; [left; exact I|].
      inversion Ea; subst a'. rewrite E in I. right; exact I.
  - split; [auto | intros [I|(a & Ea & _)]; [exact I | discriminate]].
  - split; [auto | intros [I|(a & Ea & _)]; [exact I | discriminate]].
Qed.

Lemma outcome_bind_ok {A B} (m : M A) (k : A -> M B) (b : B) :
  outcome (bind m k) = Ok b <-> exists a, outcome m = Ok a /\ outcome (k a) = Ok b.
Proof.
  destruct m as [t [a| |]]; unfold outcome; simpl.
  - destruct (k a) as [t' r] eqn:E; simpl. split.
    + intros ->. exists a. rewrite E. auto.
    + intros (a' & Ea & Eb). inversion Ea; subst a'. rewrite E in Eb. exact Eb.
  - split; [discriminate | intros (a & Ea & _); discriminate].
  - split; [discriminate | intros (a & Ea & _); discriminate].
Qed.

Lemma trace_lift {A} (r : result A) : trace (lift r) = [].
Proof. reflexivity. Qed.

Lemma outcome_lift {A} (r : result A) : outcome (lift r) = r.
Proof. reflexivity. Qed.

(** Taking a routine apart: an event of [m ;; k] is an event of [m] or of
    the continuation. *)
Ltac split_trace H :=
  repeat match type of H with
  | In _ (trace (bind _ _)) =>
      apply trace_bind in H;
      let a := fresh "a" in
      let E := fresh "E" in
      destruct H as [H | (a & E & H)]
  | In _ (trace (lift _)) => rewrite trace_lift in H; destruct H
  | In _ (trace (emit _)) => unfold trace, emit in H; simpl in H
  | In _ (trace (log _)) => unfold trace, log, emit in H; simpl in H
  | In _ (trace (print _)) => unfold trace, print, emit in H; simpl in H
  | In _ (trace (ret _)) => destruct H
  | _ \/ False => destruct H as [H | []]
  | False => destruct H
  end.

(* ===================================================================== *)
(** * Loading helpers                                                     *)
(* ===================================================================== *)

Lemma sum_files_concat (fs : directory) (file_list : list string)
    (lists : list (list json)) (start : list json) :
  Forall2 (fun p l => file_to_json fs p = Ok (JArr l)) file_list lists ->
  sum_files fs start file_list = Ok (start ++ List.concat lists).
Proof.
  intros F; revert start.
  induction F as [|p l ps ls E _ IH]; intros start; simpl.
  - now rewrite app_nil_r.
  - rewrite E; simpl. rewrite IH, app_assoc. reflexivity.
Qed.

(** C6.  When every file of the list holds a JSON list, [files_to_json]
    returns these lists one after the other, in the order of the file list
    and each in its own order; its length is the sum of their lengths. *)
Theorem files_to_json_concatenates (fs : directory) (file_list : list string)
    (lists : list (list json)) :
  Forall2 (fun p l => file_to_json fs p = Ok (JArr l)) file_list lists ->
  files_to_json fs file_list = Ok (List.concat lists)
  /\ List.length (List.concat lists) = list_sum (map (@List.length json) lists).
Proof.
  intros F. split.
  - unfold files_to_json. now rewrite (sum_files_concat fs file_list lists []).
  - clear F. induction lists as [|l ls IH]; simpl; [reflexivity|].
    rewrite length_app, IH. reflexivity.
Qed.

Lemma files_to_json_concatenates_witness :
  let fs := [("b.json", JsonFile (JArr [JInt 3]));
             ("a.json", JsonFile (JArr [JInt 1; JInt 2]))] in
  files_to_json fs ["b.json"; "a.json"] = Ok [JInt 3; JInt 1; JInt 2]
  /\ List.length [JInt 3; JInt 1; JInt 2] = 3.
Proof.
  intros fs.
  apply (files_to_json_concatenates fs ["b.json"; "a.json"] [[JInt 3]; [JInt 1; JInt 2]]).
  repeat constructor.
Defined.

(* ===================================================================== *)
(** * The exercise transform: backfill                                    *)
(* ===================================================================== *)

Lemma backfill_complete_entry (d : dict json) :
  dict_mem "activityLevel" d = true ->
  dict_mem "heartRateZones" d = true ->
  backfill (JObj d) = Ok (JObj d).
Proof.
  intros Ha Hz. unfold backfill. simpl. rewrite Ha. simpl. rewrite Hz. reflexivity.
Qed.

(** C10.  The backfill loop leaves an entry that has both an
    [activityLevel] and a [heartRateZones] key as it is: whenever the loop
    completes on a list of entries, such an entry is found unchanged at its
    place, and a list of such entries comes out unchanged. *)
Theorem backfill_leaves_complete_entries (json_data out : list json) :
  rmap backfill json_data = Ok out ->
  List.length out = List.length json_data
  /\ (forall i d, nth_error json_data i = Some (JObj d) ->
        dict_mem "activityLevel" d = true ->
        dict_mem "heartRateZones" d = true ->
        nth_error out i = Some (JObj d))
  /\ ((forall item, In item json_data ->
         exists d, item = JObj d /\ dict_mem "activityLevel" d = true
                   /\ dict_mem "heartRateZones" d = true) ->
      out = json_data).
Proof.
  intros E. split; [eapply rmap_ok_length; eauto|].
  apply rmap_ok_Forall2 in E. split.
  - induction E as [|a b l o Eab _ IH]; intros i d Hn Ha Hz.
    + destruct i; discriminate.
    + destruct i as [|i]; simpl in *.
      * inversion Hn; subst a. rewrite backfill_complete_entry in Eab by assumption.
        inversion Eab; reflexivity.
      * eapply IH; eauto.
  - induction E as [|a b l o Eab _ IH]; intros Hall; [reflexivity|].
    destruct (Hall a (or_introl eq_refl)) as (d & -> & Ha & Hz).
    rewrite backfill_complete_entry in Eab by assumption.
    inversion Eab; subst b. f_equal. apply IH.
    intros item Hi. apply Hall. right; exact Hi.
Qed.

Lemma backfill_leaves_complete_entries_witness :
  let entry := JObj [("logId", JInt 7); ("activityLevel", JArr []);
                     ("heartRateZones", JArr [])] in
  List.length [entry] = List.length [entry]
  /\ (forall i d, nth_error [entry] i = Some (JObj d) ->
        dict_mem "activityLevel" d = true ->
        dict_mem "heartRateZones" d = true ->
        nth_error [entry] i = Some (JObj d))
  /\ ((forall item, In item [entry] ->
         exists d, item = JObj d /\ dict_mem "activityLevel" d = true
                   /\ dict_mem "heartRateZones" d = true) ->
      [entry] = [entry]).
Proof.
  intros entry. apply (backfill_leaves_complete_entries [entry] [entry]). reflexivity.
Defined.

(* ===================================================================== *)
(** * Heart-rate detail: the format check                                 *)
(* ===================================================================== *)

Section HeartRateFormat.

Context `{Library}.

Lemma not_accepted_format (fmt : string) :
  mem fmt ["hdf"; "csv"] = false -> (fmt =? "hdf") = false /\ (fmt =? "csv") = false.
Proof.
  unfold mem; simpl. intros E.
  apply orb_false_elim in E as [E1 E2].
  apply orb_false_elim in E2 as [E2 _]. split; assumption.
Qed.

(** C7.  With a format that is neither 'hdf' nor 'csv',
    [prep_heart_rate_details] prints the warning and goes on: the run is
    the run for 'csv' with the warning in front.  So the detail table is
    written to [heart_rate.csv] as soon as it can be built, and when the two
    resamplings succeed the run ends normally with all three files
    written. *)
Theorem invalid_format_warns_and_continues (fs : directory) (fmt : string) :
  mem fmt ["hdf"; "csv"] = false ->
  trace (prep_heart_rate_details fs fmt)
    = Print "format should be 'hdf' (default) or 'csv'!"
        :: trace (prep_heart_rate_details fs "csv")
  /\ outcome (prep_heart_rate_details fs fmt) = outcome (prep_heart_rate_details fs "csv")
  /\ (forall df, heart_rate_table fs = Ok df ->
        In (ToCsv "heart_rate.csv" df) (trace (prep_heart_rate_details fs fmt)))
  /\ (forall df hourly daily,
        heart_rate_table fs = Ok df ->
        resample_mean "H" df = Ok hourly ->
        resample_mean "D" df = Ok daily ->
        prep_heart_rate_details fs fmt
        = ([Print "format should be 'hdf' (default) or 'csv'!";
            Log "Processing heart_rate-YYYY-MM-DD.json files ...";
            ToCsv "heart_rate.csv" df;
            Log "File heart_rate.csv ready";
            ToCsv "heart_rate_hourly.csv" hourly;
            Log "File heart_rate_hourly.csv ready";
            ToCsv "heart_rate_daily.csv" daily;
            Log "File heart_rate_daily.csv ready"], Ok tt)).
Proof.
  intros Hfmt. destruct (not_accepted_format fmt Hfmt) as [Hhdf Hcsv].
  unfold prep_heart_rate_details. rewrite Hfmt, Hhdf. simpl negb. cbv iota.
  change (mem "csv" ["hdf"; "csv"]) with true.
  change ("csv" =? "hdf") with false. simpl negb. cbv iota.
  repeat split.
  - destruct (heart_rate_table fs) as [df| |]; simpl; try reflexivity.
    destruct (resample_mean "H" df) as [h| |]; simpl; try reflexivity.
    destruct (resample_mean "D" df) as [d| |]; simpl; reflexivity.
  - destruct (heart_rate_table fs) as [df| |]; simpl; try reflexivity.
    destruct (resample_mean "H" df) as [h| |]; simpl; try reflexivity.
    destruct (resample_mean "D" df) as [d| |]; simpl; reflexivity.
  - intros df E. rewrite E. simpl.
    destruct (resample_mean "H" df) as [h| |]; simpl; auto.
    destruct (resample_mean "D" df) as [d| |]; simpl; auto.
  - intros df hourly daily E Eh Ed. rewrite E. simpl. rewrite Eh. simpl.
    rewrite Ed. reflexivity.
Qed.

End HeartRateFormat.

Lemma invalid_format_warns_and_continues_witness :
  exists df,
    prep_heart_rate_details (H := Sample.library) Files.heart_rate "xml"
    = ([Print "format should be 'hdf' (default) or 'csv'!";
        Log "Processing heart_rate-YYYY-MM-DD.json files ...";
        ToCsv "heart_rate.csv" df;
        Log "File heart_rate.csv ready";
        ToCsv "heart_rate_hourly.csv" df;
        Log "File heart_rate_hourly.csv ready";
        ToCsv "heart_rate_daily.csv" df;
        Log "File heart_rate_daily.csv ready"], Ok tt)
    /\ map label (rows df) = [Time 20230101000000; Time 20230102000000]
    /\ columns df = ["bpm"; "confidence"].
Proof.
  eexists. split.
  - apply (proj2 (proj2 (proj2
      (@invalid_format_warns_and_continues Sample.library Files.heart_rate "xml" eq_refl)))).
    + vm_compute. reflexivity.
    + reflexivity.
    + reflexivity.
  - split; reflexivity.
Defined.

(* ===================================================================== *)
(** * Steps and distance: the zero filter                                 *)
(* ===================================================================== *)

Section ZeroFilter.

Context `{Library}.

Lemma eq_str_true (s : string) (c : cell) : eq_str s c = true <-> c = Val (JStr s).
Proof.
  destruct c as [|j| |]; simpl; try (split; [discriminate | intros E; discriminate]).
  destruct j; simpl; try (split; [discriminate | intros E; discriminate]).
  rewrite String.eqb_eq. split; [intros ->; reflexivity | intros E; inversion E; reflexivity].
Qed.

Lemma drop_zero_strings_spec (c : string) (df out : DataFrame) :
  drop_zero_strings c df = Ok out -> zero_strings_dropped c df out.
Proof.
  unfold drop_zero_strings. intros E.
  apply rbind_ok in E as (col & _ & E). inversion E; subst out; clear E.
  unfold zero_strings_dropped, select; simpl.
  split; [reflexivity|]. split; [reflexivity|]. split.
  - intros r Hr. apply filter_In in Hr. tauto.
  - intros r Hr.
    assert (K : get c r <> Val (JStr "0") ->
                In r (filter (fun r0 => negb (eq_str "0" (get c r0))) (rows df))).
    { intros N. apply filter_In. split; [exact Hr|].
      destruct (eq_str "0" (get c r)) eqn:Eq; [|reflexivity].
      apply eq_str_true in Eq. contradiction. }
    repeat split.
    + intros E Hin. apply filter_In in Hin as [_ Hin].
      rewrite E in Hin. discriminate.
    + intros E. apply K. rewrite E. discriminate.
    + intros n E. apply K. rewrite E. discriminate.
    + intros m e E. apply K. rewrite E. discriminate.
    + exact K.
Qed.

(** C2.  The table [prep_steps_data] writes is the table of the step
    files without the rows whose value is the string "0"; rows whose value
    is the string "0.0" or a number, zero included, stay.  The same holds
    of [prep_distance_data].  The table is written whenever the files load
    and give the value column. *)
Theorem zero_filter_is_string_exact (fs : directory) :
  (forall out, In (ToCsv "activity_steps.csv" out) (trace (prep_steps_data fs)) ->
     exists df, steps_table fs = Ok df /\ zero_strings_dropped "number" df out)
  /\ (forall out, In (ToCsv "activity_distance.csv" out) (trace (prep_distance_data fs)) ->
     exists df, distance_table fs = Ok df /\ zero_strings_dropped "distance" df out)
  /\ (forall df, steps_table fs = Ok df -> has_column "number" df = true ->
      exists out, In (ToCsv "activity_steps.csv" out) (trace (prep_steps_data fs)))
  /\ (forall df, distance_table fs = Ok df -> has_column "distance" df = true ->
      exists out, In (ToCsv "activity_distance.csv" out) (trace (prep_distance_data fs))).
Proof.
  repeat split.
  - intros out Hin. unfold prep_steps_data in Hin. split_trace Hin; try discriminate.
    rewrite outcome_lift in *. inversion Hin; subst.
    exists a0. split; [assumption|]. now apply drop_zero_strings_spec.
  - intros out Hin. unfold prep_distance_data in Hin. split_trace Hin; try discriminate.
    rewrite outcome_lift in *. inversion Hin; subst.
    exists a0. split; [assumption|]. now apply drop_zero_strings_spec.
  - intros df E Hc. unfold prep_steps_data. rewrite E.
    unfold trace, bind, lift, log, emit; simpl.
    unfold drop_zero_strings, column. rewrite Hc. simpl. eexists. right. left. reflexivity.
  - intros df E Hc. unfold prep_distance_data. rewrite E.
    unfold trace, bind, lift, log, emit; simpl.
    unfold drop_zero_strings, column. rewrite Hc. simpl. eexists. right. left. reflexivity.
Qed.

End ZeroFilter.

Lemma zero_filter_is_string_exact_witness :
  exists df out,
    steps_table (H := Sample.library) Files.steps = Ok df
    /\ zero_strings_dropped "number" df out
    /\ map (get "number") (rows out) = [Val (JInt 0); Val (JStr "0.0"); Val (JStr "5")].
Proof.
  let t := eval vm_compute in (trace (prep_steps_data (H := Sample.library) Files.steps)) in
  match t with
  | [_; ToCsv _ ?out; _] =>
      destruct (proj1 (@zero_filter_is_string_exact Sample.library Files.steps) out)
        as (df & E & Z);
      [ vm_compute; auto
      | exists df, out; split; [exact E | split; [exact Z | reflexivity]] ]
  end.
Defined.

(* ===================================================================== *)
(** * Staging                                                             *)
(* ===================================================================== *)

Lemma fnmatch_literal (lit name : string) :
  star_free lit = true -> Str.fnmatch lit name = (lit =? name).
Proof.
  revert name; induction lit as [|c lit IH]; intros name Hs.
  - destruct name; reflexivity.
  - simpl in Hs. apply andb_true_iff in Hs as [Hc Hs].
    apply negb_true_iff in Hc. simpl. rewrite Hc.
    destruct name as [|d name]; [reflexivity|].
    rewrite IH by assumption. reflexivity.
Qed.

(** The pattern [*lit] matches the names that end in [lit]. *)
Lemma fnmatch_star_suffix (lit name : string) :
  star_free lit = true ->
  Str.fnmatch (String "*"%char lit) name = Str.ends_with lit name.
Proof.
  intros Hs. simpl.
  induction name as [|d name IH]; simpl.
  - rewrite fnmatch_literal by assumption. reflexivity.
  - rewrite fnmatch_literal by assumption. rewrite IH. reflexivity.
Qed.

Lemma json_pattern (name : string) :
  Str.fnmatch "*.json" name = Str.ends_with ".json" name.
Proof. apply fnmatch_star_suffix. reflexivity. Qed.

Lemma csv_pattern (name : string) :
  Str.fnmatch "*.csv" name = Str.ends_with ".csv" name.
Proof. apply fnmatch_star_suffix. reflexivity. Qed.

Lemma in_matches (pat : string) (here : path) (children : list node) (p : path) (b : bool) :
  In (p, b) (matches pat here children) <->
  exists n, In n children /\ p = here ++ [node_name n] /\ b = is_dir n
            /\ Str.fnmatch pat (node_name n) = true.
Proof.
  unfold matches. rewrite in_map_iff. split.
  - intros (n & E & Hn). apply filter_In in Hn as [Hn Hm].
    inversion E; subst. exists n. auto.
  - intros (n & Hn & -> & -> & Hm). exists n. split; [reflexivity|].
    apply filter_In. auto.
Qed.

Lemma base_name_snoc (p : path) (x : string) : base_name (p ++ [x]) = x.
Proof. unfold base_name. apply last_last. Qed.

Lemma base_name_cons (x : string) (p : path) : p <> [] -> base_name (x :: p) = base_name p.
Proof. unfold base_name. destruct p; [congruence | reflexivity]. Qed.

Lemma entry_at_nonempty (ns : list node) (p : path) (b : bool) :
  entry_at ns p b -> p <> [].
Proof. intros E; destruct E; discriminate. Qed.

(** What the recursive glob yields below one entry, and in a directory. *)
Lemma in_glob_below (pat : string) (n : node) :
  forall (here p : path) (b : bool),
    In (p, b) (glob_below pat here n) <->
    exists name children q,
      n = Dir name children /\ p = here ++ name :: q /\ entry_at children q b
      /\ Str.fnmatch pat (base_name q) = true.
Proof.
  induction n as [name | name children IH] using node_induction; intros here p b.
  - simpl. split; [intros [] | intros (nm & ch & q & E & _); discriminate].
  - simpl. rewrite in_app_iff, in_matches, in_flat_map. split.
    + intros [(n & Hn & -> & -> & Hm) | (c & Hc & Hin)].
      * exists name, children, [node_name n]. rewrite <- app_assoc. simpl.
        repeat split; auto. now constructor.
      * rewrite Forall_forall in IH. apply (IH c Hc) in Hin.
        destruct Hin as (nm & ch & q & -> & -> & Hq & Hm).
        exists name, children, (nm :: q). rewrite <- app_assoc. simpl.
        repeat split; auto.
        -- eapply entry_below; eauto.
        -- rewrite base_name_cons; [assumption | eapply entry_at_nonempty; eauto].
    + intros (nm & ch & q & E & -> & Hq & Hm). inversion E; subst nm ch; clear E.
      inversion Hq as [ns n Hn | ns nm ch q' b' Hd Hq']; subst.
      * left. exists n. rewrite <- app_assoc. simpl. repeat split; auto.
      * right. exists (Dir nm ch). split; [assumption|].
        rewrite Forall_forall in IH. apply (IH _ Hd).
        exists nm, ch, q'. rewrite <- app_assoc. simpl. repeat split; auto.
        rewrite base_name_cons in Hm; [assumption | eapply entry_at_nonempty; eauto].
Qed.

Lemma in_rglob (pat : string) (source : list node) (p : path) (b : bool) :
  In (p, b) (rglob pat source) <->
  entry_at source p b /\ Str.fnmatch pat (base_name p) = true.
Proof.
  unfold rglob. rewrite in_app_iff, in_matches, in_flat_map. split.
  - intros [(n & Hn & -> & -> & Hm) | (c & Hc & Hin)].
    + simpl. split; [now constructor | assumption].
    + apply in_glob_below in Hin as (nm & ch & q & -> & -> & Hq & Hm). simpl. split.
      * eapply entry_below; eauto.
      * rewrite base_name_cons; [assumption | eapply entry_at_nonempty; eauto].
  - intros [He Hm]. inversion He as [ns n Hn | ns nm ch q b' Hd Hq]; subst.
    + left. exists n. auto.
    + right. exists (Dir nm ch). split; [assumption|]. apply in_glob_below.
      exists nm, ch, q. repeat split; auto.
      rewrite base_name_cons in Hm; [assumption | eapply entry_at_nonempty; eauto].
Qed.

Lemma for_each_cons {A} (x : A) (l : list A) (body : A -> M unit) :
  for_each (x :: l) body = bind (body x) (fun _ => for_each l body).
Proof. reflexivity. Qed.

(** The copies of one loop: every copy is of a listed file under its base
    name; if the loop completes, nothing listed is a directory and every
    listed file is copied; the loop completes when no directory is
    listed. *)
Lemma for_each_copy2 (l : list (path * bool)) :
  (forall src dst, In (Copy src dst) (trace (for_each l copy2)) ->
     In (src, false) l /\ dst = base_name src)
  /\ (outcome (for_each l copy2) = Ok tt ->
      forall src b, In (src, b) l ->
        b = false /\ In (Copy src (base_name src)) (trace (for_each l copy2)))
  /\ ((forall src, ~ In (src, true) l) -> outcome (for_each l copy2) = Ok tt)
  /\ (forall e, In e (trace (for_each l copy2)) -> exists src dst, e = Copy src dst).
Proof.
  induction l as [|[p b] l (IH1 & IH2 & IH3 & IH4)].
  - split; [|split; [|split]]; simpl.
    + intros src dst [].
    + intros _ src b [].
    + reflexivity.
    + intros e [].
  - destruct b.
    + split; [|split; [|split]]; simpl; unfold copy2; simpl.
      * intros src dst [].
      * discriminate.
      * intros Hn. exfalso. apply (Hn p). left; reflexivity.
      * intros e [].
    + rewrite for_each_cons. split; [|split; [|split]].
      * intros src dst Hin. apply trace_bind in Hin as [Hin | (a & _ & Hin)].
        -- unfold copy2 in Hin; simpl in Hin. destruct Hin as [E | []].
           inversion E; subst. split; [left; reflexivity | reflexivity].
        -- apply IH1 in Hin as [Hin ->]. split; [right; exact Hin | reflexivity].
      * intros Hok src b Hin. apply outcome_bind_ok in Hok as (a & _ & Hok).
        destruct Hin as [E | Hin].
        -- inversion E; subst. split; [reflexivity|].
           apply trace_bind. left. unfold copy2; simpl. left; reflexivity.
        -- destruct (IH2 Hok src b Hin) as [-> Hc]. split; [reflexivity|].
           apply trace_bind. right. exists tt. split; [reflexivity | exact Hc].
      * intros Hn. apply outcome_bind_ok. exists tt. split; [reflexivity|].
        apply IH3. intros src Hin. apply (Hn src). right; exact Hin.
      * intros e Hin. apply trace_bind in Hin as [Hin | (a & _ & Hin)].
        -- unfold copy2 in Hin; simpl in Hin. destruct Hin as [<- | []]. eauto.
        -- apply IH4; assumption.
Qed.

(** C8.  [collect_data] copies files of the export whose name ends in
    .json or .csv, each under its base name, and nothing else; when the run
    completes, every such file at any depth has been copied; the run
    completes when no directory of the export has such a name. *)
Theorem collect_data_stages_json_and_csv (source : list node) :
  (forall src dst, In (Copy src dst) (trace (collect_data source)) ->
     entry_at source src false /\ dst = base_name src /\ staged_suffix dst)
  /\ (forall e, In e (trace (collect_data source)) -> exists src dst, e = Copy src dst)
  /\ (outcome (collect_data source) = Ok tt ->
      forall src, entry_at source src false -> staged_suffix (base_name src) ->
        In (Copy src (base_name src)) (trace (collect_data source)))
  /\ ((forall p, entry_at source p true -> ~ staged_suffix (base_name p)) ->
      outcome (collect_data source) = Ok tt).
Proof.
  unfold collect_data.
  destruct (for_each_copy2 (rglob "*.json" source)) as (J1 & J2 & J3 & J4).
  destruct (for_each_copy2 (rglob "*.csv" source)) as (C1 & C2 & C3 & C4).
  split; [|split; [|split]].
  - intros src dst H. apply trace_bind in H as [H | (a & _ & H)].
    + apply J1 in H as [H ->]. apply in_rglob in H as [He H].
      split; [exact He|]. split; [reflexivity|].
      left. rewrite <- json_pattern. exact H.
    + apply C1 in H as [H ->]. apply in_rglob in H as [He H].
      split; [exact He|]. split; [reflexivity|].
      right. rewrite <- csv_pattern. exact H.
  - intros e H. apply trace_bind in H as [H | (a & _ & H)]; [apply J4 | apply C4]; exact H.
  - intros Hok src He Hs. apply outcome_bind_ok in Hok as ([] & Hj & Hc).
    apply trace_bind. destruct Hs as [Hs | Hs].
    + left. eapply J2; eauto. apply in_rglob. split; [exact He|].
      rewrite json_pattern. exact Hs.
    + right. exists tt. split; [assumption|]. eapply C2; eauto.
      apply in_rglob. split; [exact He|]. rewrite csv_pattern. exact Hs.
  - intros Hn. apply outcome_bind_ok. exists tt. split.
    + apply J3. intros src Hin. apply in_rglob in Hin as [He Hm].
      apply (Hn src He). left. rewrite <- json_pattern. exact Hm.
    + apply C3. intros src Hin. apply in_rglob in Hin as [He Hm].
      apply (Hn src He). right. rewrite <- csv_pattern. exact Hm.
Qed.

Lemma collect_data_stages_json_and_csv_witness :
  collect_data Files.tree
  = ([Copy ["steps-2023-01-01.json"] "steps-2023-01-01.json";
      Copy ["Sleep"; "sleep-2023-01-01.json"] "sleep-2023-01-01.json";
      Copy ["Sleep"; "scores"; "sleep_score.csv"] "sleep_score.csv"], Ok tt)
  /\ In (Copy ["Sleep"; "scores"; "sleep_score.csv"] (base_name ["Sleep"; "scores"; "sleep_score.csv"]))
        (trace (collect_data Files.tree)).
Proof.
  split; [reflexivity|].
  apply (proj1 (proj2 (proj2 (collect_data_stages_json_and_csv Files.tree)))).
  - reflexivity.
  - eapply entry_below; [left; reflexivity|].
    eapply entry_below; [right; right; left; reflexivity|].
    apply (entry_here _ (File "sleep_score.csv")). left; reflexivity.
  - right. reflexivity.
Defined.

(* ===================================================================== *)
(** * Sorting by the index                                                *)
(* ===================================================================== *)

Lemma label_le_trans (a b c : cell) : label_le a b -> label_le b c -> label_le a c.
Proof.
  unfold label_le, label_leb.
  destruct c as [|jc| |]; try discriminate; try reflexivity.
  - destruct jc; try discriminate.
    destruct b as [|jb| |]; try discriminate. destruct jb; try discriminate.
    destruct a as [|ja| |]; try discriminate. destruct ja; try discriminate.
    rewrite !Z.leb_le. lia.
  - destruct b as [|jb| |]; try discriminate.
    destruct a as [|ja| |]; try discriminate.
    rewrite !Z.leb_le. lia.
Qed.

Lemma label_leb_total (a b : cell) :
  is_stamp a = true -> is_stamp b = true -> label_leb a b = false -> label_leb b a = true.
Proof.
  destruct a as [|ja| |], b as [|jb| |]; simpl; try discriminate; try reflexivity.
  intros _ _. rewrite Z.leb_gt, Z.leb_le. lia.
Qed.

Section SortBy.

Context {A : Type} (key : A -> cell).

Let before (x y : A) : Prop := label_le (key x) (key y).

Lemma in_insert_by (x y : A) (l : list A) :
  In y (insert_by key x l) <-> y = x \/ In y l.
Proof.
  induction l as [|z l IH]; simpl.
  - intuition.
  - destruct (label_leb (key x) (key z)); simpl; [intuition|].
    rewrite IH. intuition.
Qed.

Lemma insert_by_perm (x : A) (l : list A) : Permutation (insert_by key x l) (x :: l).
Proof.
  induction l as [|z l IH]; simpl; [reflexivity|].
  destruct (label_leb (key x) (key z)); [reflexivity|].
  rewrite IH. apply perm_swap.
Qed.

Lemma sort_by_perm (l : list A) : Permutation (sort_by key l) l.
Proof.
  induction l as [|x l IH]; simpl; [reflexivity|].
  rewrite insert_by_perm. now apply perm_skip.
Qed.

Lemma insert_by_sorted (x : A) (l : list A) :
  is_stamp (key x) = true ->
  Forall (fun y => is_stamp (key y) = true) l ->
  StronglySorted before l ->
  StronglySorted before (insert_by key x l).
Proof.
  intros Hx Hl Hs. induction Hs as [|z l Hs IH Hz]; simpl.
  - constructor; constructor.
  - inversion Hl as [|? ? Hkz Hl']; subst.
    destruct (label_leb (key x) (key z)) eqn:E.
    + constructor; [constructor; assumption|].
      constructor; [exact E|].
      eapply Forall_impl; [|exact Hz]. intros y Hy.
      eapply label_le_trans; [exact E | exact Hy].
    + constructor; [apply IH; assumption|].
      apply Forall_forall. intros y Hy. apply in_insert_by in Hy as [-> | Hy].
      * apply label_leb_total; assumption.
      * rewrite Forall_forall in Hz. apply Hz; assumption.
Qed.

Lemma sort_by_sorted (l : list A) :
  Forall (fun y => is_stamp (key y) = true) l ->
  StronglySorted before (sort_by key l).
Proof.
  induction 1 as [|x l Hx Hl IH]; simpl; [constructor|].
  apply insert_by_sorted; [assumption| |assumption].
  apply Forall_forall. intros y Hy.
  apply (Permutation_in _ (sort_by_perm l)) in Hy.
  rewrite Forall_forall in Hl. apply Hl; assumption.
Qed.

Lemma sorted_keys (l : list A) :
  StronglySorted before l -> non_decreasing (map key l).
Proof.
  induction 1 as [|x l Hs IH Hx]; simpl; constructor; [assumption|].
  apply Forall_forall. intros c Hc. apply in_map_iff in Hc as (y & <- & Hy).
  rewrite Forall_forall in Hx. apply Hx; assumption.
Qed.

Lemma sort_by_non_decreasing (l : list A) :
  Forall (fun y => is_stamp (key y) = true) l ->
  non_decreasing (map key (sort_by key l)).
Proof. intros Hl. apply sorted_keys, sort_by_sorted, Hl. Qed.

Lemma non_decreasing_filter (f : A -> bool) (l : list A) :
  non_decreasing (map key l) -> non_decreasing (map key (filter f l)).
Proof.
  unfold non_decreasing. induction l as [|x l IH]; simpl; intros Hs; [constructor|].
  inversion Hs as [|? ? Hs' Hx]; subst.
  destruct (f x); simpl; [|auto].
  constructor; [auto|].
  apply Forall_forall. intros c Hc. apply in_map_iff in Hc as (y & <- & Hy).
  apply filter_In in Hy as [Hy _].
  rewrite Forall_forall in Hx. apply Hx. apply in_map; assumption.
Qed.

End SortBy.

Lemma non_decreasing_prefix (l1 l2 : list cell) :
  non_decreasing (l1 ++ l2) -> non_decreasing l1.
Proof.
  unfold non_decreasing. induction l1 as [|x l1 IH]; simpl; intros Hs; [constructor|].
  inversion Hs as [|? ? Hs' Hx]; subst. constructor; [auto|].
  apply Forall_app in Hx. tauto.
Qed.

(** What [sort_index] gives: the same rows, in non-decreasing order of
    their labels. *)
Lemma sort_index_spec (df out : DataFrame) :
  sort_index df = Ok out ->
  non_decreasing (index out)
  /\ Permutation (rows out) (rows df)
  /\ columns out = columns df
  /\ index_name out = index_name df.
Proof.
  unfold sort_index. destruct (forallb is_stamp (index df)) eqn:E; [|discriminate].
  intros Eo; inversion Eo; subst out; clear Eo. unfold index; simpl.
  split; [|split; [apply sort_by_perm | split; reflexivity]].
  apply sort_by_non_decreasing.
  rewrite forallb_forall in E. apply Forall_forall. intros r Hr.
  apply E. unfold index. apply in_map; assumption.
Qed.

Lemma select_non_decreasing (keep : Row -> bool) (df : DataFrame) :
  non_decreasing (index df) -> non_decreasing (index (select keep df)).
Proof. unfold index, select; simpl. apply non_decreasing_filter. Qed.

Lemma add_fields_labels (rs : list Row) (fs : list (dict cell)) :
  exists rest, map label rs = map label (add_fields rs fs) ++ rest.
Proof.
  revert fs; induction rs as [|r rs IH]; intros fs; simpl.
  - exists []. destruct fs; reflexivity.
  - destruct fs as [|f fs]; simpl.
    + eexists; reflexivity.
    + destruct (IH fs) as (rest & E). exists rest. rewrite <- E. reflexivity.
Qed.

Lemma fold_add_fields_labels {D} (g : D -> list (dict cell)) (ds : list D) (rs : list Row) :
  exists rest,
    map label rs
    = map label (fold_left (fun acc d => add_fields acc (g d)) ds rs) ++ rest.
Proof.
  revert rs; induction ds as [|d ds IH]; intros rs; simpl.
  - exists []. now rewrite app_nil_r.
  - destruct (IH (add_fields rs (g d))) as (rest & E).
    destruct (add_fields_labels rs (g d)) as (rest' & E').
    exists (rest ++ rest'). rewrite E', E, app_assoc. reflexivity.
Qed.

(** The column-wise join of tables keeps a non-decreasing index when the
    first table has one: the index is that of the first table, or a sorted
    union. *)
Lemma concat_columns_non_decreasing (d0 : DataFrame) (rest : list DataFrame) (df : DataFrame) :
  concat_columns (d0 :: rest) = Ok df ->
  non_decreasing (index d0) ->
  non_decreasing (index df).
Proof.
  unfold concat_columns. intros E H0.
  apply rbind_ok in E as (idxs & _ & E).
  destruct (negb (nodupb (List.concat (map columns (d0 :: rest))))); [discriminate|].
  destruct idxs as [|i0 irest]; [discriminate|].
  destruct (forallb (stamps_eqb i0) irest).
  - inversion E; subst df; clear E. unfold index; simpl.
    destruct (fold_add_fields_labels (fun d => map fields (rows d)) rest (rows d0))
      as (more & Em).
    apply (non_decreasing_prefix _ more). rewrite <- Em. exact H0.
  - destruct (forallb stamps_unique (i0 :: irest)); [|discriminate].
    inversion E; subst df; clear E. unfold index; simpl.
    set (new_index := sort_by of_stamp (fold_left union_append irest i0)).
    destruct (fold_add_fields_labels (fun d => map (fields_at d) new_index) (d0 :: rest)
                (map (fun s => mkRow (of_stamp s) []) new_index)) as (more & Em).
    apply (non_decreasing_prefix _ more). simpl in Em. rewrite <- Em.
    rewrite map_map. simpl. apply sort_by_non_decreasing.
    apply Forall_forall. intros [t|] _; reflexivity.
Qed.

(* ===================================================================== *)
(** * The index of the written tables                                     *)
(* ===================================================================== *)

Section SortedOutputs.

Context `{Library}.

Lemma index_by_datetime_sorted (c : string) (df out : DataFrame) :
  index_by_datetime c df = Ok out -> non_decreasing (index out).
Proof.
  unfold index_by_datetime. intros E.
  apply rbind_ok in E as (d1 & _ & E). apply rbind_ok in E as (d2 & _ & E).
  now apply sort_index_spec in E.
Qed.

Lemma files_to_df_sorted (fs : directory) (file_list : list string)
    (columns : string -> string) (df : DataFrame) :
  files_to_df fs file_list columns true = Ok df -> non_decreasing (index df).
Proof.
  unfold files_to_df. intros E.
  apply rbind_ok in E as (data & _ & E). apply rbind_ok in E as (d1 & _ & E).
  apply rbind_ok in E as (d2 & _ & E). eapply index_by_datetime_sorted; eauto.
Qed.

Lemma heart_rate_table_sorted (fs : directory) (df : DataFrame) :
  heart_rate_table fs = Ok df -> non_decreasing (index df).
Proof.
  unfold heart_rate_table. intros E.
  apply rbind_ok in E as (dfs & _ & E). apply rbind_ok in E as (d & _ & E).
  now apply sort_index_spec in E.
Qed.

Lemma drop_zero_strings_sorted (c : string) (df out : DataFrame) :
  drop_zero_strings c df = Ok out -> non_decreasing (index df) -> non_decreasing (index out).
Proof.
  unfold drop_zero_strings. intros E Hs. apply rbind_ok in E as (col & _ & E).
  inversion E; subst. now apply select_non_decreasing.
Qed.

Lemma activity_levels_joined_sorted (fs : directory) (df : DataFrame) :
  activity_levels_joined fs = Ok df -> non_decreasing (index df).
Proof.
  unfold activity_levels_joined. intros E. apply rbind_ok in E as (dfs & Ed & E).
  apply rmap_ok_Forall2 in Ed. unfold levels in Ed.
  inversion Ed as [|? d0 ? rest E0 _]; subst.
  eapply concat_columns_non_decreasing; [exact E|].
  unfold level_table in E0. eapply files_to_df_sorted; eauto.
Qed.

Lemma drop_full_sedentary_sorted (df out : DataFrame) :
  drop_full_sedentary df = Ok out -> non_decreasing (index df) -> non_decreasing (index out).
Proof.
  unfold drop_full_sedentary. intros E Hs. apply rbind_ok in E as (col & _ & E).
  apply rbind_ok in E as (ints & _ & E).
  inversion E; subst. now apply select_non_decreasing.
Qed.

Lemma sleep_overview_sorted (json_data : list json) (df : DataFrame) :
  sleep_overview json_data = Ok df -> non_decreasing (index df).
Proof.
  unfold sleep_overview. intros E.
  repeat (let x := fresh "x" in apply rbind_ok in E as (x & _ & E)).
  now apply sort_index_spec in E.
Qed.

End SortedOutputs.

Section WrittenIndexes.

Context `{Library}.

Ltac written H :=
  unfold writes in H; destruct H as [H | H];
  split_trace H; try discriminate;
  repeat match goal with
         | E : outcome (lift _) = Ok _ |- _ => rewrite outcome_lift in E
         end;
  try (inversion H; subst; clear H).

Lemma heart_rate_details_sorted (fs : directory) (fmt file : string) (df : DataFrame) :
  writes (prep_heart_rate_details fs fmt) file df ->
  file = "heart_rate.h5" \/ file = "heart_rate.csv" ->
  non_decreasing (index df).
Proof.
  intros W Hf. unfold prep_heart_rate_details in W.
  destruct (negb (mem fmt ["hdf"; "csv"])), (fmt =? "hdf");
    written W; try (eapply heart_rate_table_sorted; eassumption);
    destruct Hf as [Hf | Hf]; discriminate.
Qed.

Lemma zoning_sorted (fs : directory) (file : string) (df : DataFrame) :
  writes (prep_heart_rate_zoning_data fs) file df -> non_decreasing (index df).
Proof.
  intros W. unfold prep_heart_rate_zoning_data in W. written W.
  eapply files_to_df_sorted; eassumption.
Qed.

Lemma resting_sorted (fs : directory) (file : string) (df : DataFrame) :
  writes (prep_heart_rate_resting_data fs) file df -> non_decreasing (index df).
Proof.
  intros W. unfold prep_heart_rate_resting_data in W. written W.
  match goal with E : _ = Ok df |- _ =>
    repeat (let x := fresh "x" in apply rbind_ok in E as (x & _ & E));
    now apply sort_index_spec in E
  end.
Qed.

Lemma sleep_sorted (fs : directory) (file : string) (df : DataFrame) :
  writes (prep_sleep_data fs) file df -> non_decreasing (index df).
Proof.
  intros W. unfold prep_sleep_data in W. written W.
  - match goal with E : _ = Ok df |- _ =>
      apply rbind_ok in E as (d1 & _ & E); apply rbind_ok in E as (d2 & _ & E);
      eapply index_by_datetime_sorted; eassumption
    end.
  - eapply sleep_overview_sorted; eassumption.
  - match goal with E : _ = Ok df |- _ =>
      apply rbind_ok in E as (d1 & _ & E); apply rbind_ok in E as (d2 & _ & E);
      eapply index_by_datetime_sorted; eassumption
    end.
Qed.

Lemma steps_sorted (fs : directory) (file : string) (df : DataFrame) :
  writes (prep_steps_data fs) file df -> non_decreasing (index df).
Proof.
  intros W. unfold prep_steps_data in W. written W.
  eapply drop_zero_strings_sorted; [eassumption|].
  eapply files_to_df_sorted; eassumption.
Qed.

Lemma distance_sorted (fs : directory) (file : string) (df : DataFrame) :
  writes (prep_distance_data fs) file df -> non_decreasing (index df).
Proof.
  intros W. unfold prep_distance_data in W. written W.
  eapply drop_zero_strings_sorted; [eassumption|].
  eapply files_to_df_sorted; eassumption.
Qed.

Lemma activity_levels_sorted (fs : directory) (file : string) (df : DataFrame) :
  writes (prep_activity_level_data fs) file df -> non_decreasing (index df).
Proof.
  intros W. unfold prep_activity_level_data in W. written W.
  eapply drop_full_sedentary_sorted; [eassumption|].
  eapply activity_levels_joined_sorted; eassumption.
Qed.

End WrittenIndexes.

(** C1, as amended.  Every table written with a time index is in
    non-decreasing order of that index, NaT last, whatever the raw
    directory holds and in whatever order it lists its files: the
    heart-rate detail table, the zone summary, the resting heart rate, the
    three sleep tables, steps, distance and the activity levels; and
    [files_to_df] returns a table in that order for every file list, in any
    order. *)
Theorem written_time_indexes_non_decreasing `{Library} (fs : directory) :
  (forall file_list columns df,
     files_to_df fs file_list columns true = Ok df -> non_decreasing (index df))
  /\ (forall fmt file df,
        writes (prep_heart_rate_details fs fmt) file df ->
        file = "heart_rate.h5" \/ file = "heart_rate.csv" ->
        non_decreasing (index df))
  /\ (forall file df,
        writes (prep_heart_rate_zoning_data fs) file df
        \/ writes (prep_heart_rate_resting_data fs) file df
        \/ writes (prep_sleep_data fs) file df
        \/ writes (prep_steps_data fs) file df
        \/ writes (prep_distance_data fs) file df
        \/ writes (prep_activity_level_data fs) file df ->
        non_decreasing (index df)).
Proof.
  split; [|split].
  - intros file_list columns df. apply files_to_df_sorted.
  - intros fmt file df. apply heart_rate_details_sorted.
  - intros file df [W | [W | [W | [W | [W | W]]]]].
    + eapply zoning_sorted; eassumption.
    + eapply resting_sorted; eassumption.
    + eapply sleep_sorted; eassumption.
    + eapply steps_sorted; eassumption.
    + eapply distance_sorted; eassumption.
    + eapply activity_levels_sorted; eassumption.
Qed.

Lemma written_time_indexes_non_decreasing_witness :
  exists df,
    writes (prep_steps_data (H := Sample.library) Files.steps) "activity_steps.csv" df
    /\ index df = [Time 20230101000000; Time 20230101000100; Time 20230102000000]
    /\ non_decreasing (index df).
Proof.
  let t := eval vm_compute in (trace (prep_steps_data (H := Sample.library) Files.steps)) in
  match t with
  | [_; ToCsv _ ?out; _] =>
      assert (W : writes (prep_steps_data (H := Sample.library) Files.steps)
                    "activity_steps.csv" out)
        by (left; vm_compute; auto);
      exists out; split; [exact W | split; [reflexivity|]];
      apply (proj2 (proj2 (@written_time_indexes_non_decreasing Sample.library Files.steps))
               "activity_steps.csv" out);
      right; right; right; left; exact W
  end.
Defined.

(** C1, as stated, fails on the exercise tables: they are indexed by log
    ID in the order of the entries, and two entries with log IDs 2 and 1
    give the index 2, 2, 2, 2, 1, 1, 1, 1. *)
Lemma exercise_index_not_sorted :
  (exists df, In (ToCsv "activity_exercise_2.csv" df) (trace (prep_exercise_data Files.exercise))
              /\ index df = [Val (JInt 2); Val (JInt 2); Val (JInt 2); Val (JInt 2);
                             Val (JInt 1); Val (JInt 1); Val (JInt 1); Val (JInt 1)])
  /\ ~ (forall file df, writes (prep_exercise_data Files.exercise) file df ->
                        non_decreasing (index df)).
Proof.
  let t := eval vm_compute in (trace (prep_exercise_data Files.exercise)) in
  match t with
  | [_; _; _; ToCsv _ ?out; _] =>
      assert (I : In (ToCsv "activity_exercise_2.csv" out)
                    (trace (prep_exercise_data Files.exercise)))
        by (vm_compute; do 3 right; left; reflexivity);
      split; [exists out; split; [exact I | vm_compute; reflexivity]|];
      intros C; specialize (C "activity_exercise_2.csv" out (or_introl I))
  end.
  vm_compute in C.
  inversion C as [|? ? _ F]; subst.
  apply Forall_forall with (x := Val (JInt 1)) in F.
  - vm_compute in F. discriminate F.
  - do 4 right. left. reflexivity.
Qed.

(* ===================================================================== *)
(** * Dictionaries, columns and rows                                      *)
(* ===================================================================== *)

Lemma mem_In (c : string) (l : list string) : mem c l = true <-> In c l.
Proof.
  unfold mem. rewrite existsb_exists. split.
  - intros (x & Hx & E). apply String.eqb_eq in E. now subst.
  - intros Hc. exists c. split; [assumption | apply String.eqb_refl].
Qed.

Lemma dict_get_set_same {V} (k : string) (v : V) (d : dict V) :
  dict_get k (dict_set k v d) = Some v.
Proof.
  induction d as [|[k' v'] d IH]; simpl.
  - now rewrite String.eqb_refl.
  - destruct (k' =? k) eqn:E; simpl.
    + now rewrite String.eqb_refl.
    + now rewrite E.
Qed.

Lemma dict_get_set_other {V} (k k' : string) (v : V) (d : dict V) :
  k' <> k -> dict_get k' (dict_set k v d) = dict_get k' d.
Proof.
  intros N. induction d as [|[k0 v0] d IH]; simpl.
  - apply String.eqb_neq in N. rewrite String.eqb_sym in N. now rewrite N.
  - destruct (k0 =? k) eqn:E; simpl.
    + apply String.eqb_eq in E; subst k0.
      apply String.eqb_neq in N. rewrite String.eqb_sym in N. now rewrite N.
    + destruct (k0 =? k'); [reflexivity | exact IH].
Qed.

Lemma dict_get_remove_other {V} (k k' : string) (d : dict V) :
  k' <> k -> dict_get k' (remove_key k d) = dict_get k' d.
Proof.
  intros N. induction d as [|[k0 v0] d IH]; simpl; [reflexivity|].
  destruct (k0 =? k) eqn:E; simpl.
  - apply String.eqb_eq in E; subst k0.
    apply String.eqb_neq in N. rewrite String.eqb_sym in N. now rewrite N.
  - destruct (k0 =? k'); [reflexivity | exact IH].
Qed.

(** Cells outside [cs] are untouched by an assignment to, or the removal
    of, a column of [cs]. *)
Lemma filter_dict_set (cs : list string) (k : string) (v : cell) (d : dict cell) :
  mem k cs = true ->
  filter (fun kv => negb (mem (fst kv) cs)) (dict_set k v d)
  = filter (fun kv => negb (mem (fst kv) cs)) d.
Proof.
  intros Hk. induction d as [|[k0 v0] d IH]; simpl.
  - now rewrite Hk.
  - destruct (k0 =? k) eqn:E; simpl.
    + apply String.eqb_eq in E; subst k0. now rewrite Hk.
    + now rewrite IH.
Qed.

Lemma filter_remove_key (cs : list string) (k : string) (d : dict cell) :
  mem k cs = true ->
  filter (fun kv => negb (mem (fst kv) cs)) (remove_key k d)
  = filter (fun kv => negb (mem (fst kv) cs)) d.
Proof.
  intros Hk. unfold remove_key. induction d as [|[k0 v0] d IH]; simpl; [reflexivity|].
  destruct (k0 =? k) eqn:E; simpl.
  - apply String.eqb_eq in E; subst k0. rewrite Hk. simpl. exact IH.
  - now rewrite IH.
Qed.

Section Assign.

Variables (c : string) (rs : list Row) (vals : list cell).
Hypothesis same_length : List.length vals = List.length rs.

Lemma assign_length : List.length (assign c rs vals) = List.length rs.
Proof.
  revert vals same_length. induction rs as [|r l IH]; intros [|v vs] E; simpl in *;
    try discriminate; [reflexivity|]. f_equal. apply IH. now inversion E.
Qed.

Lemma assign_labels : map label (assign c rs vals) = map label rs.
Proof.
  revert vals same_length. induction rs as [|r l IH]; intros [|v vs] E; simpl in *;
    try discriminate; [reflexivity|]. f_equal. apply IH. now inversion E.
Qed.

Lemma assign_column : map (get c) (assign c rs vals) = vals.
Proof.
  revert vals same_length. induction rs as [|r l IH]; intros [|v vs] E; simpl in *;
    try discriminate; [reflexivity|].
  unfold get at 1; simpl. rewrite dict_get_set_same. f_equal. apply IH. now inversion E.
Qed.

Lemma assign_other_column (c' : string) :
  c' <> c -> map (get c') (assign c rs vals) = map (get c') rs.
Proof.
  intros N. revert vals same_length.
  induction rs as [|r l IH]; intros [|v vs] E; simpl in *;
    try discriminate; [reflexivity|].
  unfold get at 1 3; simpl. rewrite dict_get_set_other by assumption.
  f_equal. apply IH. now inversion E.
Qed.

Lemma assign_other_cells (cs : list string) :
  mem c cs = true -> map (other_cells cs) (assign c rs vals) = map (other_cells cs) rs.
Proof.
  intros Hc. revert vals same_length.
  induction rs as [|r l IH]; intros [|v vs] E; simpl in *;
    try discriminate; [reflexivity|].
  unfold other_cells at 1 3; simpl. rewrite filter_dict_set by assumption.
  f_equal. apply IH. now inversion E.
Qed.

End Assign.

Section Columns.

Context `{Library}.

(** What [df[c] = pd.to_datetime(df[c])] does when it succeeds. *)
Lemma convert_datetime_spec (c : string) (df out : DataFrame) :
  convert_datetime c df = Ok out ->
  exists ts,
    to_datetime (map (get c) (rows df)) = Ok ts
    /\ List.length ts = List.length (rows df)
    /\ has_column c df = true
    /\ rows out = assign c (rows df) (map of_stamp ts)
    /\ columns out = columns df
    /\ index_name out = index_name df.
Proof.
  unfold convert_datetime, column, set_column. intros E.
  destruct (has_column c df) eqn:Hc; [|discriminate]. simpl in E.
  destruct (to_datetime (map (get c) (rows df))) as [ts| |] eqn:Et; try discriminate.
  simpl in E. rewrite length_map in E.
  destruct (Nat.eqb (List.length ts) (List.length (rows df))) eqn:El; [|discriminate].
  apply Nat.eqb_eq in El. inversion E; subst out; clear E. simpl.
  exists ts. repeat split; try assumption.
  unfold add_key. unfold has_column in Hc. now rewrite Hc.
Qed.

Lemma set_index_spec (c : string) (df out : DataFrame) :
  set_index c df = Ok out ->
  has_column c df = true
  /\ map label (rows out) = map (get c) (rows df)
  /\ index_name out = Some c
  /\ columns out = remove_name c (columns df)
  /\ (forall cs, mem c cs = true ->
        map (other_cells cs) (rows out) = map (other_cells cs) (rows df))
  /\ (forall c', c' <> c -> map (get c') (rows out) = map (get c') (rows df)).
Proof.
  unfold set_index. destruct (has_column c df) eqn:Hc; [|discriminate].
  intros E; inversion E; subst out; clear E. simpl.
  split; [reflexivity|]. split; [now rewrite map_map|]. split; [reflexivity|].
  split; [reflexivity|]. split.
  - intros cs Hm. rewrite map_map. apply map_ext. intros r.
    unfold other_cells; simpl. now apply filter_remove_key.
  - intros c' N. rewrite map_map. apply map_ext. intros r.
    unfold get; simpl. now rewrite dict_get_remove_other.
Qed.

End Columns.

(* ===================================================================== *)
(** * Column-wise joins: the columns                                    *)
(* ===================================================================== *)

Lemma concat_columns_columns (dfs : list DataFrame) (df : DataFrame) :
  concat_columns dfs = Ok df -> columns df = List.concat (map columns dfs).
Proof.
  unfold concat_columns. destruct dfs as [|d0 rest]; [discriminate|]. intros E.
  apply rbind_ok in E as (idxs & _ & E).
  destruct (negb (nodupb (List.concat (map columns (d0 :: rest))))); [discriminate|].
  destruct idxs as [|i0 irest]; [discriminate|].
  destruct (forallb (stamps_eqb i0) irest).
  - now inversion E.
  - destruct (forallb stamps_unique (i0 :: irest)); [|discriminate]. now inversion E.
Qed.

Lemma Forall2_In_l {A B} (R : A -> B -> Prop) (l : list A) (l' : list B) (a : A) :
  Forall2 R l l' -> In a l -> exists b, In b l' /\ R a b.
Proof.
  induction 1 as [|x y l l' Hxy _ IH]; intros Hin; [destruct Hin|].
  destruct Hin as [-> | Hin].
  - exists y. split; [left; reflexivity | assumption].
  - destruct (IH Hin) as (b & Hb & Hr). exists b. split; [right; assumption | assumption].
Qed.

(* ===================================================================== *)
(** * Resting heart rate                                                  *)
(* ===================================================================== *)

Lemma range_rows_fields (i : Z) (recs : list (dict cell)) :
  map fields (range_rows i recs) = recs.
Proof.
  revert i; induction recs as [|d recs IH]; intros i; simpl; [reflexivity|].
  now rewrite IH.
Qed.

Lemma map_pair_combine {A B C} (g : A -> B) (h : A -> C) (l : list A) :
  map (fun a => (g a, h a)) l = combine (map g l) (map h l).
Proof. induction l as [|a l IH]; simpl; [reflexivity | now rewrite IH]. Qed.

Section Loading.

Context `{Library}.

(** Without the datetime step, [files_to_df] gives one row per loaded
    record, in order: the record flattened, its keys renamed. *)
Lemma files_to_df_rows (fs : directory) (file_list : list string)
    (columns : string -> string) (df : DataFrame) :
  files_to_df fs file_list columns false = Ok df ->
  exists records flat,
    files_to_json fs file_list = Ok records
    /\ rmap (simple_json_normalize ".") records = Ok flat
    /\ map fields (rows df) = map (map (fun kv => (columns (fst kv), snd kv))) flat.
Proof.
  unfold files_to_df. intros E.
  apply rbind_ok in E as (records & Er & E). apply rbind_ok in E as (d1 & En & E).
  apply rbind_ok in E as (d2 & Ern & E). inversion E; subst d2; clear E.
  exists records. simpl in En. unfold json_normalize_list in En.
  unfold rename in Ern. destruct (nodupb (map columns (Pd.columns d1))); [|discriminate].
  inversion Ern; subst df; clear Ern. simpl.
  destruct records as [|r records].
  - inversion En; subst d1. exists []. simpl. auto.
  - apply rbind_ok in En as (flat & Ef & En). inversion En; subst d1; clear En.
    exists flat. split; [assumption|]. split; [assumption|]. simpl.
    rewrite map_map. simpl. rewrite <- (range_rows_fields 0 flat) at 2.
    rewrite map_map. reflexivity.
Qed.

(** C5.  The table [prep_heart_rate_resting_data] writes has one row for
    every record whose date is not null, and none for the others: the rows
    of the loaded table are cut down to those with a date, and the written
    rows are these, each labelled with its own parsed [datetime], in
    non-decreasing order of that label; the index is named [datetime]. *)
Theorem resting_keeps_dated_records (fs : directory) (out : DataFrame) :
  In (ToCsv "heart_rate_resting.csv" out) (trace (prep_heart_rate_resting_data fs)) ->
  exists records flat df ts,
    files_to_json fs (Str.sorted (glob fs "resting_heart_rate-*.json")) = Ok records
    /\ rmap (simple_json_normalize ".") records = Ok flat
    /\ map fields (rows df)
       = map (map (fun kv => (resting_columns_mapper (fst kv), snd kv))) flat
    /\ let kept := filter (fun r => notna (get "date" r)) (rows df) in
       to_datetime (map (get "datetime") kept) = Ok ts
       /\ List.length ts = List.length kept
       /\ List.length (rows out) = List.length kept
       /\ index_name out = Some "datetime"
       /\ Permutation
            (map (fun r => (label r, other_cells ["datetime"; "date"] r)) (rows out))
            (combine (map of_stamp ts) (map (other_cells ["datetime"; "date"]) kept))
       /\ non_decreasing (index out).
Proof.
  intros Hin. unfold prep_heart_rate_resting_data in Hin.
  split_trace Hin; try discriminate.
  rewrite outcome_lift in *. inversion Hin; subst; clear Hin.
  match goal with Hx : rbind (resting_with_date fs) _ = Ok _ |- _ => rename Hx into EE end.
  apply rbind_ok in EE as (d0 & Q0 & Q). apply rbind_ok in Q as (d1 & Q1 & Q).
  apply rbind_ok in Q as (d2 & Q2 & Q). apply rbind_ok in Q as (d3 & Q3 & Q).
  unfold resting_with_date in Q0.
  apply rbind_ok in Q0 as (df & Edf & Q0). apply rbind_ok in Q0 as (col & _ & Q0).
  inversion Q0; subst d0; clear Q0.
  destruct (files_to_df_rows _ _ _ _ Edf) as (records & flat & Er & Ef & Erows).
  exists records, flat, df.
  apply convert_datetime_spec in Q1 as (ts & Et & Lt & _ & R1 & _ & _).
  apply convert_datetime_spec in Q2 as (ds & _ & Ld & _ & R2 & _ & _).
  apply set_index_spec in Q3 as (_ & L3 & N3 & _ & O3 & _).
  apply sort_index_spec in Q as (Hs & Hp & _ & Hn).
  unfold select in *; simpl in *.
  set (kept := filter (fun r => notna (get "date" r)) (rows df)) in *.
  assert (Lt' : List.length (map of_stamp ts) = List.length kept)
    by now rewrite length_map.
  assert (L1 : List.length (rows d1) = List.length kept)
    by (rewrite R1; now apply assign_length).
  assert (Ld' : List.length (map of_stamp ds) = List.length (rows d1))
    by now rewrite length_map.
  exists ts. split; [exact Er|]. split; [exact Ef|]. split; [exact Erows|].
  split; [exact Et|]. split; [exact Lt|]. split; [|split; [|split]].
  - rewrite (Permutation_length Hp).
    rewrite <- (length_map label), L3, length_map, R2.
    rewrite assign_length by assumption. exact L1.
  - now rewrite Hn.
  - rewrite (Permutation_map _ Hp). rewrite map_pair_combine.
    rewrite L3, (O3 ["datetime"; "date"]) by reflexivity.
    rewrite R2.
    rewrite assign_other_column by (assumption || discriminate).
    rewrite assign_other_cells by (assumption || reflexivity).
    rewrite R1.
    rewrite assign_column by assumption.
    rewrite assign_other_cells by (assumption || reflexivity).
    reflexivity.
  - exact Hs.
Qed.

End Loading.

Lemma resting_keeps_dated_records_witness :
  exists out,
    In (ToCsv "heart_rate_resting.csv" out)
       (trace (prep_heart_rate_resting_data (H := Sample.library) Files.resting))
    /\ map (fun r => (label r, get "value" r)) (rows out)
       = [(Time 20230101000000, Val (JInt 55)); (Time 20230103000000, Val (JInt 57))]
    /\ index_name out = Some "datetime"
    /\ exists records, files_to_json Files.resting ["resting_heart_rate-2023-04-17.json"]
                       = Ok records /\ List.length records = 3.
Proof.
  let t := eval vm_compute in
      (trace (prep_heart_rate_resting_data (H := Sample.library) Files.resting)) in
  match t with
  | [_; ToCsv _ ?out; _] =>
      assert (I : In (ToCsv "heart_rate_resting.csv" out)
                    (trace (prep_heart_rate_resting_data (H := Sample.library) Files.resting)))
        by (vm_compute; right; left; reflexivity);
      exists out; split; [exact I | split; [vm_compute; reflexivity|]];
      destruct (@resting_keeps_dated_records Sample.library Files.resting out I)
        as (records & flat & df & ts & Er & _ & _ & _ & _ & _ & En & _);
      split; [exact En|];
      exists records; split; [exact Er|];
      vm_compute in Er; inversion Er; reflexivity
  end.
Defined.

(* ===================================================================== *)
(** * Exercise logs: the placeholder rows                                 *)
(* ===================================================================== *)

Lemma dict_mem_set_other {V} (k k' : string) (v : V) (d : dict V) :
  k' <> k -> dict_mem k' (dict_set k v d) = dict_mem k' d.
Proof. intros N. unfold dict_mem. now rewrite dict_get_set_other. Qed.

Lemma meta_cell_set_other (k k' : string) (v : json) (d : dict json) :
  k' <> k -> meta_cell k' (dict_set k v d) = meta_cell k' d.
Proof. intros N. unfold meta_cell. now rewrite dict_get_set_other. Qed.

(** The backfill gives an entry without zones the placeholder, and
    leaves its other keys but [activityLevel] alone. *)
Lemma backfill_missing_zones (d : dict json) :
  dict_mem "heartRateZones" d = false ->
  exists d',
    backfill (JObj d) = Ok (JObj d')
    /\ dict_get "heartRateZones" d' = Some heart_rate_zones
    /\ (forall k, k <> "heartRateZones" -> k <> "activityLevel" ->
          meta_cell k d' = meta_cell k d).
Proof.
  intros Hz. unfold backfill. simpl.
  destruct (dict_mem "activityLevel" d) eqn:Ha; simpl.
  - rewrite Hz. simpl. eexists. split; [reflexivity|]. split.
    + apply dict_get_set_same.
    + intros k N1 N2. now apply meta_cell_set_other.
  - rewrite dict_mem_set_other by discriminate. rewrite Hz. simpl.
    eexists. split; [reflexivity|]. split.
    + apply dict_get_set_same.
    + intros k N1 N2. rewrite meta_cell_set_other by assumption.
      now apply meta_cell_set_other.
Qed.

Lemma pull_meta_all (d : dict json) (meta : list string) :
  rmap (pull_meta (JObj d)) meta = Ok (map (fun k => (k, meta_cell k d)) meta).
Proof.
  induction meta as [|k meta IH]; simpl; [reflexivity|].
  unfold meta_cell at 1. destruct (dict_get k d); simpl; now rewrite IH.
Qed.

Lemma record_rows_placeholder (d : dict json) :
  dict_get "heartRateZones" d = Some heart_rate_zones ->
  record_rows "." ["heartRateZones"] exercise_meta (JObj d)
  = Ok (map (fun name => (zone_fields name, map (fun k => (k, meta_cell k d)) exercise_meta))
            zone_names).
Proof.
  intros E. unfold record_rows. simpl pull_path. unfold pull_records. rewrite E.
  unfold heart_rate_zones. cbn [rbind]. rewrite pull_meta_all. reflexivity.
Qed.

Lemma exercise_row_placeholder (d : dict json) (name : string) :
  placeholder_zone_row d name
    (exercise_row (zone_fields name, map (fun k => (k, meta_cell k d)) exercise_meta)).
Proof. unfold placeholder_zone_row. repeat split. Qed.

Lemma range_rows_map {B} (g : dict cell -> B) (i : Z) (recs : list (dict cell)) :
  map (fun r => g (fields r)) (range_rows i recs) = map g recs.
Proof.
  revert i; induction recs as [|d recs IH]; intros i; simpl; [reflexivity|].
  now rewrite IH.
Qed.

(** The rows of an exercise table, entry by entry. *)
Lemma exercise_table_rows (json_data : list json) (record_path : string) (df : DataFrame) :
  exercise_table json_data record_path = Ok df ->
  exists groups,
    rmap (record_rows "." [record_path] exercise_meta) json_data = Ok groups
    /\ rows df = List.concat (map (map exercise_row) groups).
Proof.
  unfold exercise_table. intros E.
  apply rbind_ok in E as (d1 & E1 & E). apply rbind_ok in E as (d2 & E2 & E).
  unfold json_normalize_records in E1. destruct json_data as [|item json_data].
  - inversion E1; subst d1. inversion E2; subst d2. discriminate E.
  - apply rbind_ok in E1 as (groups & Eg & E1). exists groups. split; [exact Eg|].
    match type of E1 with (if ?c then _ else _) = _ => destruct c; [discriminate|] end.
    inversion E1; subst d1; clear E1.
    unfold rename in E2. simpl in E2.
    match type of E2 with (if ?c then _ else _) = _ => destruct c; [|discriminate] end.
    inversion E2; subst d2; clear E2.
    unfold set_index in E. simpl in E.
    match type of E with (if ?c then _ else _) = _ => destruct c; [|discriminate] end.
    inversion E; subst df; clear E. simpl.
    rewrite map_map. simpl.
    rewrite (range_rows_map
               (fun f => mkRow
                  (get "log_id"
                     (mkRow Missing (map (fun kv => (mapper exercise_columns (fst kv), snd kv)) f)))
                  (remove_key "log_id"
                     (map (fun kv => (mapper exercise_columns (fst kv), snd kv)) f)))).
    rewrite map_map. rewrite concat_map. reflexivity.
Qed.

Lemma placeholder_group (d d' : dict json) :
  dict_get "heartRateZones" d' = Some heart_rate_zones ->
  meta_cell "logId" d' = meta_cell "logId" d ->
  forall group,
    record_rows "." ["heartRateZones"] exercise_meta (JObj d') = Ok group ->
    List.length (map exercise_row group) = 4
    /\ Forall2 (placeholder_zone_row d) zone_names (map exercise_row group).
Proof.
  intros Hz Hid group E. rewrite (record_rows_placeholder d' Hz) in E.
  inversion E; subst group; clear E. split; [reflexivity|].
  unfold zone_names. simpl map.
  repeat constructor; unfold placeholder_zone_row; rewrite <- Hid; repeat split.
Qed.

(** C3.  The heart-rate-zone table of [prep_exercise_data] is made of the
    rows of the entries, entry after entry; an entry that came without
    [heartRateZones] gives exactly four of them, one for each zone of the
    placeholder in its order, each labelled with the log ID of the entry and
    with null [min], [max] and [minutes]. *)
Theorem missing_zones_give_four_placeholder_rows (fs : directory) (df : DataFrame) :
  In (ToCsv "activity_exercise_2.csv" df) (trace (prep_exercise_data fs)) ->
  exists json_data groups,
    files_to_json fs (Str.sorted (glob fs "exercise-*.json")) = Ok json_data
    /\ rows df = List.concat groups
    /\ Forall2 (fun item group =>
                  forall d, item = JObj d -> dict_mem "heartRateZones" d = false ->
                    List.length group = 4
                    /\ Forall2 (placeholder_zone_row d) zone_names group)
               json_data groups.
Proof.
  intros Hin. unfold prep_exercise_data in Hin. split_trace Hin; try discriminate.
  rewrite outcome_lift in *. inversion Hin; subst; clear Hin.
  repeat match goal with Hx : outcome (lift _) = _ |- _ => rewrite outcome_lift in Hx end.
  match goal with Hx : rbind (files_to_json _ _) _ = Ok ?f |- _ =>
    rename Hx into Q; rename f into filled end.
  match goal with Hx : exercise_table filled "heartRateZones" = Ok _ |- _ =>
    rename Hx into T end.
  apply rbind_ok in Q as (json_data & Ej & Eb).
  destruct (exercise_table_rows _ _ _ T) as (gs & Eg & Erows).
  exists json_data, (map (map exercise_row) gs).
  split; [exact Ej|]. split; [exact Erows|].
  apply rmap_ok_Forall2 in Eb. apply rmap_ok_Forall2 in Eg.
  clear - Eb Eg. revert gs Eg.
  induction Eb as [|item f items fs' Ef _ IH]; intros gs Eg.
  - inversion Eg; subst. constructor.
  - inversion Eg as [|? g ? gs' Er Eg']; subst. simpl. constructor.
    + intros d -> Hz.
      destruct (backfill_missing_zones d Hz) as (d' & Eb' & Hz' & Hk).
      rewrite Eb' in Ef. inversion Ef; subst f.
      apply (placeholder_group d d'); [exact Hz' | | exact Er].
      apply Hk; discriminate.
    + apply IH; assumption.
Qed.

Lemma missing_zones_give_four_placeholder_rows_witness :
  exists df,
    In (ToCsv "activity_exercise_2.csv" df) (trace (prep_exercise_data Files.exercise))
    /\ map (fun r => (label r, get "name" r, get "min" r, get "max" r, get "minutes" r))
           (rows df)
       = [(Val (JInt 2), Val (JStr "Außerhalb der Zone"), Val JNull, Val JNull, Val JNull);
          (Val (JInt 2), Val (JStr "Fettverbrennung"), Val JNull, Val JNull, Val JNull);
          (Val (JInt 2), Val (JStr "Kardio"), Val JNull, Val JNull, Val JNull);
          (Val (JInt 2), Val (JStr "Höchstleistung"), Val JNull, Val JNull, Val JNull);
          (Val (JInt 1), Val (JStr "Außerhalb der Zone"), Val JNull, Val JNull, Val JNull);
          (Val (JInt 1), Val (JStr "Fettverbrennung"), Val JNull, Val JNull, Val JNull);
          (Val (JInt 1), Val (JStr "Kardio"), Val JNull, Val JNull, Val JNull);
          (Val (JInt 1), Val (JStr "Höchstleistung"), Val JNull, Val JNull, Val JNull)]
    /\ exists json_data groups,
         files_to_json Files.exercise ["exercise-0.json"] = Ok json_data
         /\ rows df = List.concat groups.
Proof.
  let t := eval vm_compute in (trace (prep_exercise_data Files.exercise)) in
  match t with
  | [_; _; _; ToCsv _ ?out; _] =>
      assert (I : In (ToCsv "activity_exercise_2.csv" out)
                    (trace (prep_exercise_data Files.exercise)))
        by (vm_compute; do 3 right; left; reflexivity);
      exists out; split; [exact I | split; [vm_compute; reflexivity|]];
      destruct (missing_zones_give_four_placeholder_rows Files.exercise out I)
        as (json_data & groups & Ej & Er & _);
      exists json_data, groups; split; [exact Ej | exact Er]
  end.
Defined.

(* ===================================================================== *)
(** * Sleep overview                                                      *)
(* ===================================================================== *)

Lemma is_stamp_of_stamp (s : stamp) : is_stamp (of_stamp s) = true.
Proof. destruct s; reflexivity. Qed.

Lemma range_rows_length (i : Z) (recs : list (dict cell)) :
  List.length (range_rows i recs) = List.length recs.
Proof.
  revert i; induction recs as [|d recs IH]; intros i; simpl; [reflexivity|].
  now rewrite IH.
Qed.

Lemma json_normalize_length (sep : string) (l : list json) (df : DataFrame) :
  json_normalize sep (JArr l) = Ok df -> List.length (rows df) = List.length l.
Proof.
  simpl. unfold json_normalize_list. destruct l as [|j l].
  - intros E; inversion E; reflexivity.
  - intros E. apply rbind_ok in E as (recs & Er & E). inversion E; subst df; simpl.
    rewrite range_rows_length. exact (rmap_ok_length _ (j :: l) _ Er).
Qed.

Lemma drop_spec (cs : list string) (df out : DataFrame) :
  drop cs df = Ok out ->
  (forall c, In c cs -> In c (columns df))
  /\ columns out = filter (fun c => negb (mem c cs)) (columns df)
  /\ List.length (rows out) = List.length (rows df)
  /\ index_name out = index_name df.
Proof.
  unfold drop. destruct (forallb (fun c => has_column c df) cs) eqn:E; [|discriminate].
  intros Eo; inversion Eo; subst out; clear Eo. simpl.
  split; [|split; [reflexivity | split; [apply length_map | reflexivity]]].
  intros c Hc. rewrite forallb_forall in E. apply mem_In. now apply E.
Qed.

Lemma rename_spec (f : string -> string) (df out : DataFrame) :
  rename f df = Ok out ->
  columns out = map f (columns df)
  /\ List.length (rows out) = List.length (rows df)
  /\ index_name out = index_name df.
Proof.
  unfold rename. destruct (nodupb (map f (columns df))); [|discriminate].
  intros Eo; inversion Eo; subst out; clear Eo. simpl.
  split; [reflexivity | split; [apply length_map | reflexivity]].
Qed.

Lemma levels_to_summary_spec (item s : json) :
  levels_to_summary item = Ok s -> levels_replaced item s.
Proof.
  unfold levels_to_summary, levels_replaced.
  destruct item as [| | | | | | |d]; try discriminate.
  destruct (dict_get "levels" d) as [[| | | | | | |lv]|] eqn:El; try discriminate.
  destruct (dict_get "summary" lv) as [summ|] eqn:Es; try discriminate.
  intros E; inversion E; subst s. exists d, lv, summ. auto.
Qed.

(** The fixed rename table, as [sleep_columns_mapper] applies it. *)
Lemma sleep_mapping_applied :
  Forall (fun p => sleep_columns_mapper (fst p) = snd p) sleep_mapping.
Proof. repeat constructor. Qed.

Lemma drop_rows (cs : list string) (df out : DataFrame) :
  drop cs df = Ok out ->
  rows out
  = map (fun r => mkRow (label r) (filter (fun kv => negb (mem (fst kv) cs)) (fields r)))
        (rows df).
Proof.
  unfold drop. destruct (forallb (fun c => has_column c df) cs); [|discriminate].
  intros Eo; inversion Eo; reflexivity.
Qed.

Lemma rename_rows (f : string -> string) (df out : DataFrame) :
  rename f df = Ok out ->
  rows out
  = map (fun r => mkRow (label r) (map (fun kv => (f (fst kv), snd kv)) (fields r)))
        (rows df).
Proof.
  unfold rename. destruct (nodupb (map f (columns df))); [|discriminate].
  intros Eo; inversion Eo; reflexivity.
Qed.

(** A table made by [json_normalize] from a list that is not empty has
    the flattened elements as its rows. *)
Lemma json_normalize_rows (sep : string) (l : list json) (df : DataFrame) :
  json_normalize sep (JArr l) = Ok df -> l <> [] ->
  exists recs,
    rmap (simple_json_normalize sep) l = Ok recs /\ map fields (rows df) = recs.
Proof.
  simpl. unfold json_normalize_list. destruct l as [|j l]; [congruence|].
  intros E _. apply rbind_ok in E as (recs & Er & E). inversion E; subst df; simpl.
  exists recs. split; [exact Er | apply range_rows_fields].
Qed.

Section SleepOverview.

Context `{Library}.

Lemma sleep_overview_spec (json_data : list json) (df : DataFrame) :
  sleep_overview json_data = Ok df ->
  exists summaries flat recs rs ts1 ts2 ts3,
    Forall2 levels_replaced json_data summaries
    /\ json_normalize "_" (JArr summaries) = Ok flat
    /\ In "type" (columns flat) /\ In "infoCode" (columns flat)
    /\ columns df
       = remove_name "date_of_sleep"
           (map sleep_columns_mapper
              (filter (fun c => negb (mem c ["type"; "infoCode"])) (columns flat)))
    /\ index_name df = Some "date_of_sleep"
    /\ Forall (fun c => is_stamp c = true) (index df)
    /\ (forall r, In r (rows df) ->
          is_stamp (get "start_time" r) = true /\ is_stamp (get "end_time" r) = true)
    /\ List.length (rows df) = List.length json_data
    /\ non_decreasing (index df)
    /\ rmap (simple_json_normalize "_") summaries = Ok recs
    /\ map fields (rows flat) = recs
    /\ map fields rs = map overview_cells recs
    /\ to_datetime (map (get "date_of_sleep") rs) = Ok ts1
    /\ to_datetime (map (get "start_time") rs) = Ok ts2
    /\ to_datetime (map (get "end_time") rs) = Ok ts3
    /\ Permutation
         (map (fun r => (label r,
                         (get "start_time" r,
                          (get "end_time" r, other_cells overview_times r))))
              (rows df))
         (combine (map of_stamp ts1)
            (combine (map of_stamp ts2)
               (combine (map of_stamp ts3) (map (other_cells overview_times) rs)))).
Proof.
  unfold sleep_overview. intros E.
  apply rbind_ok in E as (summaries & Es & E).
  apply rbind_ok in E as (d1 & E1 & E). apply rbind_ok in E as (d2 & E2 & E).
  apply rbind_ok in E as (d3 & E3 & E). apply rbind_ok in E as (d4 & E4 & E).
  apply rbind_ok in E as (d5 & E5 & E). apply rbind_ok in E as (d6 & E6 & E).
  apply rbind_ok in E as (d7 & E7 & E).
  pose proof (rmap_ok_length _ _ _ Es) as Ls.
  apply rmap_ok_Forall2 in Es.
  pose proof (json_normalize_length _ _ _ E1) as L1.
  pose proof (drop_rows _ _ _ E2) as R2.
  pose proof (rename_rows _ _ _ E3) as R3.
  apply drop_spec in E2 as (Hd & C2 & L2 & _).
  apply rename_spec in E3 as (C3 & L3 & _).
  assert (Ne : summaries <> []).
  { intros ->. simpl in E1. inversion E1; subst d1.
    exact (Hd "type" (or_introl eq_refl)). }
  destruct (json_normalize_rows _ _ _ E1 Ne) as (recs & Er & F1).
  apply convert_datetime_spec in E4 as (ts1 & Et1 & Lt1 & _ & R4 & C4 & _).
  apply convert_datetime_spec in E5 as (ts2 & Et2 & Lt2 & _ & R5 & C5 & _).
  apply convert_datetime_spec in E6 as (ts3 & Et3 & Lt3 & _ & R6 & C6 & _).
  apply set_index_spec in E7 as (_ & Lab & N7 & C7 & Oc & Oth).
  apply sort_index_spec in E as (Hs & Hp & C8 & N8).
  assert (Lm1 : List.length (map of_stamp ts1) = List.length (rows d3))
    by now rewrite length_map.
  assert (Lm2 : List.length (map of_stamp ts2) = List.length (rows d4))
    by now rewrite length_map.
  assert (Lm3 : List.length (map of_stamp ts3) = List.length (rows d5))
    by now rewrite length_map.
  assert (Dos : map label (rows d7) = map of_stamp ts1).
  { rewrite Lab, R6. rewrite assign_other_column by (assumption || discriminate).
    rewrite R5. rewrite assign_other_column by (assumption || discriminate).
    rewrite R4. now apply assign_column. }
  assert (St : map (get "start_time") (rows d7) = map of_stamp ts2).
  { rewrite (Oth "start_time") by discriminate. rewrite R6.
    rewrite assign_other_column by (assumption || discriminate).
    rewrite R5. now apply assign_column. }
  assert (En : map (get "end_time") (rows d7) = map of_stamp ts3).
  { rewrite (Oth "end_time") by discriminate. rewrite R6. now apply assign_column. }
  assert (Rest : map (other_cells overview_times) (rows d7)
                 = map (other_cells overview_times) (rows d3)).
  { rewrite (Oc overview_times) by reflexivity.
    rewrite R6. rewrite assign_other_cells by (assumption || reflexivity).
    rewrite R5. rewrite assign_other_cells by (assumption || reflexivity).
    rewrite R4. now rewrite assign_other_cells by (assumption || reflexivity). }
  exists summaries, d1, recs, (rows d3), ts1, ts2, ts3.
  split.
  { eapply Forall2_impl; [|exact Es]. intros a b. apply levels_to_summary_spec. }
  split; [exact E1|].
  split; [apply Hd; left; reflexivity|].
  split; [apply Hd; right; left; reflexivity|].
  split; [now rewrite C8, C7, C6, C5, C4, C3, C2|].
  split; [now rewrite N8|].
  split; [|split; [|split; [|split; [exact Hs|]]]].
  - unfold index. apply (Permutation_Forall (Permutation_map label (Permutation_sym Hp))).
    rewrite Dos. apply Forall_forall. intros c Hc.
    apply in_map_iff in Hc as (s & <- & _). apply is_stamp_of_stamp.
  - intros r Hr. apply (Permutation_in _ Hp) in Hr. split.
    + assert (I : In (get "start_time" r) (map (get "start_time") (rows d7)))
        by now apply in_map.
      rewrite St in I. apply in_map_iff in I as (s & <- & _). apply is_stamp_of_stamp.
    + assert (I : In (get "end_time" r) (map (get "end_time") (rows d7)))
        by now apply in_map.
      rewrite En in I. apply in_map_iff in I as (s & <- & _). apply is_stamp_of_stamp.
  - rewrite (Permutation_length Hp).
    rewrite <- (length_map label), Dos, length_map, Lt1, L3, L2, L1. exact Ls.
  - split; [exact Er|]. split; [exact F1|].
    split.
    { rewrite R3, R2, !map_map. simpl. rewrite <- F1, map_map. reflexivity. }
    split; [exact Et1|].
    split.
    { rewrite <- Et2. f_equal. rewrite R4.
      symmetry. apply assign_other_column; [assumption | discriminate]. }
    split.
    { rewrite <- Et3. f_equal. rewrite R5.
      rewrite assign_other_column by (assumption || discriminate).
      rewrite R4. symmetry. apply assign_other_column; [assumption | discriminate]. }
    apply (Permutation_map
             (fun r => (label r,
                        (get "start_time" r,
                         (get "end_time" r, other_cells overview_times r))))) in Hp.
    rewrite (map_pair_combine label
               (fun r => (get "start_time" r,
                          (get "end_time" r, other_cells overview_times r)))
               (rows d7)) in Hp.
    rewrite (map_pair_combine (get "start_time")
               (fun r => (get "end_time" r, other_cells overview_times r))
               (rows d7)) in Hp.
    rewrite (map_pair_combine (get "end_time") (other_cells overview_times)
               (rows d7)) in Hp.
    rewrite Dos, St, En, Rest in Hp. exact Hp.
Qed.

(** C9.  The table written to [sleep_overviews.csv] comes from the loaded
    sleep records in these steps: in every record the [levels] object is
    replaced by its [summary]; the records are flattened with names joined
    by an underscore, one row for each record; the columns [type] and
    [infoCode], which must be there, are dropped and no other; the columns
    are renamed by [sleep_columns_mapper], which maps the ten names of the
    fixed table to their new names; [date_of_sleep], [start_time] and
    [end_time] hold timestamps; and [date_of_sleep] is the index, in
    non-decreasing order.  Every row of the table is one record's row:
    with [rs] the rows of the flattened records after the drop and the
    renaming ([overview_cells] of each record, in order), the written rows
    are, up to the order the sort puts them in, the rows of [rs], each
    labelled with its own parsed [date_of_sleep], holding its own parsed
    [start_time] and [end_time], and its other cells unchanged. *)
Theorem sleep_overview_table (fs : directory) (df : DataFrame) :
  In (ToCsv "sleep_overviews.csv" df) (trace (prep_sleep_data fs)) ->
  exists json_data summaries flat recs rs ts1 ts2 ts3,
    files_to_json fs (Str.sorted (glob fs "sleep-*.json")) = Ok json_data
    /\ Forall2 levels_replaced json_data summaries
    /\ json_normalize "_" (JArr summaries) = Ok flat
    /\ In "type" (columns flat) /\ In "infoCode" (columns flat)
    /\ columns df
       = remove_name "date_of_sleep"
           (map sleep_columns_mapper
              (filter (fun c => negb (mem c ["type"; "infoCode"])) (columns flat)))
    /\ Forall (fun p => sleep_columns_mapper (fst p) = snd p) sleep_mapping
    /\ index_name df = Some "date_of_sleep"
    /\ Forall (fun c => is_stamp c = true) (index df)
    /\ (forall r, In r (rows df) ->
          is_stamp (get "start_time" r) = true /\ is_stamp (get "end_time" r) = true)
    /\ List.length (rows df) = List.length json_data
    /\ non_decreasing (index df)
    /\ rmap (simple_json_normalize "_") summaries = Ok recs
    /\ map fields (rows flat) = recs
    /\ map fields rs = map overview_cells recs
    /\ to_datetime (map (get "date_of_sleep") rs) = Ok ts1
    /\ to_datetime (map (get "start_time") rs) = Ok ts2
    /\ to_datetime (map (get "end_time") rs) = Ok ts3
    /\ Permutation
         (map (fun r => (label r,
                         (get "start_time" r,
                          (get "end_time" r, other_cells overview_times r))))
              (rows df))
         (combine (map of_stamp ts1)
            (combine (map of_stamp ts2)
               (combine (map of_stamp ts3) (map (other_cells overview_times) rs)))).
Proof.
  intros Hin. unfold prep_sleep_data in Hin. split_trace Hin; try discriminate.
  repeat match goal with Hx : outcome (lift _) = _ |- _ => rewrite outcome_lift in Hx end.
  inversion Hin; subst; clear Hin.
  match goal with Hx : sleep_overview ?j = Ok df |- _ =>
    destruct (sleep_overview_spec _ _ Hx)
      as (summaries & flat & recs & rs & ts1 & ts2 & ts3
          & P1 & P2 & P3 & P4 & P5 & P6 & P7 & P8 & P9 & P10 & Q);
    exists j, summaries, flat, recs, rs, ts1, ts2, ts3
  end.
  split; [assumption|].
  repeat (split; [assumption|]).
  split; [exact sleep_mapping_applied|].
  repeat (split; [assumption|]). exact Q.
Qed.

End SleepOverview.

Lemma sleep_overview_table_witness :
  exists df,
    In (ToCsv "sleep_overviews.csv" df)
       (trace (prep_sleep_data (H := Sample.library) Files.sleep))
    /\ columns df
       = ["sleep_log_entry_id"; "start_time"; "end_time"; "minutes_asleep";
          "deep_count"; "deep_minutes"; "deep_30_day_avg_minutes";
          "wake_count"; "wake_minutes"; "wake_30_day_avg_minutes"]
    /\ index df = [Time 20230101; Time 20230102]
    /\ index_name df = Some "date_of_sleep"
    /\ List.length (rows df) = 2.
Proof.
  let t := eval vm_compute in (trace (prep_sleep_data (H := Sample.library) Files.sleep)) in
  match t with
  | [_; _; _; ToCsv _ ?out; _; _; _] =>
      assert (I : In (ToCsv "sleep_overviews.csv" out)
                    (trace (prep_sleep_data (H := Sample.library) Files.sleep)))
        by (vm_compute; do 3 right; left; reflexivity);
      exists out; split; [exact I|];
      split; [vm_compute; reflexivity|];
      split; [vm_compute; reflexivity|];
      destruct (@sleep_overview_table Sample.library Files.sleep out I)
        as (json_data & summaries & flat & recs & rs & ts1 & ts2 & ts3
            & _ & _ & _ & _ & _ & _ & _ & En & _);
      split; [exact En | vm_compute; reflexivity]
  end.
Defined.

(* ===================================================================== *)
(** * Further properties: the loading helpers                             *)
(* ===================================================================== *)

Lemma sum_files_ok_inv (fs : directory) (file_list : list string) (start out : list json) :
  sum_files fs start file_list = Ok out ->
  exists lists,
    Forall2 (fun p l => file_to_json fs p = Ok (JArr l)) file_list lists
    /\ out = start ++ List.concat lists.
Proof.
  revert start. induction file_list as [|p ps IH]; intros start E; simpl in E.
  - inversion E; subst. exists []. split; [constructor | now rewrite app_nil_r].
  - apply rbind_ok in E as (x & Ex & E). apply rbind_ok in E as (acc & Ea & E).
    destruct x as [| | | | | |l|]; try discriminate.
    simpl in Ea. inversion Ea; subst acc; clear Ea.
    destruct (IH _ E) as (lists & F & ->). exists (l :: lists).
    split; [constructor; assumption|]. simpl. now rewrite app_assoc.
Qed.

(** X1.  [files_to_json] returns a list exactly when every file of the
    list is there and holds a JSON list, and then it is the concatenation
    of these lists: a missing file, a file that is not JSON, or a document
    that is an object or a scalar makes it raise. *)
Theorem files_to_json_ok_iff (fs : directory) (file_list : list string) (out : list json) :
  files_to_json fs file_list = Ok out <->
  exists lists,
    Forall2 (fun p l => file_to_json fs p = Ok (JArr l)) file_list lists
    /\ out = List.concat lists.
Proof.
  unfold files_to_json. split.
  - intros E. apply sum_files_ok_inv in E as (lists & F & ->). exists lists. auto.
  - intros (lists & F & ->). now rewrite (sum_files_concat fs file_list lists []).
Qed.

Section LoadingMore.

Context `{Library}.

(** X2.  When the files give no record at all (no file, or only empty
    lists), [files_to_df] with the datetime step raises, since the empty
    table has no [datetime] column; without that step it returns the empty
    table. *)
Theorem files_to_df_without_records (fs : directory) (file_list : list string)
    (columns : string -> string) :
  files_to_json fs file_list = Ok [] ->
  files_to_df fs file_list columns true = Raised
  /\ files_to_df fs file_list columns false = Ok Pd.empty.
Proof.
  intros E. unfold files_to_df. rewrite E. split; reflexivity.
Qed.

Lemma not_in_remove_name (c : string) (l : list string) : ~ In c (remove_name c l).
Proof.
  unfold remove_name. intros Hin. apply filter_In in Hin as [_ Hc].
  rewrite String.eqb_refl in Hc. discriminate.
Qed.

Lemma in_remove_name_other (c k : string) (l : list string) :
  c <> k -> (In c (remove_name k l) <-> In c l).
Proof.
  intros N. unfold remove_name. rewrite filter_In. split; [tauto|].
  intros Hin. split; [assumption|]. apply negb_true_iff, String.eqb_neq. exact N.
Qed.

(** What the three steps parse, index, sort do to a table. *)
Lemma index_by_datetime_spec (c : string) (df out : DataFrame) :
  index_by_datetime c df = Ok out ->
  exists ts,
    to_datetime (map (get c) (rows df)) = Ok ts
    /\ List.length ts = List.length (rows df)
    /\ List.length (rows out) = List.length (rows df)
    /\ Permutation (map (fun r => (label r, other_cells [c] r)) (rows out))
                   (combine (map of_stamp ts) (map (other_cells [c]) (rows df)))
    /\ index_name out = Some c
    /\ columns out = remove_name c (columns df)
    /\ non_decreasing (index out).
Proof.
  unfold index_by_datetime. intros E.
  apply rbind_ok in E as (d1 & E1 & E). apply rbind_ok in E as (d2 & E2 & E).
  apply convert_datetime_spec in E1 as (ts & Et & Lt & _ & R1 & C1 & _).
  apply set_index_spec in E2 as (_ & L2 & N2 & C2 & O2 & _).
  apply sort_index_spec in E as (Hs & Hp & C3 & N3).
  assert (Lm : List.length (map of_stamp ts) = List.length (rows df))
    by now rewrite length_map.
  assert (Hm : mem c [c] = true) by (unfold mem; simpl; now rewrite String.eqb_refl).
  exists ts. split; [exact Et|]. split; [exact Lt|]. split; [|split; [|split; [|split]]].
  - rewrite (Permutation_length Hp).
    rewrite <- (length_map label), L2, length_map, R1. now apply assign_length.
  - rewrite (Permutation_map _ Hp). rewrite map_pair_combine.
    rewrite L2, (O2 [c] Hm), R1.
    rewrite assign_column by assumption.
    rewrite assign_other_cells by assumption. reflexivity.
  - now rewrite N3.
  - now rewrite C3, C2, C1.
  - exact Hs.
Qed.

(** X3.  With the datetime step, [files_to_df] is the plain table followed
    by that step: one row for each loaded record, labelled with the parsed
    [datetime] of that record and otherwise with its cells unchanged;
    [datetime] is the index and no longer a column, and the other columns
    are those of the plain table. *)
Theorem files_to_df_one_row_per_record (fs : directory) (file_list : list string)
    (columns : string -> string) (df : DataFrame) :
  files_to_df fs file_list columns true = Ok df ->
  exists records plain ts,
    files_to_json fs file_list = Ok records
    /\ files_to_df fs file_list columns false = Ok plain
    /\ to_datetime (map (get "datetime") (rows plain)) = Ok ts
    /\ List.length (rows df) = List.length records
    /\ Permutation (map (fun r => (label r, other_cells ["datetime"] r)) (rows df))
                   (combine (map of_stamp ts)
                            (map (other_cells ["datetime"]) (rows plain)))
    /\ index_name df = Some "datetime"
    /\ ~ In "datetime" (Pd.columns df)
    /\ (forall c, c <> "datetime" -> (In c (Pd.columns df) <-> In c (Pd.columns plain))).
Proof.
  intros E.
  assert (exists plain, files_to_df fs file_list columns false = Ok plain
                        /\ index_by_datetime "datetime" plain = Ok df) as (plain & Ep & Ei).
  { unfold files_to_df in *.
    destruct (files_to_json fs file_list) as [data| |]; try discriminate; simpl in *.
    destruct (json_normalize_list "." data) as [d1| |]; try discriminate; simpl in *.
    destruct (rename columns d1) as [d2| |]; try discriminate; simpl in *.
    exists d2. auto. }
  destruct (files_to_df_rows _ _ _ _ Ep) as (records & flat & Er & Ef & Erows).
  apply index_by_datetime_spec in Ei as (ts & Et & Lt & Ll & Hp & Hn & Hc & _).
  exists records, plain, ts.
  split; [exact Er|]. split; [exact Ep|]. split; [exact Et|]. split.
  { rewrite Ll, <- (length_map fields), Erows, length_map.
    eapply rmap_ok_length; eassumption. }
  split; [exact Hp|]. split; [exact Hn|]. split.
  - rewrite Hc. apply not_in_remove_name.
  - intros c N. rewrite Hc. now apply in_remove_name_other.
Qed.

End LoadingMore.

Lemma files_to_df_without_records_witness :
  let fs := [("steps-2023-01-01.json", JsonFile (JArr []))] in
  files_to_df (H := Sample.library) fs ["steps-2023-01-01.json"] (fun c => c) true = Raised
  /\ files_to_df (H := Sample.library) fs ["steps-2023-01-01.json"] (fun c => c) false
     = Ok Pd.empty.
Proof.
  intros fs.
  apply (@files_to_df_without_records Sample.library fs ["steps-2023-01-01.json"]).
  reflexivity.
Defined.

Lemma files_to_df_one_row_per_record_witness :
  exists df records,
    steps_table (H := Sample.library) Files.steps = Ok df
    /\ files_to_json Files.steps ["steps-2023-01-01.json"; "steps-2023-01-02.json"] = Ok records
    /\ List.length (rows df) = List.length records
    /\ List.length records = 4.
Proof.
  destruct (steps_table (H := Sample.library) Files.steps) as [df| |] eqn:E;
    try (vm_compute in E; discriminate E).
  destruct (@files_to_df_one_row_per_record Sample.library _ _ _ _ E)
    as (records & plain & ts & Er & _ & _ & Ll & _).
  exists df, records. split; [reflexivity|]. split; [exact Er|]. split; [exact Ll|].
  vm_compute in Er. inversion Er. reflexivity.
Defined.

(* ===================================================================== *)
(** * Further properties: heart-rate detail                               *)
(* ===================================================================== *)

Lemma rmap_not_ok {A B} (f : A -> result B) (l : list A) (a : A) :
  In a l -> (forall b, f a <> Ok b) -> forall out, rmap f l <> Ok out.
Proof.
  intros Hin Hf out E. apply rmap_ok_Forall2 in E.
  destruct (Forall2_In_l _ _ _ a E Hin) as (b & _ & Eb). exact (Hf b Eb).
Qed.

Lemma insert_name_perm (x : string) (l : list string) :
  Permutation (Str.insert_name x l) (x :: l).
Proof.
  induction l as [|y l IH]; simpl; [reflexivity|].
  destruct (String.leb x y); [reflexivity|].
  rewrite IH. apply perm_swap.
Qed.

(** [sorted] reorders: it neither drops nor repeats a name. *)
Lemma sorted_perm (l : list string) : Permutation (Str.sorted l) l.
Proof.
  induction l as [|x l IH]; simpl; [reflexivity|].
  rewrite insert_name_perm. now apply perm_skip.
Qed.

Section HeartRateDetail.

Context `{Library}.

(** X4.  [files_to_dfslist] with the datetime step gives one table per
    file, in the order of the file list; each is indexed by [datetime] in
    non-decreasing order and has as many rows as its file has records. *)
Theorem files_to_dfslist_one_table_per_file (fs : directory) (file_list : list string)
    (columns : string -> string) (dfs : list DataFrame) :
  files_to_dfslist fs file_list columns true = Ok dfs ->
  List.length dfs = List.length file_list
  /\ Forall2 (fun p df =>
                exists x, file_to_json fs p = Ok x
                          /\ (forall l, x = JArr l -> List.length (rows df) = List.length l)
                          /\ index_name df = Some "datetime"
                          /\ non_decreasing (index df))
             file_list dfs.
Proof.
  unfold files_to_dfslist. intros E. split; [eapply rmap_ok_length; eassumption|].
  apply rmap_ok_Forall2 in E. eapply Forall2_impl; [|exact E].
  intros p df Ep. cbv beta in Ep.
  apply rbind_ok in Ep as (x & Ex & Ep). apply rbind_ok in Ep as (d1 & E1 & Ep).
  apply rbind_ok in Ep as (d2 & E2 & Ep).
  apply rename_spec in E2 as (_ & L2 & _).
  apply index_by_datetime_spec in Ep as (ts & _ & _ & Ll & _ & Hn & _ & Hs).
  exists x. split; [exact Ex|]. split; [|split; assumption].
  intros l ->. rewrite Ll, L2. eapply json_normalize_length; eassumption.
Qed.

(** X5.  One file that holds an empty list is enough to make
    [files_to_dfslist] raise under the datetime step: the table of that
    file has no [datetime] column.  ([files_to_df], which joins the lists
    first, is not stopped by such a file.) *)
Theorem files_to_dfslist_empty_file_raises (fs : directory) (file_list : list string)
    (columns : string -> string) (p : string) :
  In p file_list ->
  file_to_json fs p = Ok (JArr []) ->
  forall dfs, files_to_dfslist fs file_list columns true <> Ok dfs.
Proof.
  intros Hin Ep. unfold files_to_dfslist. apply (rmap_not_ok _ _ p Hin).
  intros b. cbv beta. rewrite Ep. discriminate.
Qed.

(** X6.  The detail table has the rows of the per-file tables, all of
    them and each once; so the heart-rate routine writes nothing when a
    matching file holds an empty list. *)
Theorem heart_rate_table_rows (fs : directory) :
  (forall df, heart_rate_table fs = Ok df ->
     exists dfs,
       files_to_dfslist fs (Str.sorted (glob fs "heart_rate-*.json"))
         (mapper heart_rate_columns) true = Ok dfs
       /\ Permutation (rows df) (List.concat (map rows dfs)))
  /\ (forall p, In p (glob fs "heart_rate-*.json") ->
        file_to_json fs p = Ok (JArr []) ->
        forall fmt file df, ~ writes (prep_heart_rate_details fs fmt) file df).
Proof.
  split.
  - intros df E. unfold heart_rate_table in E.
    apply rbind_ok in E as (dfs & Ed & E). apply rbind_ok in E as (d & Ec & E).
    exists dfs. split; [exact Ed|].
    apply sort_index_spec in E as (_ & Hp & _).
    unfold concat_index in Ec. destruct dfs; [discriminate|].
    inversion Ec; subst d. exact Hp.
  - intros p Hin Ep fmt file df W.
    assert (Ht : forall d, heart_rate_table fs <> Ok d).
    { intros d Ed. unfold heart_rate_table in Ed. apply rbind_ok in Ed as (dfs & Ed & _).
      revert Ed. apply (files_to_dfslist_empty_file_raises _ _ _ p); [|exact Ep].
      apply (Permutation_in _ (Permutation_sym (sorted_perm _))). exact Hin. }
    unfold writes, prep_heart_rate_details in W.
    destruct (negb (mem fmt ["hdf"; "csv"])); destruct W as [W | W];
      split_trace W; try discriminate;
      match goal with Hx : outcome (lift (heart_rate_table fs)) = Ok ?d |- _ =>
        rewrite outcome_lift in Hx; exact (Ht d Hx) end.
Qed.

(** X7.  [prep_heart_rate_details] warns only about a format that is not
    accepted, writes the HDF file only for 'hdf' and the text file only for
    another format, so never both, and what it writes is the detail
    table. *)
Theorem detail_file_follows_format (fs : directory) (fmt : string) :
  (forall line, In (Print line) (trace (prep_heart_rate_details fs fmt)) ->
     mem fmt ["hdf"; "csv"] = false)
  /\ (forall file df, In (ToHdf file df) (trace (prep_heart_rate_details fs fmt)) ->
        fmt = "hdf" /\ file = "heart_rate.h5" /\ heart_rate_table fs = Ok df)
  /\ (forall df, In (ToCsv "heart_rate.csv" df) (trace (prep_heart_rate_details fs fmt)) ->
        fmt <> "hdf" /\ heart_rate_table fs = Ok df).
Proof.
  unfold prep_heart_rate_details. split; [|split].
  - intros line Hin. destruct (mem fmt ["hdf"; "csv"]); [|reflexivity]. simpl negb in Hin.
    cbv iota in Hin. destruct (fmt =? "hdf"); split_trace Hin; discriminate.
  - intros file df Hin.
    destruct (negb (mem fmt ["hdf"; "csv"])); destruct (fmt =? "hdf") eqn:Ef;
      split_trace Hin; try discriminate;
      repeat match goal with Hx : outcome (lift _) = _ |- _ =>
               rewrite outcome_lift in Hx end;
      inversion Hin; subst; apply String.eqb_eq in Ef; auto.
  - intros df Hin.
    destruct (negb (mem fmt ["hdf"; "csv"])); destruct (fmt =? "hdf") eqn:Ef;
      split_trace Hin; try discriminate;
      repeat match goal with Hx : outcome (lift _) = _ |- _ =>
               rewrite outcome_lift in Hx end;
      inversion Hin; subst; apply String.eqb_neq in Ef; auto.
Qed.

(** X8.  The resampled files come after the detail file, whatever the
    format asked for: when the hourly resampling raises, the run ends there
    with the detail file written (the HDF file for 'hdf', the text file
    for any other format, after the warning when the format is not an
    accepted one) and no other; when only the daily one raises, the hourly
    file is written too. *)
Theorem resampling_failure_keeps_earlier_files
    (fs : directory) (fmt : string) (df : DataFrame) :
  heart_rate_table fs = Ok df ->
  let warning :=
    if mem fmt ["hdf"; "csv"] then []
    else [Print "format should be 'hdf' (default) or 'csv'!"] in
  let detail :=
    if fmt =? "hdf"
    then [ToHdf "heart_rate.h5" df; Log "File heart_rate.h5 ready"]
    else [ToCsv "heart_rate.csv" df; Log "File heart_rate.csv ready"] in
  (resample_mean "H" df = Raised ->
   prep_heart_rate_details fs fmt
   = (warning ++ [Log "Processing heart_rate-YYYY-MM-DD.json files ..."] ++ detail,
      Raised))
  /\ (forall hourly, resample_mean "H" df = Ok hourly -> resample_mean "D" df = Raised ->
      prep_heart_rate_details fs fmt
      = (warning ++ [Log "Processing heart_rate-YYYY-MM-DD.json files ..."] ++ detail
           ++ [ToCsv "heart_rate_hourly.csv" hourly;
               Log "File heart_rate_hourly.csv ready"], Raised)).
Proof.
  intros E warning detail. subst warning detail. unfold prep_heart_rate_details.
  destruct (mem fmt ["hdf"; "csv"]); destruct (fmt =? "hdf");
    simpl negb; cbv iota; (split; [intros Eh | intros hourly Eh Ed]);
    unfold bind, print, log, emit, lift, ret; cbn [fst snd app]; rewrite E;
    cbn [fst snd app]; rewrite Eh; cbn [fst snd app]; rewrite ?Ed; reflexivity.
Qed.

End HeartRateDetail.

Lemma files_to_dfslist_one_table_per_file_witness :
  exists dfs,
    files_to_dfslist (H := Sample.library) Files.heart_rate
      ["heart_rate-2023-01-01.json"; "heart_rate-2023-01-02.json"]
      (mapper heart_rate_columns) true = Ok dfs
    /\ List.length dfs = 2.
Proof.
  destruct (files_to_dfslist (H := Sample.library) Files.heart_rate
              ["heart_rate-2023-01-01.json"; "heart_rate-2023-01-02.json"]
              (mapper heart_rate_columns) true) as [dfs| |] eqn:E;
    try (vm_compute in E; discriminate E).
  exists dfs. split; [reflexivity|].
  exact (proj1 (@files_to_dfslist_one_table_per_file Sample.library _ _ _ _ E)).
Defined.

Lemma files_to_dfslist_empty_file_raises_witness :
  files_to_dfslist (H := Sample.library)
    [("heart_rate-2023-01-01.json", JsonFile (JArr []))]
    ["heart_rate-2023-01-01.json"] (mapper heart_rate_columns) true = Raised
  /\ ~ (exists dfs,
          files_to_dfslist (H := Sample.library)
            [("heart_rate-2023-01-01.json", JsonFile (JArr []))]
            ["heart_rate-2023-01-01.json"] (mapper heart_rate_columns) true = Ok dfs).
Proof.
  split; [reflexivity|]. intros (dfs & E). revert E.
  apply (@files_to_dfslist_empty_file_raises Sample.library _ _ _ "heart_rate-2023-01-01.json").
  - left; reflexivity.
  - reflexivity.
Defined.

Lemma resampling_failure_keeps_earlier_files_witness :
  exists df,
    heart_rate_table (H := no_resampling) Files.heart_rate = Ok df
    /\ prep_heart_rate_details (H := no_resampling) Files.heart_rate "xml"
       = ([Print "format should be 'hdf' (default) or 'csv'!";
           Log "Processing heart_rate-YYYY-MM-DD.json files ...";
           ToCsv "heart_rate.csv" df;
           Log "File heart_rate.csv ready"], Raised)
    /\ prep_heart_rate_details (H := no_resampling) Files.heart_rate "hdf"
       = ([Log "Processing heart_rate-YYYY-MM-DD.json files ...";
           ToHdf "heart_rate.h5" df;
           Log "File heart_rate.h5 ready"], Raised).
Proof.
  destruct (heart_rate_table (H := no_resampling) Files.heart_rate) as [df| |] eqn:E;
    try (vm_compute in E; discriminate E).
  exists df. split; [reflexivity|]. split.
  - apply (proj1 (@resampling_failure_keeps_earlier_files no_resampling _ "xml" df E)).
    reflexivity.
  - apply (proj1 (@resampling_failure_keeps_earlier_files no_resampling _ "hdf" df E)).
    reflexivity.
Defined.

(* ===================================================================== *)
(** * Further properties: sleep                                           *)
(* ===================================================================== *)

Section SleepMore.

Context `{Library}.

Lemma prep_sleep_data_unfold (fs : directory) :
  prep_sleep_data fs
  = (log "Processing sleep_YYYY-MM-DD.json files ..." ;;
     json_data <- lift (files_to_json fs (Str.sorted (glob fs "sleep-*.json"))) ;;
     df <- lift (sleep_details json_data) ;;
     emit (ToCsv "sleep_details.csv" df) ;;
     log "File sleep_details.csv ready" ;;
     df <- lift (sleep_overview json_data) ;;
     emit (ToCsv "sleep_overviews.csv" df) ;;
     log "File sleep_overviews.csv ready" ;;
     df <- lift (df <- match dict_get "sleep_score.csv" fs with
                       | Some (CsvFile header body) => read_csv header body
                       | _ => Raised
                       end ;;
                 df <- rename (mapper [("timestamp", "datetime")]) df ;;
                 index_by_datetime "datetime" df)%res ;;
     emit (ToCsv "sleep_scores.csv" df) ;;
     log "File sleep_scores.csv ready")%io.
Proof. reflexivity. Qed.

(** X9.  The score table is the last step of [prep_sleep_data]: without a
    readable [sleep_score.csv] the run raises, but only after the detail
    and overview tables, when they can be built, have been written. *)
Theorem missing_sleep_score_keeps_earlier_files (fs : directory) :
  (forall header body, dict_get "sleep_score.csv" fs <> Some (CsvFile header body)) ->
  outcome (prep_sleep_data fs) <> Ok tt
  /\ (forall df, ~ In (ToCsv "sleep_scores.csv" df) (trace (prep_sleep_data fs)))
  /\ (forall json_data details overview,
        files_to_json fs (Str.sorted (glob fs "sleep-*.json")) = Ok json_data ->
        sleep_details json_data = Ok details ->
        sleep_overview json_data = Ok overview ->
        prep_sleep_data fs
        = ([Log "Processing sleep_YYYY-MM-DD.json files ...";
            ToCsv "sleep_details.csv" details;
            Log "File sleep_details.csv ready";
            ToCsv "sleep_overviews.csv" overview;
            Log "File sleep_overviews.csv ready"], Raised)).
Proof.
  intros Hno.
  assert (Hs : match dict_get "sleep_score.csv" fs with
               | Some (CsvFile header body) => read_csv header body
               | _ => Raised
               end = Raised).
  { destruct (dict_get "sleep_score.csv" fs) as [[j|h b|]|] eqn:E; try reflexivity.
    exfalso. exact (Hno h b eq_refl). }
  rewrite prep_sleep_data_unfold. rewrite Hs. split; [|split].
  - destruct (files_to_json fs (Str.sorted (glob fs "sleep-*.json"))) as [j| |];
      simpl; try discriminate.
    destruct (sleep_details j) as [d1| |]; simpl; try discriminate.
    destruct (sleep_overview j) as [d2| |]; simpl; discriminate.
  - intros df Hin. split_trace Hin; discriminate.
  - intros json_data details overview Ej Ed Eo. rewrite Ej. simpl.
    rewrite Ed. simpl. rewrite Eo. reflexivity.
Qed.

(** X10.  A sleep record without a [levels] object stops [prep_sleep_data]
    before anything is written. *)
Theorem sleep_record_without_levels_stops_run (fs : directory) (json_data : list json)
    (d : dict json) :
  files_to_json fs (Str.sorted (glob fs "sleep-*.json")) = Ok json_data ->
  In (JObj d) json_data ->
  dict_get "levels" d = None ->
  trace (prep_sleep_data fs) = [Log "Processing sleep_YYYY-MM-DD.json files ..."]
  /\ outcome (prep_sleep_data fs) <> Ok tt.
Proof.
  intros Ej Hin Hl.
  assert (Hd : forall df, sleep_details json_data <> Ok df).
  { intros df E. unfold sleep_details in E. apply rbind_ok in E as (d1 & E1 & _).
    unfold json_normalize_records in E1.
    destruct json_data as [|item rest] eqn:Ed; [destruct Hin|].
    apply rbind_ok in E1 as (groups & Eg & _). rewrite <- Ed in *.
    revert Eg. apply (rmap_not_ok _ _ (JObj d) Hin).
    intros b. unfold record_rows. simpl. rewrite Hl. discriminate. }
  rewrite prep_sleep_data_unfold. rewrite Ej.
  unfold trace, outcome. cbn [bind lift log emit fst snd app].
  destruct (sleep_details json_data) as [df| |] eqn:E.
  - exfalso. exact (Hd df eq_refl).
  - split; [reflexivity | discriminate].
  - split; [reflexivity | discriminate].
Qed.

End SleepMore.

Lemma missing_sleep_score_keeps_earlier_files_witness :
  let fs := [("sleep-2023-01-01.json",
              JsonFile (JArr [Files.night 1 "2023-01-01" "2022-12-31T23:30:00"
                                "2023-01-01T06:30:00"]))] in
  exists details overview,
    prep_sleep_data (H := Sample.library) fs
    = ([Log "Processing sleep_YYYY-MM-DD.json files ...";
        ToCsv "sleep_details.csv" details;
        Log "File sleep_details.csv ready";
        ToCsv "sleep_overviews.csv" overview;
        Log "File sleep_overviews.csv ready"], Raised).
Proof.
  intros fs.
  destruct (files_to_json fs (Str.sorted (glob fs "sleep-*.json"))) as [j| |] eqn:Ej;
    try (vm_compute in Ej; discriminate Ej).
  destruct (sleep_details (H := Sample.library) j) as [details| |] eqn:Ed;
    try (vm_compute in Ej; inversion Ej; subst j; vm_compute in Ed; discriminate Ed).
  destruct (sleep_overview (H := Sample.library) j) as [overview| |] eqn:Eo;
    try (vm_compute in Ej; inversion Ej; subst j; vm_compute in Eo; discriminate Eo).
  exists details, overview.
  apply (proj2 (proj2 (@missing_sleep_score_keeps_earlier_files Sample.library fs
                         (fun header body E => ltac:(discriminate E)))) j details overview);
    assumption.
Defined.

Lemma sleep_record_without_levels_stops_run_witness :
  let fs := [("sleep-2023-01-01.json", JsonFile (JArr [JObj [("logId", JInt 1)]]))] in
  trace (prep_sleep_data (H := Sample.library) fs)
  = [Log "Processing sleep_YYYY-MM-DD.json files ..."]
  /\ outcome (prep_sleep_data (H := Sample.library) fs) <> Ok tt.
Proof.
  intros fs.
  apply (@sleep_record_without_levels_stops_run Sample.library fs
           [JObj [("logId", JInt 1)]] [("logId", JInt 1)]).
  - reflexivity.
  - left; reflexivity.
  - reflexivity.
Defined.

(* ===================================================================== *)
(** * Further properties: exercise logs                                   *)
(* ===================================================================== *)

Lemma backfill_missing_level (d : dict json) :
  dict_mem "activityLevel" d = false ->
  exists d',
    backfill (JObj d) = Ok (JObj d')
    /\ dict_get "activityLevel" d' = Some activity_level
    /\ (forall k, k <> "heartRateZones" -> k <> "activityLevel" ->
          meta_cell k d' = meta_cell k d).
Proof.
  intros Ha. unfold backfill. simpl. rewrite Ha. simpl.
  rewrite dict_mem_set_other by discriminate.
  destruct (dict_mem "heartRateZones" d); simpl.
  - eexists. split; [reflexivity|]. split.
    + apply dict_get_set_same.
    + intros k N1 N2. now apply meta_cell_set_other.
  - eexists. split; [reflexivity|]. split.
    + rewrite dict_get_set_other by discriminate. apply dict_get_set_same.
    + intros k N1 N2. rewrite meta_cell_set_other by assumption.
      now apply meta_cell_set_other.
Qed.

Lemma record_rows_level_placeholder (d : dict json) :
  dict_get "activityLevel" d = Some activity_level ->
  record_rows "." ["activityLevel"] exercise_meta (JObj d)
  = Ok (map (fun name => (level_fields name, map (fun k => (k, meta_cell k d)) exercise_meta))
            level_names).
Proof.
  intros E. unfold record_rows. simpl pull_path. unfold pull_records. rewrite E.
  unfold activity_level. cbn [rbind]. rewrite pull_meta_all. reflexivity.
Qed.

Lemma level_placeholder_group (d d' : dict json) :
  dict_get "activityLevel" d' = Some activity_level ->
  meta_cell "logId" d' = meta_cell "logId" d ->
  forall group,
    record_rows "." ["activityLevel"] exercise_meta (JObj d') = Ok group ->
    List.length (map exercise_row group) = 4
    /\ Forall2 (placeholder_level_row d) level_names (map exercise_row group).
Proof.
  intros Hz Hid group E. rewrite (record_rows_level_placeholder d' Hz) in E.
  inversion E; subst group; clear E. split; [reflexivity|].
  unfold level_names. simpl map.
  repeat constructor; unfold placeholder_level_row; rewrite <- Hid; repeat split.
Qed.

(** X11.  The activity-level table of [prep_exercise_data] is made of the
    rows of the entries, entry after entry; an entry that came without
    [activityLevel] gives exactly four of them, one for each level of the
    placeholder in its order ([sedentary], [lightly], [fairly], [very]),
    each labelled with the log ID of the entry and with null [minutes]. *)
Theorem missing_levels_give_four_placeholder_rows (fs : directory) (df : DataFrame) :
  In (ToCsv "activity_exercise_1.csv" df) (trace (prep_exercise_data fs)) ->
  exists json_data groups,
    files_to_json fs (Str.sorted (glob fs "exercise-*.json")) = Ok json_data
    /\ rows df = List.concat groups
    /\ Forall2 (fun item group =>
                  forall d, item = JObj d -> dict_mem "activityLevel" d = false ->
                    List.length group = 4
                    /\ Forall2 (placeholder_level_row d) level_names group)
               json_data groups.
Proof.
  intros Hin. unfold prep_exercise_data in Hin. split_trace Hin; try discriminate.
  repeat match goal with Hx : outcome (lift _) = _ |- _ => rewrite outcome_lift in Hx end.
  inversion Hin; subst; clear Hin.
  match goal with Hx : rbind (files_to_json _ _) _ = Ok ?f |- _ =>
    rename Hx into Q; rename f into filled end.
  match goal with Hx : exercise_table filled "activityLevel" = Ok _ |- _ =>
    rename Hx into T end.
  apply rbind_ok in Q as (json_data & Ej & Eb).
  destruct (exercise_table_rows _ _ _ T) as (gs & Eg & Erows).
  exists json_data, (map (map exercise_row) gs).
  split; [exact Ej|]. split; [exact Erows|].
  apply rmap_ok_Forall2 in Eb. apply rmap_ok_Forall2 in Eg.
  clear - Eb Eg. revert gs Eg.
  induction Eb as [|item f items fs' Ef _ IH]; intros gs Eg.
  - inversion Eg; subst. constructor.
  - inversion Eg as [|? g ? gs' Er Eg']; subst. simpl. constructor.
    + intros d -> Hz.
      destruct (backfill_missing_level d Hz) as (d' & Eb' & Hz' & Hk).
      rewrite Eb' in Ef. inversion Ef; subst f.
      apply (level_placeholder_group d d'); [exact Hz' | | exact Er].
      apply Hk; discriminate.
    + apply IH; assumption.
Qed.

Lemma missing_levels_give_four_placeholder_rows_witness :
  exists df,
    In (ToCsv "activity_exercise_1.csv" df) (trace (prep_exercise_data Files.exercise))
    /\ map (fun r => (label r, get "name" r, get "minutes" r)) (rows df)
       = [(Val (JInt 2), Val (JStr "sedentary"), Val JNull);
          (Val (JInt 2), Val (JStr "lightly"), Val JNull);
          (Val (JInt 2), Val (JStr "fairly"), Val JNull);
          (Val (JInt 2), Val (JStr "very"), Val JNull);
          (Val (JInt 1), Val (JStr "sedentary"), Val JNull);
          (Val (JInt 1), Val (JStr "lightly"), Val JNull);
          (Val (JInt 1), Val (JStr "fairly"), Val JNull);
          (Val (JInt 1), Val (JStr "very"), Val JNull)]
    /\ exists json_data groups,
         files_to_json Files.exercise ["exercise-0.json"] = Ok json_data
         /\ rows df = List.concat groups.
Proof.
  let t := eval vm_compute in (trace (prep_exercise_data Files.exercise)) in
  match t with
  | [_; ToCsv _ ?out; _; _; _] =>
      assert (I : In (ToCsv "activity_exercise_1.csv" out)
                    (trace (prep_exercise_data Files.exercise)))
        by (vm_compute; right; left; reflexivity);
      exists out; split; [exact I | split; [vm_compute; reflexivity|]];
      destruct (missing_levels_give_four_placeholder_rows Files.exercise out I)
        as (json_data & groups & Ej & Er & _);
      exists json_data, groups; split; [exact Ej | exact Er]
  end.
Defined.

Lemma dict_mem_set_same {V} (k : string) (v : V) (d : dict V) :
  dict_mem k (dict_set k v d) = true.
Proof. unfold dict_mem. now rewrite dict_get_set_same. Qed.

Lemma dict_get_some_mem {V} (k : string) (v : V) (d : dict V) :
  dict_get k d = Some v -> dict_mem k d = true.
Proof. unfold dict_mem. now intros ->. Qed.

(** X12.  What the backfill of one entry guarantees when it does not
    raise: the result has both keys; the backfill of the result changes
    nothing; and for a dictionary entry no key that was there has lost or
    changed its value. *)
Theorem backfill_fills_and_keeps (item item' : json) :
  backfill item = Ok item' ->
  py_in "activityLevel" item' = Ok true
  /\ py_in "heartRateZones" item' = Ok true
  /\ backfill item' = Ok item'
  /\ (forall d d', item = JObj d -> item' = JObj d' ->
        forall k v, dict_get k d = Some v -> dict_get k d' = Some v).
Proof.
  intros E.
  assert (K : py_in "activityLevel" item' = Ok true /\ py_in "heartRateZones" item' = Ok true
              /\ (forall d d', item = JObj d -> item' = JObj d' ->
                    forall k v, dict_get k d = Some v -> dict_get k d' = Some v)).
  { unfold backfill in E. destruct item as [| | | | |s|l|d]; try discriminate.
    - simpl in E. destruct (Str.contains "activityLevel" s) eqn:Ha; simpl in E;
        [|discriminate].
      destruct (Str.contains "heartRateZones" s) eqn:Hz; simpl in E; [|discriminate].
      inversion E; subst item'. simpl. rewrite Ha, Hz.
      repeat split. intros d d' Ed. discriminate Ed.
    - simpl in E.
      destruct (existsb (fun x => match x with JStr s => s =? "activityLevel" | _ => false end) l)
        eqn:Ha; simpl in E; [|discriminate].
      destruct (existsb (fun x => match x with JStr s => s =? "heartRateZones" | _ => false end) l)
        eqn:Hz; simpl in E; [|discriminate].
      inversion E; subst item'. simpl. rewrite Ha, Hz.
      repeat split. intros d d' Ed. discriminate Ed.
    - simpl in E. destruct (dict_mem "activityLevel" d) eqn:Ha; simpl in E.
      + destruct (dict_mem "heartRateZones" d) eqn:Hz; simpl in E;
          inversion E; subst item'; simpl.
        * rewrite Ha, Hz. repeat split.
          intros d0 d' Ed Ed'. inversion Ed; inversion Ed'; subst. auto.
        * rewrite dict_mem_set_other by discriminate. rewrite Ha, dict_mem_set_same.
          repeat split. intros d0 d' Ed Ed' k v Hk. inversion Ed; inversion Ed'; subst.
          rewrite dict_get_set_other; [exact Hk|].
          intros ->. apply dict_get_some_mem in Hk. congruence.
      + rewrite dict_mem_set_other in E by discriminate.
        destruct (dict_mem "heartRateZones" d) eqn:Hz; simpl in E;
          inversion E; subst item'; simpl.
        * rewrite dict_mem_set_same. rewrite dict_mem_set_other by discriminate. rewrite Hz.
          repeat split. intros d0 d' Ed Ed' k v Hk. inversion Ed; inversion Ed'; subst.
          rewrite dict_get_set_other; [exact Hk|].
          intros ->. apply dict_get_some_mem in Hk. congruence.
        * rewrite dict_mem_set_other by discriminate.
          rewrite !dict_mem_set_same.
          repeat split. intros d0 d' Ed Ed' k v Hk. inversion Ed; inversion Ed'; subst.
          rewrite !dict_get_set_other; [exact Hk | |];
            intros ->; apply dict_get_some_mem in Hk; congruence. }
  destruct K as (Ka & Kz & Kk). split; [exact Ka|]. split; [exact Kz|]. split; [|exact Kk].
  unfold backfill. rewrite Ka. simpl. rewrite Kz. reflexivity.
Qed.

Lemma backfill_fills_and_keeps_witness :
  let entry := JObj [("logId", JInt 7); ("heartRateZones", JArr [])] in
  exists entry',
    backfill entry = Ok entry'
    /\ py_in "activityLevel" entry' = Ok true
    /\ py_in "heartRateZones" entry' = Ok true
    /\ backfill entry' = Ok entry'.
Proof.
  intros entry.
  exists (JObj [("logId", JInt 7); ("heartRateZones", JArr []);
                ("activityLevel", activity_level)]).
  split; [reflexivity|].
  destruct (backfill_fills_and_keeps entry
              (JObj [("logId", JInt 7); ("heartRateZones", JArr []);
                     ("activityLevel", activity_level)]) eq_refl) as (A & B & C & _).
  split; [exact A | split; [exact B | exact C]].
Defined.

(** X13.  With no exercise entry at all, [prep_exercise_data] raises
    before anything is written: the empty table has no [log_id] column to
    index by. *)
Theorem no_exercise_entries_stops_run (fs : directory) :
  files_to_json fs (Str.sorted (glob fs "exercise-*.json")) = Ok [] ->
  prep_exercise_data fs = ([Log "Processing exercise-NNN.json files ..."], Raised).
Proof. intros E. unfold prep_exercise_data. rewrite E. reflexivity. Qed.

Lemma no_exercise_entries_stops_run_witness :
  prep_exercise_data [("steps-2023-01-01.json", JsonFile (JArr []))]
  = ([Log "Processing exercise-NNN.json files ..."], Raised).
Proof. apply no_exercise_entries_stops_run. reflexivity. Defined.

(* ===================================================================== *)
(** * Further properties: staging and file discovery                      *)
(* ===================================================================== *)

Lemma trace_bind_not_ok {A B} (m : M A) (k : A -> M B) :
  (forall a, outcome m <> Ok a) -> bind m k = (trace m, match outcome m with
                                                          | Ok _ => Raised
                                                          | Raised => Raised
                                                          | Unmodelled => Unmodelled
                                                          end).
Proof.
  destruct m as [t [a| |]]; unfold trace, outcome; simpl; intros Hn; try reflexivity.
  exfalso. exact (Hn a eq_refl).
Qed.

(** X14.  [collect_data] completes exactly when no directory of the
    export has a name ending in .json or .csv.  The .json files are copied
    before the .csv files; so when a directory name ends in .json, the run
    stops in the first loop and no .csv file is copied. *)
Theorem collect_data_completes_iff (source : list node) :
  (outcome (collect_data source) = Ok tt <->
   forall p, entry_at source p true -> ~ staged_suffix (base_name p))
  /\ ((exists p, entry_at source p true /\ Str.ends_with ".json" (base_name p) = true) ->
      forall src dst, In (Copy src dst) (trace (collect_data source)) ->
                      Str.ends_with ".json" dst = true).
Proof.
  unfold collect_data.
  destruct (for_each_copy2 (rglob "*.json" source)) as (J1 & J2 & J3 & _).
  destruct (for_each_copy2 (rglob "*.csv" source)) as (C1 & C2 & C3 & _).
  split; [split|].
  - intros Hok p He Hs. apply outcome_bind_ok in Hok as ([] & Hj & Hc).
    destruct Hs as [Hs | Hs].
    + assert (Hin : In (p, true) (rglob "*.json" source))
        by (apply in_rglob; split; [exact He | now rewrite json_pattern]).
      destruct (J2 Hj p true Hin) as [Hb _]. discriminate Hb.
    + assert (Hin : In (p, true) (rglob "*.csv" source))
        by (apply in_rglob; split; [exact He | now rewrite csv_pattern]).
      destruct (C2 Hc p true Hin) as [Hb _]. discriminate Hb.
  - intros Hn. apply outcome_bind_ok. exists tt. split.
    + apply J3. intros src Hin. apply in_rglob in Hin as [He Hm].
      apply (Hn src He). left. rewrite <- json_pattern. exact Hm.
    + apply C3. intros src Hin. apply in_rglob in Hin as [He Hm].
      apply (Hn src He). right. rewrite <- csv_pattern. exact Hm.
  - intros (p & He & Hs) src dst Hin.
    assert (Hj : forall a, outcome (for_each (rglob "*.json" source) copy2) <> Ok a).
    { intros [] Hok.
      assert (Hp : In (p, true) (rglob "*.json" source))
        by (apply in_rglob; split; [exact He | now rewrite json_pattern]).
      destruct (J2 Hok p true Hp) as [Hb _]. discriminate Hb. }
    rewrite (trace_bind_not_ok _ _ Hj) in Hin. unfold trace at 1 in Hin. simpl in Hin.
    apply J1 in Hin as [Hin ->]. apply in_rglob in Hin as [_ Hm].
    rewrite <- json_pattern. exact Hm.
Qed.

Lemma collect_data_completes_iff_witness :
  let source := [File "steps-1.json"; Dir "backup.json" [File "a.txt"]; File "sleep_score.csv"] in
  collect_data source = ([Copy ["steps-1.json"] "steps-1.json"], Raised)
  /\ forall src dst, In (Copy src dst) (trace (collect_data source)) ->
                     Str.ends_with ".json" dst = true.
Proof.
  intros source. split; [reflexivity|].
  apply (proj2 (collect_data_completes_iff source)).
  exists ["backup.json"]. split; [|reflexivity].
  apply (entry_here source (Dir "backup.json" [File "a.txt"])). right; left; reflexivity.
Defined.

Lemma ends_with_iff (suf name : string) :
  Str.ends_with suf name = true <-> exists mid, name = (mid ++ suf)%string.
Proof.
  induction name as [|c name IH]; simpl.
  - rewrite orb_false_r, String.eqb_eq. split.
    + intros ->. exists EmptyString. reflexivity.
    + intros (mid & E). destruct mid; simpl in E; [now subst | discriminate].
  - rewrite orb_true_iff, String.eqb_eq, IH. split.
    + intros [-> | (mid & ->)]; [exists EmptyString; reflexivity|].
      exists (String c mid). reflexivity.
    + intros (mid & E). destruct mid as [|c' mid]; simpl in E.
      * left. now subst.
      * right. inversion E; subst. exists mid. reflexivity.
Qed.

Lemma fnmatch_prefix_star_suffix (pre suf name : string) :
  star_free pre = true -> star_free suf = true ->
  (Str.fnmatch (pre ++ String "*"%char suf) name = true <->
   exists mid, name = (pre ++ mid ++ suf)%string).
Proof.
  intros Hp Hs. revert name. induction pre as [|c pre IH]; intros name.
  - change (EmptyString ++ String "*"%char suf)%string with (String "*"%char suf).
    rewrite fnmatch_star_suffix by assumption. apply ends_with_iff.
  - simpl in Hp. apply andb_true_iff in Hp as [Hc Hp]. apply negb_true_iff in Hc.
    change (String c pre ++ String "*"%char suf)%string
      with (String c (pre ++ String "*"%char suf)).
    simpl Str.fnmatch. rewrite Hc. destruct name as [|d name].
    + split; [discriminate | intros (mid & E); discriminate E].
    + rewrite andb_true_iff, (IH Hp name). split.
      * intros [Ecd (mid & ->)]. apply Ascii.eqb_eq in Ecd. subst d. exists mid. reflexivity.
      * intros (mid & E). simpl in E. inversion E; subst.
        split; [apply Ascii.eqb_refl | exists mid; reflexivity].
Qed.

(** X15.  A pattern [pre*suf] without another star selects from the raw
    directory exactly the names made of [pre], anything, and [suf], in the
    order the directory lists them; so [steps-*.json] takes the step files
    and no file of another metric. *)
Theorem glob_selects_by_pattern (fs : directory) (pre suf name : string) :
  star_free pre = true -> star_free suf = true ->
  (In name (glob fs (pre ++ String "*"%char suf)) <->
   In name (map fst fs) /\ exists mid, name = (pre ++ mid ++ suf)%string).
Proof.
  intros Hp Hs. unfold glob. rewrite !in_map_iff. split.
  - intros (e & <- & He). apply filter_In in He as [He Hm]. split.
    + exists e. auto.
    + now apply fnmatch_prefix_star_suffix.
  - intros ((e & <- & He) & Hm). exists e. split; [reflexivity|].
    apply filter_In. split; [exact He|]. now apply fnmatch_prefix_star_suffix.
Qed.

Lemma glob_selects_by_pattern_witness :
  let fs := [("steps-2023-01-01.json", Unreadable);
             ("resting_heart_rate-2023-04-17.json", Unreadable);
             ("heart_rate-2023-01-01.json", Unreadable)] in
  (In "heart_rate-2023-01-01.json" (glob fs "heart_rate-*.json") <->
   In "heart_rate-2023-01-01.json" (map fst fs)
   /\ exists mid, "heart_rate-2023-01-01.json" = ("heart_rate-" ++ mid ++ ".json")%string)
  /\ glob fs "heart_rate-*.json" = ["heart_rate-2023-01-01.json"].
Proof.
  intros fs. split; [|reflexivity].
  apply (glob_selects_by_pattern fs "heart_rate-" ".json"); reflexivity.
Defined.

(* ===================================================================== *)
(** * Further properties: the order of the directory listing              *)
(* ===================================================================== *)

Lemma string_compare_trans (a : string) :
  forall b c, String.compare a b <> Gt -> String.compare b c <> Gt -> String.compare a c <> Gt.
Proof.
  induction a as [|x a IH]; intros [|y b] [|z c]; simpl; try congruence.
  unfold Ascii.compare.
  destruct (N.compare_spec (N_of_ascii x) (N_of_ascii y)) as [Exy|Lxy|Lxy];
    destruct (N.compare_spec (N_of_ascii y) (N_of_ascii z)) as [Eyz|Lyz|Lyz];
    destruct (N.compare_spec (N_of_ascii x) (N_of_ascii z)) as [Exz|Lxz|Lxz];
    try congruence; try (exfalso; lia); intros; try congruence.
  eapply IH; eassumption.
Qed.

Lemma string_leb_trans (a b c : string) :
  String.leb a b = true -> String.leb b c = true -> String.leb a c = true.
Proof.
  unfold String.leb. intros Hab Hbc.
  assert (Hac : String.compare a c <> Gt).
  { apply (string_compare_trans a b c).
    - destruct (String.compare a b); congruence.
    - destruct (String.compare b c); congruence. }
  destruct (String.compare a c); congruence.
Qed.

Lemma string_leb_false (a b : string) : String.leb a b = false -> String.leb b a = true.
Proof. intros E. destruct (String.leb_total a b) as [E'|E']; congruence. Qed.

Lemma insert_name_comm (x y : string) (l : list string) :
  Str.insert_name x (Str.insert_name y l) = Str.insert_name y (Str.insert_name x l).
Proof.
  induction l as [|z l IH]; simpl.
  - destruct (String.leb x y) eqn:Exy, (String.leb y x) eqn:Eyx; try reflexivity.
    + now rewrite (String.leb_antisym _ _ Exy Eyx).
    + apply string_leb_false in Exy. congruence.
  - destruct (String.leb y z) eqn:Eyz, (String.leb x z) eqn:Exz; simpl.
    + destruct (String.leb x y) eqn:Exy, (String.leb y x) eqn:Eyx;
        rewrite ?Exz, ?Eyz; try reflexivity.
      * now rewrite (String.leb_antisym _ _ Exy Eyx).
      * apply string_leb_false in Exy. congruence.
    + assert (Exy : String.leb x y = false).
      { destruct (String.leb x y) eqn:E; [|reflexivity].
        rewrite (string_leb_trans _ _ _ E Eyz) in Exz. discriminate. }
      rewrite ?Exy, ?Exz, ?Eyz. reflexivity.
    + assert (Eyx : String.leb y x = false).
      { destruct (String.leb y x) eqn:E; [|reflexivity].
        rewrite (string_leb_trans _ _ _ E Exz) in Eyz. discriminate. }
      rewrite ?Eyx, ?Exz, ?Eyz. reflexivity.
    + rewrite Exz, Eyz. now rewrite IH.
Qed.

(** [sorted] does not depend on the order of its argument. *)
Lemma sorted_of_permutation (l l' : list string) :
  Permutation l l' -> Str.sorted l = Str.sorted l'.
Proof.
  induction 1 as [|x l l' _ IH|x y l|l l' l'' _ IH1 _ IH2]; simpl.
  - reflexivity.
  - now rewrite IH.
  - apply insert_name_comm.
  - now rewrite IH1.
Qed.

Lemma filter_permutation {A} (f : A -> bool) (l l' : list A) :
  Permutation l l' -> Permutation (filter f l) (filter f l').
Proof.
  induction 1 as [|x l l' _ IH|x y l|l l' l'' _ IH1 _ IH2]; simpl.
  - reflexivity.
  - destruct (f x); [now apply perm_skip | assumption].
  - destruct (f x), (f y); try reflexivity. apply perm_swap.
  - now rewrite IH1.
Qed.

Lemma dict_get_permutation {V} (k : string) (d d' : dict V) :
  Permutation d d' -> NoDup (map fst d) -> dict_get k d = dict_get k d'.
Proof.
  induction 1 as [|[k0 v0] l l' Hp IH|[k1 v1] [k2 v2] l|l l' l'' Hp1 IH1 Hp2 IH2];
    intros Hn; simpl in *.
  - reflexivity.
  - inversion Hn; subst. destruct (k0 =? k); [reflexivity | now apply IH].
  - inversion Hn as [|? ? Hnot _]; subst.
    destruct (k2 =? k) eqn:E2, (k1 =? k) eqn:E1; try reflexivity.
    apply String.eqb_eq in E1, E2. subst. exfalso. apply Hnot. left; reflexivity.
  - rewrite IH1 by assumption. apply IH2.
    eapply Permutation_NoDup; [|exact Hn]. now apply Permutation_map.
Qed.

Lemma rmap_ext {A B} (f g : A -> result B) (l : list A) :
  (forall a, f a = g a) -> rmap f l = rmap g l.
Proof.
  intros E. induction l as [|a l IH]; simpl; [reflexivity|]. now rewrite E, IH.
Qed.

Section ListingOrder.

Context `{Library}.

Variables fs fs' : directory.
Hypothesis same_globs : forall pat, Str.sorted (glob fs pat) = Str.sorted (glob fs' pat).
Hypothesis same_files : forall name, dict_get name fs = dict_get name fs'.

Lemma file_to_json_same (p : string) : file_to_json fs p = file_to_json fs' p.
Proof. unfold file_to_json. now rewrite same_files. Qed.

Lemma files_to_json_same (file_list : list string) :
  files_to_json fs file_list = files_to_json fs' file_list.
Proof.
  unfold files_to_json. generalize (@nil json) as start.
  induction file_list as [|p ps IH]; intros start; simpl; [reflexivity|].
  rewrite file_to_json_same.
  destruct (file_to_json fs' p) as [x| |]; simpl; try reflexivity.
  destruct (list_add start x) as [acc| |]; simpl; try reflexivity. apply IH.
Qed.

Lemma files_to_df_same (file_list : list string) (columns : string -> string) (b : bool) :
  files_to_df fs file_list columns b = files_to_df fs' file_list columns b.
Proof. unfold files_to_df. now rewrite files_to_json_same. Qed.

Lemma files_to_dfslist_same (file_list : list string) (columns : string -> string) (b : bool) :
  files_to_dfslist fs file_list columns b = files_to_dfslist fs' file_list columns b.
Proof.
  unfold files_to_dfslist. apply rmap_ext. intros p. now rewrite file_to_json_same.
Qed.

Lemma routines_same (fmt : string) :
  prep_heart_rate_details fs fmt = prep_heart_rate_details fs' fmt
  /\ prep_heart_rate_zoning_data fs = prep_heart_rate_zoning_data fs'
  /\ prep_heart_rate_resting_data fs = prep_heart_rate_resting_data fs'
  /\ prep_sleep_data fs = prep_sleep_data fs'
  /\ prep_steps_data fs = prep_steps_data fs'
  /\ prep_distance_data fs = prep_distance_data fs'
  /\ prep_activity_level_data fs = prep_activity_level_data fs'
  /\ prep_exercise_data fs = prep_exercise_data fs'.
Proof.
  repeat split.
  - unfold prep_heart_rate_details, heart_rate_table.
    now rewrite same_globs, files_to_dfslist_same.
  - unfold prep_heart_rate_zoning_data. now rewrite same_globs, files_to_df_same.
  - unfold prep_heart_rate_resting_data, resting_with_date.
    now rewrite same_globs, files_to_df_same.
  - unfold prep_sleep_data. now rewrite same_globs, files_to_json_same, same_files.
  - unfold prep_steps_data, steps_table. now rewrite same_globs, files_to_df_same.
  - unfold prep_distance_data, distance_table. now rewrite same_globs, files_to_df_same.
  - unfold prep_activity_level_data, activity_levels_joined.
    rewrite (rmap_ext (level_table fs) (level_table fs')); [reflexivity|].
    intros level. unfold level_table. now rewrite same_globs, files_to_df_same.
  - unfold prep_exercise_data. now rewrite same_globs, files_to_json_same.
Qed.

End ListingOrder.

(** X16.  The transforms do not depend on the order in which the raw
    directory lists its files: each file list is sorted by name, so two
    listings of the same files give the same run, event for event. *)
Theorem routines_ignore_listing_order `{Library} (fs fs' : directory) (fmt : string) :
  NoDup (map fst fs) ->
  Permutation fs fs' ->
  prep_heart_rate_details fs fmt = prep_heart_rate_details fs' fmt
  /\ prep_heart_rate_zoning_data fs = prep_heart_rate_zoning_data fs'
  /\ prep_heart_rate_resting_data fs = prep_heart_rate_resting_data fs'
  /\ prep_sleep_data fs = prep_sleep_data fs'
  /\ prep_steps_data fs = prep_steps_data fs'
  /\ prep_distance_data fs = prep_distance_data fs'
  /\ prep_activity_level_data fs = prep_activity_level_data fs'
  /\ prep_exercise_data fs = prep_exercise_data fs'.
Proof.
  intros Hn Hp. apply routines_same.
  - intros pat. apply sorted_of_permutation. unfold glob.
    apply Permutation_map. now apply filter_permutation.
  - intros name. now apply dict_get_permutation.
Qed.

Lemma routines_ignore_listing_order_witness :
  prep_steps_data (H := Sample.library) Files.steps
  = prep_steps_data (H := Sample.library) (rev Files.steps).
Proof.
  refine (proj1 (proj2 (proj2 (proj2 (proj2
    (@routines_ignore_listing_order Sample.library Files.steps (rev Files.steps) "hdf" _ _)))))).
  - repeat constructor; simpl; intuition discriminate.
  - apply Permutation_rev.
Defined.

(* ===================================================================== *)
(** * Further properties: activity levels without a sedentary value       *)
(* ===================================================================== *)

Lemma astype_int_of_missing (f : string -> option Z) (c : cell) :
  notna c = false -> astype_int f c = Raised.
Proof.
  destruct c as [|j| |]; simpl; try reflexivity; try discriminate.
  destruct j; simpl; try reflexivity; discriminate.
Qed.

Section ActivityLevelsMore.

Context `{Library}.

(** X17.  The cast [astype(int)] is over the whole sedentary column: one
    row of the join without a sedentary value (a day that only another
    level's files have, or a null) makes [prep_activity_level_data] raise,
    and nothing is written. *)
Theorem missing_sedentary_value_stops_run (fs : directory) (df : DataFrame) (r : Row) :
  activity_levels_joined fs = Ok df ->
  In r (rows df) ->
  notna (get "sedentary" r) = false ->
  trace (prep_activity_level_data fs)
  = [Log "Processing *activity-level*_minutes-YYYY-MM-DD.json files ..."]
  /\ outcome (prep_activity_level_data fs) <> Ok tt.
Proof.
  intros Ej Hr Hna.
  assert (Hd : forall out, drop_full_sedentary df <> Ok out).
  { intros out E. unfold drop_full_sedentary in E.
    apply rbind_ok in E as (col & Ec & E). apply rbind_ok in E as (ints & Ei & _).
    unfold column in Ec. destruct (has_column "sedentary" df); [|discriminate].
    inversion Ec; subst col. revert Ei.
    apply (rmap_not_ok _ _ (get "sedentary" r)); [now apply in_map|].
    intros b. rewrite astype_int_of_missing by assumption. discriminate. }
  unfold prep_activity_level_data. rewrite Ej.
  unfold trace, outcome. cbn [bind lift log emit fst snd app].
  destruct (drop_full_sedentary df) as [out| |] eqn:E.
  - exfalso. exact (Hd out eq_refl).
  - split; [reflexivity | discriminate].
  - split; [reflexivity | discriminate].
Qed.

End ActivityLevelsMore.

Lemma missing_sedentary_value_stops_run_witness :
  let fs := [("sedentary_minutes-2023-01-01.json",
              JsonFile (JArr [Files.minutes "2023-01-01" "1000"]));
             ("lightly_active_minutes-2023-01-01.json",
              JsonFile (JArr [Files.minutes "2023-01-01" "10"; Files.minutes "2023-01-02" "20"]));
             ("moderately_active_minutes-2023-01-01.json",
              JsonFile (JArr [Files.minutes "2023-01-01" "0"]));
             ("very_active_minutes-2023-01-01.json",
              JsonFile (JArr [Files.minutes "2023-01-01" "0"]))] in
  trace (prep_activity_level_data (H := Sample.library) fs)
  = [Log "Processing *activity-level*_minutes-YYYY-MM-DD.json files ..."]
  /\ outcome (prep_activity_level_data (H := Sample.library) fs) <> Ok tt.
Proof.
  intros fs.
  let j := eval vm_compute in (activity_levels_joined (H := Sample.library) fs) in
  match j with
  | Ok ?df =>
      match df with
      | {| rows := [_; ?r] |} =>
          apply (@missing_sedentary_value_stops_run Sample.library fs df r);
          [ vm_compute; reflexivity | right; left; reflexivity | reflexivity ]
      end
  end.
Defined.

(* ===================================================================== *)
(** * Further properties: the order of the file lists                     *)
(* ===================================================================== *)

Lemma in_insert_name (x y : string) (l : list string) :
  In y (Str.insert_name x l) <-> y = x \/ In y l.
Proof.
  split; intros Hin.
  - apply (Permutation_in _ (insert_name_perm x l)) in Hin. destruct Hin; auto.
  - apply (Permutation_in _ (Permutation_sym (insert_name_perm x l))).
    destruct Hin; [left; auto | right; auto].
Qed.

Lemma insert_name_sorted (x : string) (l : list string) :
  StronglySorted (fun a b => String.leb a b = true) l ->
  StronglySorted (fun a b => String.leb a b = true) (Str.insert_name x l).
Proof.
  induction 1 as [|y l Hs IH Hy]; simpl.
  - constructor; constructor.
  - destruct (String.leb x y) eqn:E.
    + constructor; [constructor; assumption|].
      constructor; [exact E|].
      eapply Forall_impl; [|exact Hy]. intros z Hz.
      eapply string_leb_trans; eassumption.
    + constructor; [exact IH|].
      apply Forall_forall. intros z Hz. apply in_insert_name in Hz as [-> | Hz].
      * now apply string_leb_false.
      * rewrite Forall_forall in Hy. now apply Hy.
Qed.

(** X18.  Every transform takes its files in ascending order of their
    names: the sorted glob holds exactly the matching names, each as often
    as the directory lists it, with every name at most every later one. *)
Theorem file_list_ascending (fs : directory) (pat : string) :
  StronglySorted (fun a b => String.leb a b = true) (Str.sorted (glob fs pat))
  /\ Permutation (Str.sorted (glob fs pat)) (glob fs pat)
  /\ (forall name, In name (Str.sorted (glob fs pat)) <->
                   In name (map fst fs) /\ Str.fnmatch pat name = true).
Proof.
  split; [|split].
  - induction (glob fs pat) as [|x l IH]; simpl; [constructor|].
    now apply insert_name_sorted.
  - apply sorted_perm.
  - intros name. split.
    + intros Hin. apply (Permutation_in _ (sorted_perm _)) in Hin.
      unfold glob in Hin. apply in_map_iff in Hin as (e & <- & He).
      apply filter_In in He as [He Hm]. split; [now apply in_map | exact Hm].
    + intros (Hin & Hm). apply (Permutation_in _ (Permutation_sym (sorted_perm _))).
      unfold glob. apply in_map_iff in Hin as (e & <- & He).
      apply in_map. apply filter_In. auto.
Qed.

(* ===================================================================== *)
(** * Further properties: the sleep stage table                           *)
(* ===================================================================== *)

Lemma record_rows_length (sep : string) (path meta : list string) (obj : json)
    (g : list (dict cell * dict cell)) :
  record_rows sep path meta obj = Ok g ->
  exists recs, pull_path path obj = Ok recs /\ List.length g = List.length recs.
Proof.
  unfold record_rows. intros E.
  apply rbind_ok in E as (recs & Er & E). apply rbind_ok in E as (metas & _ & E).
  apply rbind_ok in E as (flat & Ef & E). inversion E; subst g.
  exists recs. split; [exact Er|]. rewrite length_map. eapply rmap_ok_length; eassumption.
Qed.

Lemma concat_length_Forall2 {A B} (l : list (list A)) (l' : list (list B)) :
  Forall2 (fun g g' => List.length g = List.length g') l l' ->
  List.length (List.concat l) = List.length (List.concat l').
Proof.
  induction 1 as [|g g' l l' E _ IH]; simpl; [reflexivity|].
  now rewrite !length_app, E, IH.
Qed.

Lemma stage_timeline (d levels : dict json) (timeline : list json) :
  dict_get "levels" d = Some (JObj levels) ->
  dict_get "data" levels = Some (JArr timeline) ->
  pull_path ["levels"; "data"] (JObj d) = Ok timeline.
Proof.
  intros El Ed. simpl. rewrite El. simpl. rewrite Ed. simpl. now rewrite app_nil_r.
Qed.

Section SleepDetails.

Context `{Library}.

(** X19.  The table written to [sleep_details.csv] has one row for every
    element of the [levels.data] list of every sleep record (for a record
    with a [levels] object holding a [data] list, that list), is indexed by
    [datetime] and is in non-decreasing order of it. *)
Theorem sleep_details_one_row_per_stage (fs : directory) (df : DataFrame) :
  In (ToCsv "sleep_details.csv" df) (trace (prep_sleep_data fs)) ->
  exists json_data timelines,
    files_to_json fs (Str.sorted (glob fs "sleep-*.json")) = Ok json_data
    /\ Forall2 (fun item timeline =>
                  pull_path ["levels"; "data"] item = Ok timeline
                  /\ (forall d levels l, item = JObj d ->
                        dict_get "levels" d = Some (JObj levels) ->
                        dict_get "data" levels = Some (JArr l) -> timeline = l))
               json_data timelines
    /\ List.length (rows df) = List.length (List.concat timelines)
    /\ index_name df = Some "datetime"
    /\ non_decreasing (index df).
Proof.
  intros Hin. rewrite prep_sleep_data_unfold in Hin. split_trace Hin; try discriminate.
  repeat match goal with Hx : outcome (lift _) = _ |- _ => rewrite outcome_lift in Hx end.
  inversion Hin; subst; clear Hin.
  match goal with Hx : sleep_details ?j = Ok df |- _ =>
    rename Hx into Ed; rename j into json_data end.
  match goal with Hx : files_to_json _ _ = Ok json_data |- _ => rename Hx into Ej end.
  exists json_data.
  unfold sleep_details in Ed.
  apply rbind_ok in Ed as (d1 & E1 & Ed). apply rbind_ok in Ed as (d2 & E2 & Ed).
  apply rename_spec in E2 as (_ & L2 & _).
  apply index_by_datetime_spec in Ed as (ts & _ & _ & Ll & _ & Hn & _ & Hs).
  unfold json_normalize_records in E1. destruct json_data as [|item rest] eqn:Edata.
  - inversion E1; subst d1. exists []. split; [exact Ej|]. split; [constructor|].
    split; [now rewrite Ll, L2 | split; assumption].
  - rewrite <- Edata in *. apply rbind_ok in E1 as (groups & Eg & E1).
    simpl in E1. inversion E1; subst d1; clear E1. simpl in L2.
    rewrite range_rows_length, length_map in L2.
    apply rmap_ok_Forall2 in Eg.
    assert (exists timelines,
               Forall2 (fun item tl => pull_path ["levels"; "data"] item = Ok tl)
                       json_data timelines
               /\ Forall2 (fun g tl => List.length g = List.length tl) groups timelines)
      as (timelines & Ft & Fl).
    { clear - Eg. induction Eg as [|it g its gs Er _ (tls & F1 & F2)].
      - exists []. split; constructor.
      - apply record_rows_length in Er as (recs & Ep & El).
        exists (recs :: tls). split; constructor; assumption. }
    exists timelines. split; [exact Ej|]. split.
    + eapply Forall2_impl; [|exact Ft]. intros it tl Ep. split; [exact Ep|].
      intros d levels l -> El Edl. rewrite (stage_timeline d levels l El Edl) in Ep.
      now inversion Ep.
    + split; [|split; assumption].
      rewrite Ll, L2. now apply concat_length_Forall2.
Qed.

End SleepDetails.

Lemma sleep_details_one_row_per_stage_witness :
  exists df,
    In (ToCsv "sleep_details.csv" df)
       (trace (prep_sleep_data (H := Sample.library) Files.sleep))
    /\ List.length (rows df) = 2
    /\ index_name df = Some "datetime".
Proof.
  let t := eval vm_compute in (trace (prep_sleep_data (H := Sample.library) Files.sleep)) in
  match t with
  | [_; ToCsv _ ?out; _; _; _; _; _] =>
      assert (I : In (ToCsv "sleep_details.csv" out)
                    (trace (prep_sleep_data (H := Sample.library) Files.sleep)))
        by (vm_compute; right; left; reflexivity);
      exists out; split; [exact I | split; [vm_compute; reflexivity|]];
      destruct (@sleep_details_one_row_per_stage Sample.library Files.sleep out I)
        as (json_data & timelines & _ & _ & _ & En & _);
      exact En
  end.
Defined.

(* ===================================================================== *)
(** * Further properties: the join of aligned level tables                *)
(* ===================================================================== *)

Lemma dict_get_app_l {V} (k : string) (v : V) (d more : dict V) :
  dict_get k d = Some v -> dict_get k (d ++ more) = Some v.
Proof.
  induction d as [|[k0 v0] d IH]; simpl; [discriminate|].
  destruct (k0 =? k); [auto | exact IH].
Qed.

Lemma row_extends_refl (rs : list Row) : Forall2 row_extends rs rs.
Proof.
  induction rs as [|r rs IH]; constructor; [|exact IH].
  split; [reflexivity | exists []; now rewrite app_nil_r].
Qed.

Lemma row_extends_trans (a b c : list Row) :
  Forall2 row_extends a b -> Forall2 row_extends b c -> Forall2 row_extends a c.
Proof.
  intros Fab. revert c. induction Fab as [|x y a b (L1 & m1 & E1) _ IH]; intros c Fbc.
  - inversion Fbc; subst. constructor.
  - inversion Fbc as [|? z ? c' (L2 & m2 & E2) Fbc']; subst. constructor.
    + split; [congruence|]. exists (m1 ++ m2). rewrite E2, E1. now rewrite app_assoc.
    + now apply IH.
Qed.

Lemma add_fields_length (rs : list Row) (fs : list (dict cell)) :
  List.length fs = List.length rs -> List.length (add_fields rs fs) = List.length rs.
Proof.
  revert fs. induction rs as [|r rs IH]; intros [|f fs] E; simpl in *; try discriminate.
  - reflexivity.
  - f_equal. apply IH. now inversion E.
Qed.

Lemma add_fields_extends (rs : list Row) (fs : list (dict cell)) :
  List.length fs = List.length rs -> Forall2 row_extends rs (add_fields rs fs).
Proof.
  revert fs. induction rs as [|r rs IH]; intros [|f fs] E; simpl in *; try discriminate.
  - constructor.
  - constructor; [split; [reflexivity | exists f; reflexivity]|].
    apply IH. now inversion E.
Qed.

Lemma fold_add_fields_extends {D} (g : D -> list (dict cell)) (ds : list D) :
  forall rs,
    Forall (fun d => List.length (g d) = List.length rs) ds ->
    Forall2 row_extends rs (fold_left (fun acc d => add_fields acc (g d)) ds rs).
Proof.
  induction ds as [|d ds IH]; intros rs Hl; simpl.
  - apply row_extends_refl.
  - inversion Hl as [|? ? Hd Hds]; subst.
    apply (row_extends_trans _ (add_fields rs (g d))).
    + now apply add_fields_extends.
    + apply IH. eapply Forall_impl; [|exact Hds].
      intros d0 E. cbv beta in E. rewrite E. symmetry. now apply add_fields_length.
Qed.

Lemma stamps_eqb_refl (l : list stamp) : stamps_eqb l l = true.
Proof.
  induction l as [|[t|] l IH]; simpl; [reflexivity| |]; rewrite ?Z.eqb_refl; exact IH.
Qed.

(** X20.  When the other tables have the index of the first, the
    column-wise join puts the tables side by side: row by row it keeps the
    label of the first table and extends its cells, so every cell of the
    first table reads the same in the join. *)
Theorem aligned_join_keeps_first_table (d0 : DataFrame) (rest : list DataFrame)
    (df : DataFrame) :
  concat_columns (d0 :: rest) = Ok df ->
  (forall d, In d rest -> index d = index d0) ->
  Forall2 (fun r0 r => label r = label r0
                       /\ forall c v, dict_get c (fields r0) = Some v -> get c r = v)
          (rows d0) (rows df).
Proof.
  intros E Hal. unfold concat_columns in E.
  apply rbind_ok in E as (idxs & Ei & E).
  destruct (negb (nodupb (List.concat (map columns (d0 :: rest))))); [discriminate|].
  simpl in Ei. apply rbind_ok in Ei as (i0 & E0 & Ei).
  apply rbind_ok in Ei as (irest & Er & Ei). inversion Ei; subst idxs; clear Ei.
  assert (Hall : forallb (stamps_eqb i0) irest = true).
  { apply rmap_ok_Forall2 in Er. apply forallb_forall. intros i Hi.
    apply Forall2_flip in Er. destruct (Forall2_In_l _ _ _ i Er Hi) as (d & Hd & Ed).
    cbv beta in Ed. rewrite (Hal d Hd), E0 in Ed. inversion Ed. apply stamps_eqb_refl. }
  rewrite Hall in E. inversion E; subst df; clear E. simpl.
  assert (Hlen : Forall (fun d => List.length (map fields (rows d)) = List.length (rows d0)) rest).
  { apply Forall_forall. intros d Hd. rewrite length_map.
    rewrite <- (length_map label (rows d)), <- (length_map label (rows d0)).
    change (map label (rows d)) with (index d). now rewrite (Hal d Hd). }
  pose proof (fold_add_fields_extends (fun d => map fields (rows d)) rest (rows d0) Hlen) as F.
  eapply Forall2_impl; [|exact F]. intros r0 r (Hl & more & Hf).
  split; [exact Hl|]. intros c v Hc. unfold get. rewrite Hf.
  now rewrite (dict_get_app_l c v _ more Hc).
Qed.

Lemma aligned_join_keeps_first_table_witness :
  exists d0 rest df,
    rmap (level_table (H := Sample.library) Files.activity) levels = Ok (d0 :: rest)
    /\ activity_levels_joined (H := Sample.library) Files.activity = Ok df
    /\ Forall2 (fun r0 r => label r = label r0
                            /\ forall c v, dict_get c (fields r0) = Some v -> get c r = v)
               (rows d0) (rows df).
Proof.
  let ds := eval vm_compute in (rmap (level_table (H := Sample.library) Files.activity) levels) in
  match ds with
  | Ok (?d0 :: ?rest) =>
      let j := eval vm_compute in (concat_columns (d0 :: rest)) in
      match j with
      | Ok ?df =>
          exists d0, rest, df;
          split; [vm_compute; reflexivity|];
          split; [vm_compute; reflexivity|];
          apply (aligned_join_keeps_first_table d0 rest df);
          [ vm_compute; reflexivity
          | intros d Hd; repeat (destruct Hd as [<- | Hd]; [vm_compute; reflexivity|]);
            destruct Hd ]
      end
  end.
Defined.

(* ===================================================================== *)
(** * Activity levels: the join and the full-sedentary-day filter         *)
(* ===================================================================== *)

(** ** Tables whose cells sit under their columns *)

Lemma in_add_key (acc : list string) (k x : string) :
  In x (add_key acc k) <-> In x acc \/ x = k.
Proof.
  unfold add_key. destruct (mem k acc) eqn:E.
  - split; [tauto|]. intros [Hx | ->]; [assumption | now apply mem_In].
  - rewrite in_app_iff. simpl. split.
    + intros [Hx | [<- | []]]; auto.
    + intros [Hx | ->]; auto.
Qed.

Lemma in_fold_add_key (ks : list string) :
  forall acc x, In x (fold_left add_key ks acc) <-> In x acc \/ In x ks.
Proof.
  induction ks as [|k ks IH]; intros acc x; simpl; [tauto|].
  rewrite IH, in_add_key. split.
  - intros [[Hx | ->] | Hx]; auto.
  - intros [Hx | [<- | Hx]]; auto.
Qed.

Lemma in_union_keys_from (recs : list (dict cell)) :
  forall acc x,
    In x (fold_left (fun acc d => fold_left add_key (map fst d) acc) recs acc)
    <-> In x acc \/ exists rec, In rec recs /\ In x (map fst rec).
Proof.
  induction recs as [|d recs IH]; intros acc x; simpl.
  - split; [tauto|]. intros [Hx | (rec & [] & _)]. exact Hx.
  - rewrite IH, in_fold_add_key. split.
    + intros [[Hx | Hx] | (rec & Hr & Hx)]; [tauto | right | right].
      * exists d. auto.
      * exists rec. auto.
    + intros [Hx | (rec & [<- | Hr] & Hx)]; [tauto | tauto |].
      right. exists rec. auto.
Qed.

Lemma in_union_keys (recs : list (dict cell)) (x : string) :
  In x (union_keys recs) <-> exists rec, In rec recs /\ In x (map fst rec).
Proof.
  unfold union_keys. rewrite in_union_keys_from. split; [|tauto].
  intros [[] | Hx]. exact Hx.
Qed.

Lemma in_range_rows (recs : list (dict cell)) :
  forall i r, In r (range_rows i recs) -> In (fields r) recs.
Proof.
  induction recs as [|d recs IH]; intros i r Hr; simpl in *; [exact Hr|].
  destruct Hr as [<- | Hr]; [left; reflexivity | right; eapply IH; exact Hr].
Qed.

Lemma from_records_well_formed (recs : list (dict cell)) : well_formed (from_records recs).
Proof.
  intros r k v Hr Hk. simpl in *. apply in_union_keys.
  exists (fields r). split; [eapply in_range_rows; exact Hr|].
  apply in_map_iff. exists (k, v). auto.
Qed.

Lemma json_normalize_well_formed (sep : string) (l : list json) (df : DataFrame) :
  json_normalize sep (JArr l) = Ok df -> well_formed df.
Proof.
  simpl. unfold json_normalize_list. destruct l as [|j l].
  - intros E; inversion E. intros r k v [].
  - intros E. apply rbind_ok in E as (recs & _ & E). inversion E.
    apply from_records_well_formed.
Qed.

Lemma rename_well_formed (f : string -> string) (df out : DataFrame) :
  rename f df = Ok out -> well_formed df -> well_formed out.
Proof.
  intros E W. pose proof (rename_rows _ _ _ E) as R.
  apply rename_spec in E as (C & _). intros r k v Hr Hk.
  rewrite R in Hr. apply in_map_iff in Hr as (r0 & <- & Hr0). simpl in Hk.
  apply in_map_iff in Hk as ([k0 v0] & Ek & Hk0). simpl in Ek.
  inversion Ek; subst k v. rewrite C. apply in_map. exact (W r0 k0 v0 Hr0 Hk0).
Qed.

Lemma in_dict_set {V} (k : string) (v : V) (d : dict V) (k' : string) (v' : V) :
  In (k', v') (dict_set k v d) -> k' = k \/ In (k', v') d.
Proof.
  induction d as [|[k0 v0] d IH]; simpl.
  - intros [E | []]. inversion E. auto.
  - destruct (k0 =? k); simpl.
    + intros [E | Hin]; [inversion E; auto | auto].
    + intros [E | Hin]; [auto|]. destruct (IH Hin); auto.
Qed.

Lemma in_assign (c : string) (rs : list Row) :
  forall vals r, In r (assign c rs vals) ->
    exists r0 v0, In r0 rs /\ fields r = dict_set c v0 (fields r0).
Proof.
  induction rs as [|r0 rs IH]; intros [|v vals] r Hr; simpl in *; try contradiction.
  destruct Hr as [<- | Hr].
  - exists r0, v. auto.
  - destruct (IH _ _ Hr) as (r1 & v1 & H1 & E1). exists r1, v1. auto.
Qed.

Lemma sort_index_well_formed (df out : DataFrame) :
  sort_index df = Ok out -> well_formed df -> well_formed out.
Proof.
  intros E W. apply sort_index_spec in E as (_ & Hp & C & _).
  intros r k v Hr Hk. rewrite C. apply (W r k v); [|exact Hk].
  exact (Permutation_in _ Hp Hr).
Qed.

Lemma set_index_well_formed (c : string) (df out : DataFrame) :
  set_index c df = Ok out -> well_formed df -> well_formed out.
Proof.
  unfold set_index. destruct (has_column c df); [|discriminate].
  intros E W; inversion E; subst out; clear E. intros r k v Hr Hk. simpl in *.
  apply in_map_iff in Hr as (r0 & <- & Hr0). simpl in Hk.
  unfold remove_key in Hk. apply filter_In in Hk as (Hk & N). simpl in N.
  unfold remove_name. apply filter_In. split; [exact (W r0 k v Hr0 Hk) | exact N].
Qed.

Section WellFormed.

Context `{Library}.

Lemma convert_datetime_well_formed (c : string) (df out : DataFrame) :
  convert_datetime c df = Ok out -> well_formed df -> well_formed out.
Proof.
  intros E W. apply convert_datetime_spec in E as (ts & _ & _ & Hc & R & C & _).
  intros r k v Hr Hk. rewrite C. rewrite R in Hr.
  apply in_assign in Hr as (r0 & v0 & Hr0 & Ef). rewrite Ef in Hk.
  apply in_dict_set in Hk as [-> | Hk]; [now apply mem_In | exact (W r0 k v Hr0 Hk)].
Qed.

Lemma index_by_datetime_well_formed (c : string) (df out : DataFrame) :
  index_by_datetime c df = Ok out -> well_formed df -> well_formed out.
Proof.
  unfold index_by_datetime. intros E W.
  apply rbind_ok in E as (d1 & E1 & E). apply rbind_ok in E as (d2 & E2 & E).
  eapply sort_index_well_formed; [exact E|].
  eapply set_index_well_formed; [exact E2|].
  eapply convert_datetime_well_formed; [exact E1 | exact W].
Qed.

Lemma files_to_df_well_formed (fs : directory) (file_list : list string)
    (columns : string -> string) (datetime : bool) (df : DataFrame) :
  files_to_df fs file_list columns datetime = Ok df -> well_formed df.
Proof.
  unfold files_to_df. intros E.
  apply rbind_ok in E as (data & _ & E). apply rbind_ok in E as (d1 & E1 & E).
  apply rbind_ok in E as (d2 & E2 & E).
  assert (W2 : well_formed d2).
  { eapply rename_well_formed; [exact E2|].
    eapply json_normalize_well_formed; exact E1. }
  destruct datetime.
  - eapply index_by_datetime_well_formed; [exact E | exact W2].
  - inversion E; subst; exact W2.
Qed.

(** The columns of a table [files_to_df] indexes by [datetime]: the
    renamed keys of the flattened records, less [datetime]. *)
Lemma files_to_df_columns (fs : directory) (file_list : list string)
    (columns : string -> string) (df : DataFrame) :
  files_to_df fs file_list columns true = Ok df ->
  exists records recs,
    files_to_json fs file_list = Ok records
    /\ rmap (simple_json_normalize ".") records = Ok recs
    /\ forall c, In c (Pd.columns df)
                 <-> c <> "datetime"
                     /\ exists rec k, In rec recs /\ In k (map fst rec) /\ columns k = c.
Proof.
  unfold files_to_df. intros E.
  apply rbind_ok in E as (records & Er & E). apply rbind_ok in E as (d1 & E1 & E).
  apply rbind_ok in E as (d2 & E2 & E).
  apply rename_spec in E2 as (C2 & _).
  apply index_by_datetime_spec in E as (ts & _ & _ & _ & _ & _ & C & _).
  exists records.
  assert (exists recs, rmap (simple_json_normalize ".") records = Ok recs
                       /\ Pd.columns d1 = union_keys recs) as (recs & Ef & C1).
  { simpl in E1. unfold json_normalize_list in E1. destruct records as [|j l].
    - inversion E1. exists []. split; reflexivity.
    - apply rbind_ok in E1 as (recs & Ef & E1). inversion E1. exists recs. auto. }
  exists recs. split; [exact Er|]. split; [exact Ef|].
  intros c. rewrite C, C2, C1. unfold remove_name. rewrite filter_In, in_map_iff.
  rewrite negb_true_iff, String.eqb_neq. split.
  - intros ((k & Ek & Hk) & N). split; [exact N|].
    apply in_union_keys in Hk as (rec & Hr & Hk). exists rec, k. auto.
  - intros (N & rec & k & Hr & Hk & Ek). split; [|exact N].
    exists k. split; [exact Ek|]. apply in_union_keys. exists rec. auto.
Qed.

End WellFormed.

(** ** Index labels of the joined tables *)

Lemma label_stamp_ok (c : cell) (s : stamp) : label_stamp c = Ok s -> c = of_stamp s.
Proof. destruct c; simpl; intros E; inversion E; reflexivity. Qed.

Lemma label_stamp_of_stamp (s : stamp) : label_stamp (of_stamp s) = Ok s.
Proof. destruct s; reflexivity. Qed.

Lemma rmap_label_stamp (l : list cell) (i : list stamp) :
  rmap label_stamp l = Ok i -> l = map of_stamp i.
Proof.
  intros E. apply rmap_ok_Forall2 in E.
  induction E as [|c s l i Ec _ IH]; simpl; [reflexivity|].
  now rewrite (label_stamp_ok _ _ Ec), IH.
Qed.

Lemma stamp_eqb_eq (a b : stamp) : stamp_eqb a b = true <-> a = b.
Proof.
  destruct a as [x|], b as [y|]; simpl; split; intros E;
    try discriminate; try reflexivity.
  - apply Z.eqb_eq in E. now subst.
  - inversion E. apply Z.eqb_refl.
Qed.

Lemma stamps_eqb_eq (a : list stamp) : forall b, stamps_eqb a b = true -> a = b.
Proof.
  induction a as [|x a IH]; intros [|y b] E; simpl in E; try discriminate; [reflexivity|].
  apply andb_true_iff in E as (Exy & E). apply stamp_eqb_eq in Exy.
  now rewrite Exy, (IH b E).
Qed.

Lemma stamp_mem_In (s : stamp) (l : list stamp) : stamp_mem s l = true <-> In s l.
Proof.
  unfold stamp_mem. rewrite existsb_exists. split.
  - intros (x & Hx & E). apply stamp_eqb_eq in E. now subst.
  - intros Hs. exists s. split; [exact Hs | now apply stamp_eqb_eq].
Qed.

Lemma in_union_append (acc other : list stamp) (s : stamp) :
  In s (union_append acc other) <-> In s acc \/ In s other.
Proof.
  unfold union_append. rewrite in_app_iff, filter_In. split.
  - intros [Hs | (Hs & _)]; auto.
  - intros [Hs | Hs]; [auto|].
    destruct (stamp_mem s acc) eqn:E; [left; now apply stamp_mem_In | right; auto].
Qed.

Lemma in_fold_union_append (l : list (list stamp)) :
  forall acc s,
    In s (fold_left union_append l acc) <-> In s acc \/ exists i, In i l /\ In s i.
Proof.
  induction l as [|i l IH]; intros acc s; simpl.
  - split; [tauto|]. intros [Hs | (i & [] & _)]. exact Hs.
  - rewrite IH, in_union_append. split.
    + intros [[Hs | Hs] | (j & Hj & Hs)]; [tauto | right | right].
      * exists i. auto.
      * exists j. auto.
    + intros [Hs | (j & [<- | Hj] & Hs)]; [tauto | tauto |].
      right. exists j. auto.
Qed.

(** ** The cells of a column-wise join *)

Lemma dict_get_app {V} (k : string) (a b : dict V) :
  dict_get k (a ++ b)
  = match dict_get k a with Some v => Some v | None => dict_get k b end.
Proof.
  induction a as [|[k0 v0] a IH]; simpl; [reflexivity|].
  destruct (k0 =? k); [reflexivity | exact IH].
Qed.

Lemma dict_get_absent {V} (k : string) (d : dict V) :
  (forall v, ~ In (k, v) d) -> dict_get k d = None.
Proof.
  induction d as [|[k0 v0] d IH]; simpl; intros N; [reflexivity|].
  destruct (k0 =? k) eqn:E.
  - apply String.eqb_eq in E. subst k0. exfalso. apply (N v0). left. reflexivity.
  - apply IH. intros v Hv. apply (N v). right. exact Hv.
Qed.

Lemma nodupb_NoDup (l : list string) : nodupb l = true -> NoDup l.
Proof.
  induction l as [|x l IH]; simpl; intros E; [constructor|].
  apply andb_true_iff in E as (Ex & E). constructor; [|exact (IH E)].
  intros Hx. apply mem_In in Hx. rewrite Hx in Ex. discriminate.
Qed.

Lemma NoDup_app_disjoint {A} (a b : list A) (x : A) :
  NoDup (a ++ b) -> In x a -> ~ In x b.
Proof.
  induction a as [|y a IH]; simpl; intros N Ha Hb; [exact Ha|].
  inversion N as [|? ? Hy N']; subst. destruct Ha as [-> | Ha].
  - apply Hy. apply in_app_iff. right. exact Hb.
  - exact (IH N' Ha Hb).
Qed.

Lemma NoDup_app_tail {A} (a b : list A) : NoDup (a ++ b) -> NoDup b.
Proof.
  induction a as [|y a IH]; simpl; intros N; [exact N|].
  inversion N; subst. auto.
Qed.

(** The cells a table gives are under its columns. *)
Lemma piece_of_keys (d : DataFrame) (b : cell) (p : dict cell) (k : string) (v : cell) :
  well_formed d -> piece_of d b p -> In (k, v) p -> In k (columns d).
Proof.
  intros W [(r' & Hr & _ & ->) | (_ & ->)] Hk; [exact (W r' k v Hr Hk) | destruct Hk].
Qed.

(** Among the pieces of tables with distinct columns, a column is looked
    up in the piece of its own table. *)
Lemma lookup_in_pieces (b : cell) (ds : list DataFrame) (ps : list (dict cell)) :
  Forall2 (fun d p => piece_of d b p) ds ps ->
  (forall d, In d ds -> well_formed d) ->
  NoDup (List.concat (map columns ds)) ->
  forall d c, In d ds -> In c (columns d) ->
    exists p, piece_of d b p /\ dict_get c (List.concat ps) = dict_get c p.
Proof.
  induction 1 as [|d0 p0 ds ps P0 F IH]; intros W N d c Hd Hc; [destruct Hd|].
  simpl in N |- *. rewrite dict_get_app.
  assert (Tail : forall d', In d' ds -> In c (columns d') ->
                   exists p, piece_of d' b p /\ dict_get c (List.concat ps) = dict_get c p).
  { intros d' Hd' Hc'. apply IH; auto.
    - intros x Hx. apply W. right. exact Hx.
    - exact (NoDup_app_tail _ _ N). }
  destruct (in_dec string_dec c (List.concat (map columns ds))) as [I | I].
  - (* the column belongs to a later table *)
    assert (N0 : ~ In c (columns d0)).
    { intros H0. exact (NoDup_app_disjoint _ _ c N H0 I). }
    rewrite (dict_get_absent c p0).
    + destruct Hd as [<- | Hd]; [contradiction | exact (Tail d Hd Hc)].
    + intros v Hv. apply N0.
      eapply piece_of_keys; [apply W; left; reflexivity | exact P0 | exact Hv].
  - (* the column belongs to no later table *)
    assert (E : dict_get c (List.concat ps) = None).
    { apply dict_get_absent. intros v Hv. apply I.
      apply in_concat in Hv as (p & Hp & Hv).
      apply Forall2_flip in F.
      destruct (Forall2_In_l _ _ _ p F Hp) as (d' & Hd' & Pd').
      apply in_concat. exists (columns d'). split; [now apply in_map|].
      eapply piece_of_keys; [apply W; right; exact Hd' | exact Pd' | exact Hv]. }
    destruct Hd as [<- | Hd].
    + exists p0. split; [exact P0|]. rewrite E. now destruct (dict_get c p0).
    + exfalso. apply I. apply in_concat. exists (columns d). split; [now apply in_map | exact Hc].
Qed.

Lemma add_fields_pieces (P : cell -> dict cell -> Prop) (rs : list Row) :
  forall ps,
    Forall2 P (map label rs) ps ->
    Forall2 (fun b b' => label b' = label b
                         /\ exists p, fields b' = fields b ++ p /\ P (label b) p)
            rs (add_fields rs ps).
Proof.
  induction rs as [|r rs IH]; intros ps F; simpl in *.
  - inversion F; subst. constructor.
  - inversion F as [|? p ? ps' Hp F']; subst. simpl. constructor.
    + split; [reflexivity|]. exists p. auto.
    + apply IH. exact F'.
Qed.

Lemma Forall2_labels {B} (R : Row -> B -> Prop) (rs : list Row) (l : list B) (f : B -> cell) :
  Forall2 R rs l -> (forall r x, R r x -> f x = label r) -> map f l = map label rs.
Proof.
  intros F Hl. induction F as [|r x rs l Hr _ IH]; simpl; [reflexivity|].
  now rewrite (Hl r x Hr), IH.
Qed.

Lemma Forall2_compose {A B C} (R1 : A -> B -> Prop) (R2 : B -> C -> Prop)
    (R : A -> C -> Prop) (a : list A) (b : list B) (c : list C) :
  Forall2 R1 a b -> Forall2 R2 b c ->
  (forall x y z, R1 x y -> R2 y z -> R x z) ->
  Forall2 R a c.
Proof.
  intros F1. revert c. induction F1 as [|x y a b Hxy _ IH]; intros c F2 Hr.
  - inversion F2; subst. constructor.
  - inversion F2 as [|? z ? c' Hyz F2']; subst. constructor; [eauto | now apply IH].
Qed.

(** The rows of a join built piece by piece: each row keeps its label and
    holds, after its own cells, one piece of every table, in order. *)
Lemma fold_add_fields_pieces (g : DataFrame -> list (dict cell)) (ds : list DataFrame) :
  forall rs,
    (forall d, In d ds -> Forall2 (piece_of d) (map label rs) (g d)) ->
    Forall2 (fun b r => label r = label b
                        /\ exists ps, fields r = fields b ++ List.concat ps
                                      /\ Forall2 (fun d p => piece_of d (label b) p) ds ps)
            rs (fold_left (fun acc d => add_fields acc (g d)) ds rs).
Proof.
  induction ds as [|d ds IH]; intros rs Hg; simpl.
  - clear Hg. induction rs as [|r rs IHr]; constructor; [|exact IHr].
    split; [reflexivity|]. exists []. split; [now rewrite app_nil_r | constructor].
  - pose proof (add_fields_pieces (piece_of d) rs (g d) (Hg d (or_introl eq_refl))) as F1.
    assert (L1 : map label (add_fields rs (g d)) = map label rs).
    { eapply Forall2_labels; [exact F1|]. intros r x (E & _). exact E. }
    assert (F2 := IH (add_fields rs (g d))). rewrite L1 in F2.
    specialize (F2 (fun d' Hd' => Hg d' (or_intror Hd'))).
    eapply Forall2_compose; [exact F1 | exact F2|].
    intros b b' r (Lb & p & Eb & Pb) (Lr & ps & Er & Ps). cbv beta.
    split; [congruence|]. exists (p :: ps). split.
    + simpl. rewrite Er, Eb. now rewrite app_assoc.
    + constructor; [exact Pb|]. rewrite <- Lb. exact Ps.
Qed.

Lemma add_fields_blank (rs : list Row) :
  add_fields (map (fun r => mkRow (label r) []) rs) (map fields rs) = rs.
Proof.
  induction rs as [|[l f] rs IH]; simpl; [reflexivity | now rewrite IH].
Qed.

Lemma own_pieces (d : DataFrame) (l : list Row) :
  (forall r, In r l -> In r (rows d)) ->
  Forall2 (piece_of d) (map label l) (map fields l).
Proof.
  induction l as [|r l IH]; intros Hl; simpl; constructor.
  - left. exists r. split; [apply Hl; left; reflexivity | auto].
  - apply IH. intros x Hx. apply Hl. right. exact Hx.
Qed.

Lemma fields_at_piece (d : DataFrame) (s : stamp) :
  piece_of d (of_stamp s) (fields_at d s).
Proof.
  unfold fields_at.
  destruct (find (fun r => match label_stamp (label r) with
                           | Ok s' => stamp_eqb s' s
                           | _ => false
                           end) (rows d)) as [r'|] eqn:E.
  - apply find_some in E as (Hr & Hs). left. exists r'. split; [exact Hr|].
    split; [|reflexivity].
    destruct (label_stamp (label r')) as [s'| |] eqn:El; try discriminate.
    apply stamp_eqb_eq in Hs. subst s'. now apply label_stamp_ok.
  - right. split; [|reflexivity]. intros r' Hr El.
    pose proof (find_none _ _ E r' Hr) as Hn. cbv beta in Hn.
    rewrite El, label_stamp_of_stamp in Hn.
    assert (T : stamp_eqb s s = true) by now apply stamp_eqb_eq.
    rewrite T in Hn. discriminate.
Qed.

Lemma reindexed_pieces (d : DataFrame) (idx : list stamp) :
  Forall2 (piece_of d) (map of_stamp idx) (map (fields_at d) idx).
Proof.
  induction idx as [|s idx IH]; simpl; constructor; [apply fields_at_piece | exact IH].
Qed.

(** The rows of a column-wise join, under either way of joining: each
    has one piece of every table, in the order of the tables; and every
    label of every table labels a row. *)
Lemma concat_columns_pieces (dfs : list DataFrame) (df : DataFrame) :
  concat_columns dfs = Ok df ->
  NoDup (List.concat (map columns dfs))
  /\ (forall r, In r (rows df) ->
        exists ps, fields r = List.concat ps
                   /\ Forall2 (fun d p => piece_of d (label r) p) dfs ps)
  /\ (forall d r', In d dfs -> In r' (rows d) ->
        exists r, In r (rows df) /\ label r = label r').
Proof.
  unfold concat_columns. destruct dfs as [|d0 rest]; [discriminate|]. intros E.
  apply rbind_ok in E as (idxs & Ei & E).
  destruct (nodupb (List.concat (map columns (d0 :: rest)))) eqn:Nd; [|discriminate].
  split; [now apply nodupb_NoDup|]. simpl negb in E. cbv iota in E.
  pose proof (rmap_ok_Forall2 _ _ _ Ei) as Fi.
  destruct idxs as [|i0 irest]; [discriminate|].
  inversion Fi as [|? ? ? ? E0 Fr]; subst. cbv beta in E0.
  assert (Stamps : forall d r', In d (d0 :: rest) -> In r' (rows d) ->
            exists i s, In i (i0 :: irest) /\ In s i /\ label r' = of_stamp s).
  { intros d r' Hd Hr.
    destruct (Forall2_In_l _ _ _ d Fi Hd) as (i & Hi & Ed). cbv beta in Ed.
    apply rmap_label_stamp in Ed.
    assert (Hl : In (label r') (map of_stamp i)).
    { rewrite <- Ed. unfold index. now apply in_map. }
    apply in_map_iff in Hl as (s & Es & Hs). exists i, s. auto. }
  destruct (forallb (stamps_eqb i0) irest) eqn:Al.
  - (* the tables have the same index *)
    inversion E; subst df; clear E. simpl.
    assert (Same : forall d, In d (d0 :: rest) -> index d = index d0).
    { intros d Hd. destruct (Forall2_In_l _ _ _ d Fi Hd) as (i & Hi & Ed). cbv beta in Ed.
      apply rmap_label_stamp in Ed. apply rmap_label_stamp in E0.
      destruct Hi as [<- | Hi]; [congruence|].
      rewrite forallb_forall in Al. apply Al, stamps_eqb_eq in Hi. congruence. }
    set (blanks := map (fun r => mkRow (label r) []) (rows d0)).
    assert (Lb : map label blanks = index d0).
    { unfold blanks, index. rewrite map_map. reflexivity. }
    assert (F : Forall2 (fun b r => label r = label b
                  /\ exists ps, fields r = fields b ++ List.concat ps
                        /\ Forall2 (fun d p => piece_of d (label b) p) (d0 :: rest) ps)
                blanks
                (fold_left (fun acc d => add_fields acc (map fields (rows d)))
                           (d0 :: rest) blanks)).
    { apply fold_add_fields_pieces. intros d Hd. rewrite Lb, <- (Same d Hd).
      apply own_pieces. auto. }
    simpl in F. unfold blanks in F at 2. rewrite add_fields_blank in F. split.
    + intros r Hr. apply Forall2_flip in F.
      destruct (Forall2_In_l _ _ _ r F Hr) as (b & Hb & Lr & ps & Ef & Ps).
      unfold blanks in Hb. apply in_map_iff in Hb as (r0 & <- & _). simpl in *.
      exists ps. split; [exact Ef|]. now rewrite Lr.
    + intros d r' Hd Hr'.
      assert (Hl : In (label r') (map label blanks)).
      { rewrite Lb, <- (Same d Hd). unfold index. now apply in_map. }
      apply in_map_iff in Hl as (b & Eb & Hb).
      destruct (Forall2_In_l _ _ _ b F Hb) as (r & Hr & Lr & _).
      exists r. split; [exact Hr | congruence].
  - (* the union of the indexes *)
    destruct (forallb stamps_unique (i0 :: irest)); [|discriminate].
    inversion E; subst df; clear E. simpl rows.
    set (new_index := sort_by of_stamp (fold_left union_append irest i0)).
    set (blanks := map (fun s => mkRow (of_stamp s) []) new_index).
    assert (Lb : map label blanks = map of_stamp new_index).
    { unfold blanks. rewrite map_map. reflexivity. }
    assert (F : Forall2 (fun b r => label r = label b
                  /\ exists ps, fields r = fields b ++ List.concat ps
                        /\ Forall2 (fun d p => piece_of d (label b) p) (d0 :: rest) ps)
                blanks
                (fold_left (fun acc d => add_fields acc (map (fields_at d) new_index))
                           (d0 :: rest) blanks)).
    { apply fold_add_fields_pieces. intros d Hd. rewrite Lb. apply reindexed_pieces. }
    split.
    + intros r Hr. apply Forall2_flip in F.
      destruct (Forall2_In_l _ _ _ r F Hr) as (b & Hb & Lr & ps & Ef & Ps).
      unfold blanks in Hb. apply in_map_iff in Hb as (s & <- & _). simpl in *.
      exists ps. split; [exact Ef|]. now rewrite Lr.
    + intros d r' Hd Hr'.
      destruct (Stamps d r' Hd Hr') as (i & s & Hi & Hs & El).
      assert (Hn : In s new_index).
      { unfold new_index. apply (Permutation_in _ (Permutation_sym (sort_by_perm _ _))).
        apply in_fold_union_append. destruct Hi as [<- | Hi]; [left; exact Hs|].
        right. exists i. auto. }
      assert (Hb : In (mkRow (of_stamp s) []) blanks).
      { unfold blanks. apply in_map_iff. exists s. auto. }
      destruct (Forall2_In_l _ _ _ _ F Hb) as (r & Hr & Lr & _).
      exists r. split; [exact Hr|]. simpl in Lr. congruence.
Qed.

(** The join cell by cell: under a column of one of the tables, a row of
    the join holds the cell of that table's row with the same label, or
    NaN when the table has no such row; and the join has a row for every
    label of every table. *)
Lemma concat_columns_cells (dfs : list DataFrame) (df : DataFrame) :
  concat_columns dfs = Ok df ->
  (forall d, In d dfs -> well_formed d) ->
  (forall d c r, In d dfs -> In c (columns d) -> In r (rows df) -> joined_cell d c r)
  /\ (forall d r', In d dfs -> In r' (rows d) ->
        exists r, In r (rows df) /\ label r = label r').
Proof.
  intros E W. destruct (concat_columns_pieces _ _ E) as (N & Hp & Hl).
  split; [|exact Hl]. intros d c r Hd Hc Hr.
  destruct (Hp r Hr) as (ps & Ef & Ps).
  destruct (lookup_in_pieces _ _ _ Ps W N d c Hd Hc) as (p & Pp & Eg).
  unfold joined_cell, get. rewrite Ef, Eg.
  destruct Pp as [(r' & Hr' & Lr & ->) | (Hn & ->)].
  - left. exists r'. auto.
  - right. split; [exact Hn | reflexivity].
Qed.

(** ** The cast and the filter *)

(** A cast that succeeds gives a 64-bit integer. *)
Lemma astype_int_in_int64 (f : string -> option Z) (c : cell) (n : Z) :
  astype_int f c = Ok n -> in_int64 n = true.
Proof.
  destruct c as [|j| |]; simpl; try discriminate.
  destruct j as [|b|i|m e| |s| |]; simpl; try discriminate.
  - intros E; inversion E. now destruct b.
  - destruct (in_int64 i) eqn:Ei.
    + intros E; inversion E; subst. exact Ei.
    + destruct (_ && _); discriminate.
  - destruct (in_int64 (trunc_float m e)) eqn:Ei; [|discriminate].
    intros E; inversion E; subst. exact Ei.
  - destruct (f s) as [k|]; simpl; [|discriminate]. unfold to_int64.
    destruct (in_int64 k) eqn:Ei; [|discriminate].
    intros E; inversion E; subst. exact Ei.
Qed.

(** An integer that no 64-bit column holds makes the cast raise, as a
    number and as a string of digits. *)
Lemma astype_int_overflow (f : string -> option Z) (n : Z) :
  (n < int64_min \/ 2 ^ 64 <= n)%Z ->
  astype_int f (Val (JInt n)) = Raised
  /\ forall s, f s = Some n -> astype_int f (Val (JStr s)) = Raised.
Proof.
  intros Hn.
  assert (E : in_int64 n = false).
  { unfold in_int64, int64_min, int64_max in *. apply andb_false_iff.
    destruct Hn as [Hn | Hn]; [left; apply Z.leb_gt | right; apply Z.leb_gt]; lia. }
  split.
  - unfold astype_int. rewrite E.
    assert (E2 : ((0 <=? n)%Z && (n <? 2 ^ 64)%Z) = false).
    { apply andb_false_iff. unfold int64_min in Hn.
      destruct Hn as [Hn | Hn]; [left; apply Z.leb_gt | right; apply Z.ltb_ge]; lia. }
    now rewrite E2.
  - intros s Es. unfold astype_int. rewrite Es. simpl. unfold to_int64. now rewrite E.
Qed.

Section ActivityLevels.

Context `{Library}.

Lemma level_tables_well_formed (fs : directory) (tables : list DataFrame) :
  rmap (level_table fs) levels = Ok tables ->
  forall d, In d tables -> well_formed d.
Proof.
  intros Er d Hd. apply rmap_ok_Forall2, Forall2_flip in Er.
  destruct (Forall2_In_l _ _ _ d Er Hd) as (level & _ & Et). cbv beta in Et.
  unfold level_table in Et. eapply files_to_df_well_formed; exact Et.
Qed.

Lemma drop_full_sedentary_spec (df out : DataFrame) :
  drop_full_sedentary df = Ok out ->
  In "sedentary" (columns df)
  /\ columns out = columns df
  /\ (forall r, In r (rows df) ->
        exists n, astype_int int_of_str (get "sedentary" r) = Ok n /\ in_int64 n = true)
  /\ (forall r, In r (rows out) <->
        In r (rows df) /\ astype_int int_of_str (get "sedentary" r) <> Ok 1440%Z).
Proof.
  unfold drop_full_sedentary, column. intros E.
  destruct (has_column "sedentary" df) eqn:Hc; [|discriminate]. simpl in E.
  apply rbind_ok in E as (ints & Ei & E). inversion E; subst out; clear E.
  unfold select; simpl.
  assert (Cast : forall r, In r (rows df) ->
            exists n, astype_int int_of_str (get "sedentary" r) = Ok n /\ in_int64 n = true).
  { intros r Hr. apply rmap_ok_Forall2 in Ei.
    destruct (Forall2_In_l _ _ _ (get "sedentary" r) Ei (in_map _ _ _ Hr)) as (n & _ & En).
    exists n. split; [exact En | exact (astype_int_in_int64 _ _ _ En)]. }
  split; [now apply mem_In|]. split; [reflexivity|]. split; [exact Cast|].
  intros r. rewrite filter_In. split.
  - intros (Hr & Hk). split; [exact Hr|]. intros En. rewrite En in Hk. discriminate.
  - intros (Hr & Hn). split; [exact Hr|].
    destruct (Cast r Hr) as (n & En & _). rewrite En.
    apply negb_true_iff, Z.eqb_neq. intros ->. exact (Hn En).
Qed.

(** C4 (amended).  The table [prep_activity_level_data] writes is the
    column-wise join of the four level tables without the rows whose
    sedentary cell, cast to a 64-bit integer, is 1440: the cast succeeds
    on every row of the join, the rows whose cast gives 1440 are gone, and
    a row whose cast gives 1439 (or any other number) stays.
    The written table has the columns of the four level tables, in the
    order of the levels.  [sedentary] is always one of them.  A level
    table has a column [c] exactly when a record of the level's files has
    a key that the level's rename table sends to [c], other than
    [datetime]; so the column of a level is there when one of its records
    has a [value] key, and is not promised otherwise.
    Under a column of a level table, a written row holds the cell of that
    table's row with the same timestamp, or NaN when the level has no
    record for this timestamp; and the join has a row for every timestamp
    of every level table. *)
Theorem full_sedentary_days_dropped (fs : directory) (out : DataFrame) :
  In (ToCsv "activity_levels.csv" out) (trace (prep_activity_level_data fs)) ->
  exists tables df,
    rmap (level_table fs) levels = Ok tables
    /\ concat_columns tables = Ok df
    /\ activity_levels_joined fs = Ok df
    /\ (forall r, In r (rows df) ->
          exists n, astype_int int_of_str (get "sedentary" r) = Ok n /\ in_int64 n = true)
    /\ (forall r, In r (rows out) <->
          In r (rows df) /\ astype_int int_of_str (get "sedentary" r) <> Ok 1440%Z)
    /\ (forall r, In r (rows df) ->
          astype_int int_of_str (get "sedentary" r) = Ok 1440%Z -> ~ In r (rows out))
    /\ (forall r, In r (rows df) ->
          astype_int int_of_str (get "sedentary" r) = Ok 1439%Z -> In r (rows out))
    /\ (forall r n, In r (rows df) ->
          astype_int int_of_str (get "sedentary" r) = Ok n -> n <> 1440%Z -> In r (rows out))
    /\ columns out = columns df
    /\ columns out = List.concat (map columns tables)
    /\ In "sedentary" (columns out)
    /\ (forall level d, In level levels -> level_table fs level = Ok d ->
          In d tables
          /\ exists records recs,
               files_to_json fs (Str.sorted (glob fs (level ++ "_minutes-*.json")%string))
               = Ok records
               /\ rmap (simple_json_normalize ".") records = Ok recs
               /\ (forall c, In c (columns d)
                             <-> c <> "datetime"
                                 /\ exists rec k, In rec recs /\ In k (map fst rec)
                                                  /\ mapper (level_columns level) k = c)
               /\ ((exists rec, In rec recs /\ In "value" (map fst rec)) ->
                   In (Str.replace "_active" "" level) (columns out)))
    /\ (forall d c r, In d tables -> In c (columns d) -> In r (rows out) ->
          joined_cell d c r)
    /\ (forall d r', In d tables -> In r' (rows d) ->
          exists r, In r (rows df) /\ label r = label r').
Proof.
  intros Hin. unfold prep_activity_level_data in Hin. split_trace Hin; try discriminate.
  rewrite outcome_lift in *. inversion Hin; subst; clear Hin.
  match goal with Hj : activity_levels_joined fs = Ok ?x |- _ =>
    rename Hj into Ej; rename x into df end.
  match goal with Hd : drop_full_sedentary df = Ok out |- _ => rename Hd into Ed end.
  pose proof Ej as Ej'. unfold activity_levels_joined in Ej'.
  apply rbind_ok in Ej' as (tables & Er & Ec).
  pose proof (level_tables_well_formed _ _ Er) as W.
  destruct (concat_columns_cells _ _ Ec W) as (Cells & Labels).
  apply drop_full_sedentary_spec in Ed as (Hs & Co & Cast & Rows).
  pose proof (concat_columns_columns _ _ Ec) as Cj.
  exists tables, df.
  split; [exact Er|]. split; [exact Ec|]. split; [exact Ej|]. split; [exact Cast|].
  split; [exact Rows|].
  assert (K : forall r n, In r (rows df) ->
                astype_int int_of_str (get "sedentary" r) = Ok n -> n <> 1440%Z ->
                In r (rows out)).
  { intros r n Hr En Hn. apply Rows. split; [exact Hr|]. rewrite En.
    intros E'; inversion E'. contradiction. }
  split; [|split; [|split; [exact K|]]].
  { intros r Hr En Ho. apply Rows in Ho as (_ & Hn). exact (Hn En). }
  { intros r Hr En. apply (K r 1439%Z); [exact Hr | exact En | discriminate]. }
  split; [exact Co|]. split; [now rewrite Co|]. split; [now rewrite Co|].
  split; [|split; [|exact Labels]].
  - intros level d Hl Et.
    assert (Hd : In d tables).
    { pose proof (rmap_ok_Forall2 _ _ _ Er) as F.
      destruct (Forall2_In_l _ _ _ level F Hl) as (d' & Hd' & Et'). cbv beta in Et'.
      rewrite Et in Et'. now inversion Et'; subst. }
    split; [exact Hd|].
    pose proof Et as Et2. unfold level_table in Et2.
    destruct (files_to_df_columns _ _ _ _ Et2) as (records & recs & Efj & Ef & Hc).
    exists records, recs. split; [exact Efj|]. split; [exact Ef|]. split; [exact Hc|].
    intros (rec & Hrec & Hv). rewrite Co, Cj. apply in_concat.
    exists (columns d). split; [now apply in_map|]. apply Hc. split.
    + simpl in Hl.
      repeat (destruct Hl as [<- | Hl]; [intros Ex; discriminate Ex|]). destruct Hl.
    + exists rec, "value". split; [exact Hrec|]. split; [exact Hv | reflexivity].
  - intros d c r Hd Hc Hr. apply Rows in Hr as (Hr & _). exact (Cells d c r Hd Hc Hr).
Qed.

End ActivityLevels.

Lemma full_sedentary_days_dropped_witness :
  exists out,
    In (ToCsv "activity_levels.csv" out)
       (trace (prep_activity_level_data (H := Sample.library) Files.activity_with_gaps))
    /\ columns out = ["sedentary"; "lightly"; "moderately"; "very"]
    /\ map (fun r => (label r, get "sedentary" r, get "lightly" r, get "very" r)) (rows out)
       = [(Time 20230102, Val (JStr "1439"), Missing, Val (JStr "0"));
          (Time 20230103, Val (JStr "1000"), Val (JStr "300"), Missing)]
    /\ exists tables df,
         rmap (level_table (H := Sample.library) Files.activity_with_gaps) levels = Ok tables
         /\ concat_columns tables = Ok df
         /\ columns out = List.concat (map columns tables)
         /\ (forall d c r, In d tables -> In c (columns d) -> In r (rows out) ->
               joined_cell d c r).
Proof.
  let t := eval vm_compute in
      (trace (prep_activity_level_data (H := Sample.library) Files.activity_with_gaps)) in
  match t with
  | [_; ToCsv _ ?out; _] =>
      assert (I : In (ToCsv "activity_levels.csv" out)
                    (trace (prep_activity_level_data (H := Sample.library)
                              Files.activity_with_gaps)))
        by (vm_compute; right; left; reflexivity);
      exists out; split; [exact I | split; [vm_compute; reflexivity | split;
        [vm_compute; reflexivity|]]];
      destruct (@full_sedentary_days_dropped Sample.library Files.activity_with_gaps out I)
        as (tables & df & Er & Ec & _ & _ & _ & _ & _ & _ & _ & Cc & _ & _ & Cells & _);
      exists tables, df; split; [exact Er | split; [exact Ec | split; [exact Cc | exact Cells]]]
  end.
Defined.

(** The claim's last part fails on records without a [value] entry: with
    such records in the lightly-active file the run completes, the day
    with 1439 sedentary minutes is written, and the table has no column
    [lightly]. *)
Lemma sedentary_1439_row_without_lightly_column :
  exists out r,
    In (ToCsv "activity_levels.csv" out)
       (trace (prep_activity_level_data (H := Sample.library) Files.activity_without_value))
    /\ outcome (prep_activity_level_data (H := Sample.library) Files.activity_without_value)
       = Ok tt
    /\ In r (rows out)
    /\ astype_int (int_of_str (Library := Sample.library)) (get "sedentary" r) = Ok 1439%Z
    /\ columns out = ["sedentary"; "moderately"; "very"]
    /\ ~ In "lightly" (columns out).
Proof.
  let t := eval vm_compute in
      (trace (prep_activity_level_data (H := Sample.library) Files.activity_without_value)) in
  match t with
  | [_; ToCsv _ ?out; _] =>
      exists out;
      match out with
      | {| rows := [?r] |} => exists r
      end
  end.
  split; [vm_compute; right; left; reflexivity|].
  split; [vm_compute; reflexivity|].
  split; [left; reflexivity|].
  split; [vm_compute; reflexivity|].
  split; [reflexivity|].
  simpl. intros [E | [E | [E | []]]]; discriminate E.
Qed.
